(** * AI code review for GitLab: orchestration, aggregation and reporting

    A shallow embedding of the review pipeline of the repository
    ([scripts/ai_reviewer.py], [scripts/gemini_client.py],
    [scripts/report_generator.py], [scripts/web_server.py]) and the
    properties its design document states about it.

    Conventions of the embedding.
    - A Python value is a [value]: [None], booleans, numbers, strings,
      lists and dictionaries with string keys, which is what [json.loads]
      produces and what the scripts build themselves.  [VNum q] is the
      [int] [q] when [q] is whole and otherwise the [float] whose exact
      value is [q]; a float with a whole value is read as that [int],
      which changes no result while it stays within 2^53 in magnitude.
      A float that is infinite or not a number is no [value].  The
      results of arithmetic are Python numbers ([pynum]): an exact
      [int], or a [float] rounded to binary64, infinite or not a number.
    - A Python [str] is a Rocq [string] whose characters are read as the
      code points 0..255.
    - A computation that may raise is a [res]: [Ok v] or [Raise e].
    - Library functions of Python that the scripts call and whose text is
      not part of the repository ([json.loads], [float] on a string,
      [str] of a non-string, [pathlib.Path.suffix], the serialisation of
      an XML tree, the Gemini and GitLab services) are Section
      variables. *)

From Stdlib Require Import String Ascii List ZArith QArith Qabs Qround Lia Bool.
From stdpp Require Import base gmap strings list pretty.
Import ListNotations.

Local Open Scope string_scope.

(* ================================================================== *)
(** * Part I. Python values                                             *)
(* ================================================================== *)

#[warnings="-register-all"]
Inductive value : Type :=
| VNone
| VBool (b : bool)
| VNum (q : Q)
| VStr (s : string)
| VList (l : list value)
| VDict (d : list (string * value)).

(** A dictionary with string keys, in insertion order. *)
Abbreviation dict := (list (string * value)).

(** The exceptions the scripts can meet. *)
Inductive exc : Type :=
| TypeError
| AttributeError
| KeyError
| ValueError
| OverflowError
| ExpatError
| ServiceError (msg : string).

Inductive res (A : Type) : Type :=
| Ok (a : A)
| Raise (e : exc).
Arguments Ok {A} a.
Arguments Raise {A} e.

Definition bind {A B : Type} (m : res A) (k : A -> res B) : res B :=
  match m with
  | Ok a => k a
  | Raise e => Raise e
  end.

Notation "'do' x <- m ; k" := (bind m (fun x => k))
  (at level 10, x name, m at level 100, k at level 200).

(** [for x in l: acc = body(acc, x)], stopping at the first exception. *)
Fixpoint for_each {A S : Type} (body : S -> A -> res S) (l : list A) (acc : S)
  : res S :=
  match l with
  | [] => Ok acc
  | x :: l' => do acc' <- body acc x; for_each body l' acc'
  end.

(** ** Dictionaries *)

(** [k in d] *)
Fixpoint dict_mem (k : string) (d : dict) : bool :=
  match d with
  | [] => false
  | (k', _) :: d' => if String.eqb k k' then true else dict_mem k d'
  end.

(** [d.get(k)], with [None] of [option] for a missing key. *)
Fixpoint dict_lookup (k : string) (d : dict) : option value :=
  match d with
  | [] => None
  | (k', v) :: d' => if String.eqb k k' then Some v else dict_lookup k d'
  end.

(** [d.get(k, default)] *)
Definition dict_get (k : string) (default : value) (d : dict) : value :=
  match dict_lookup k d with
  | Some v => v
  | None => default
  end.

(** [d[k]] *)
Definition dict_item (k : string) (d : dict) : res value :=
  match dict_lookup k d with
  | Some v => Ok v
  | None => Raise KeyError
  end.

(** [d[k] = v]: an existing key keeps its place, a new one goes last. *)
Fixpoint dict_set (k : string) (v : value) (d : dict) : dict :=
  match d with
  | [] => [(k, v)]
  | (k', v') :: d' =>
      if String.eqb k k' then (k, v) :: d' else (k', v') :: dict_set k v d'
  end.

(** [x.get(k, default)] on any value: only a dictionary has [get]. *)
Definition py_get (k : string) (default : value) (x : value) : res value :=
  match x with
  | VDict d => Ok (dict_get k default d)
  | _ => Raise AttributeError
  end.

(** ** Truth, equality, numbers, iteration *)

Definition is_zero (q : Q) : bool := Qeq_bool q 0.

(** [bool(x)] *)
Definition truthy (x : value) : bool :=
  match x with
  | VNone => false
  | VBool b => b
  | VNum q => negb (is_zero q)
  | VStr s => negb (String.eqb s EmptyString)
  | VList l => match l with [] => false | _ => true end
  | VDict d => match d with [] => false | _ => true end
  end.

(** [x == s] for a string literal [s]. *)
Definition eq_str (x : value) (s : string) : bool :=
  match x with
  | VStr t => String.eqb t s
  | _ => false
  end.

(** [x in [s1, ..., sn]] for string literals. *)
Definition in_strs (x : value) (l : list string) : bool :=
  existsb (eq_str x) l.

(** The number a value stands for in arithmetic: [True] is 1. *)
Definition as_number (x : value) : option Q :=
  match x with
  | VNum q => Some q
  | VBool b => Some (if b then 1%Q else 0%Q)
  | _ => None
  end.

(** ** Floats

    A [float] is a binary64 number: a finite one is given by its exact
    value, and there are the two infinities and the value that is not a
    number.  The two zeros are not told apart. *)
Inductive pyfloat : Type :=
| Finite (q : Q)
| PosInf
| NegInf
| NaN.

(** A number of Python: an [int] or a [float]. *)
Inductive pynum : Type :=
| PInt (z : Z)
| PFloat (f : pyfloat).

Definition is_whole (q : Q) : bool := (Qnum q mod Zpos (Qden q) =? 0)%Z.

Definition whole_part (q : Q) : Z := (Qnum q / Zpos (Qden q))%Z.

(** The number a value stands for, as Python has it: [True] is 1. *)
Definition py_number (x : value) : option pynum :=
  match x with
  | VNum q => Some (if is_whole q then PInt (whole_part q)
                    else PFloat (Finite q))
  | VBool b => Some (PInt (if b then 1 else 0))
  | _ => None
  end.

(** [round(x)] to the nearest integer, a tie going to the even one. *)
Definition round_half_even (q : Q) : Z :=
  let n := Qnum q in
  let d := Zpos (Qden q) in
  let f := (n / d)%Z in
  let r := (n mod d)%Z in
  if (2 * r <? d)%Z then f
  else if (d <? 2 * r)%Z then (f + 1)%Z
  else if Z.even f then f else (f + 1)%Z.

Definition pow2 (e : Z) : Q :=
  if (0 <=? e)%Z then inject_Z (2 ^ e) else 1 # Z.to_pos (2 ^ (- e)).

(** The exponent [e] with [2^e <= q < 2^(e+1)], for a positive [q]. *)
Definition ilog2 (q : Q) : Z :=
  let e := (Z.log2 (Qnum q) - Z.log2 (Zpos (Qden q)))%Z in
  if Qle_bool (pow2 e) q then e else (e - 1)%Z.

(** The binary64 number nearest to [q], a tie going to the even
    significand: 53 bits of significand, the smallest unit 2^-1074.  The
    range is checked apart, by [too_large]. *)
Definition to_double (q : Q) : Q :=
  if Qeq_bool q 0 then 0
  else
    let a := Qabs q in
    let unit := pow2 (Z.max (ilog2 a - 52) (-1074)) in
    let r := (inject_Z (round_half_even (a / unit)) * unit)%Q in
    Qred (if Qle_bool 0 q then r else - r).

(** Whether [q] rounds beyond the largest binary64 number, which is
    2^1024 - 2^971: from half a unit above it on. *)
Definition too_large (q : Q) : bool :=
  Qle_bool (inject_Z (2 ^ 1024 - 2 ^ 970)) (Qabs q).

(** The result of an operation on floats whose exact result is [q]. *)
Definition fl (q : Q) : pyfloat :=
  if too_large q then (if Qle_bool 0 q then PosInf else NegInf)
  else Finite (to_double q).

(** [float(n)] for an [int] given by its value: an [int] up to 2^53 is a
    float as it is, a larger one is rounded, and one that is too large
    raises [OverflowError]. *)
Definition float_of_int (q : Q) : res pyfloat :=
  if too_large q then Raise OverflowError
  else Ok (Finite (if Qle_bool (Qabs q) (inject_Z (2 ^ 53)) then q
                   else to_double q)).

(** [x + y] on floats. *)
Definition float_add (x y : pyfloat) : pyfloat :=
  match x, y with
  | NaN, _ | _, NaN => NaN
  | PosInf, NegInf | NegInf, PosInf => NaN
  | PosInf, _ | _, PosInf => PosInf
  | NegInf, _ | _, NegInf => NegInf
  | Finite a, Finite b => fl (a + b)
  end.

(** [x + y] on numbers: two [int]s add exactly, otherwise the [int] is
    converted and the floats are added. *)
Definition num_add (x y : pynum) : res pynum :=
  match x, y with
  | PInt a, PInt b => Ok (PInt (a + b))
  | PInt a, PFloat g =>
      do f <- float_of_int (inject_Z a); Ok (PFloat (float_add f g))
  | PFloat f, PInt b =>
      do g <- float_of_int (inject_Z b); Ok (PFloat (float_add f g))
  | PFloat f, PFloat g => Ok (PFloat (float_add f g))
  end.

(** [x / n] for an [int] [n > 0]: the quotient of two [int]s is rounded
    once, and raises [OverflowError] when it is too large; a float is
    divided by [float(n)]. *)
Definition num_div (x : pynum) (n : Z) : res pyfloat :=
  match x with
  | PInt a =>
      let q := a # Z.to_pos n in
      if too_large q then Raise OverflowError else Ok (Finite (to_double q))
  | PFloat f =>
      do d <- float_of_int (inject_Z n);
      Ok (match f, d with
          | Finite a, Finite b => fl (a / b)
          | _, _ => f
          end)
  end.

(** [round(x, 2)] for a finite float of value [q]: the decimal with two
    places nearest to [q], a tie going to the even one, and then the
    float nearest to that decimal. *)
Definition round2 (q : Q) : Q := to_double (round_half_even (q * 100) # 100).

(** [round(x, 2)]: an [int] is returned as it is, and so are the
    infinities and the value that is not a number. *)
Definition num_round2 (x : pynum) : pynum :=
  match x with
  | PInt z => PInt z
  | PFloat (Finite q) => PFloat (Finite (round2 q))
  | PFloat f => PFloat f
  end.

(** The value of a finite number; 0 stands in for the others. *)
Definition num_value (x : pynum) : Q :=
  match x with
  | PInt z => inject_Z z
  | PFloat (Finite q) => q
  | PFloat _ => 0
  end.

(** Whether a value can be a dictionary key. *)
Definition hashable (x : value) : bool :=
  match x with
  | VList _ | VDict _ => false
  | _ => true
  end.

(** Equality of two dictionary keys: numbers by value, [True == 1]. *)
Definition key_eqb (x y : value) : bool :=
  match x, y with
  | VNone, VNone => true
  | VStr s, VStr t => String.eqb s t
  | _, _ =>
      match as_number x, as_number y with
      | Some p, Some q => Qeq_bool p q
      | _, _ => false
      end
  end.

Fixpoint chars (s : string) : list value :=
  match s with
  | EmptyString => []
  | String c s' => VStr (String c EmptyString) :: chars s'
  end.

(** [for item in x]: the items, or [TypeError] when [x] is not iterable. *)
Definition py_iter (x : value) : res (list value) :=
  match x with
  | VList l => Ok l
  | VStr s => Ok (chars s)
  | VDict d => Ok (map (fun kv => VStr (fst kv)) d)
  | _ => Raise TypeError
  end.

(** ** Text *)

Definition code (c : ascii) : nat := nat_of_ascii c.

(** [c.isspace()], which is also the class [\s] of [re]. *)
Definition isspace (c : ascii) : bool :=
  let n := code c in
  ((9 <=? n) && (n <=? 13) || (28 <=? n) && (n <=? 32)
   || (n =? 133) || (n =? 160))%nat.

Fixpoint lstrip (s : string) : string :=
  match s with
  | EmptyString => EmptyString
  | String c s' => if isspace c then lstrip s' else s
  end.

Fixpoint rstrip (s : string) : string :=
  match s with
  | EmptyString => EmptyString
  | String c s' =>
      match rstrip s' with
      | EmptyString => if isspace c then EmptyString else String c EmptyString
      | r => String c r
      end
  end.

(** [s.strip()] *)
Definition strip (s : string) : string := rstrip (lstrip s).

Definition lower_char (c : ascii) : ascii :=
  let n := code c in
  if ((65 <=? n) && (n <=? 90)
      || (192 <=? n) && (n <=? 222) && negb (n =? 215))%nat
  then ascii_of_nat (n + 32) else c.

(** [s.lower()] *)
Fixpoint lower (s : string) : string :=
  match s with
  | EmptyString => EmptyString
  | String c s' => String (lower_char c) (lower s')
  end.

(** [sep.join(l)] *)
Fixpoint join (sep : string) (l : list string) : string :=
  match l with
  | [] => EmptyString
  | [x] => x
  | x :: l' => x +:+ sep +:+ join sep l'
  end.

(* ================================================================== *)
(** * Part II. [fnmatch]                                                *)
(* ================================================================== *)

(** Modelled from the Python library: [fnmatch.fnmatch(name, pat)] as
    CPython 3.11 defines it.  The pattern is read left to right: [*]
    matches any run of characters, [?] any one character, [[seq]] and
    [[!seq]] one character in (not in) a set that may contain ranges
    [a-z], a [[] that is never closed is an ordinary character, and so is
    everything else.  The whole name has to match.  [os.path.normcase],
    applied to both arguments first, changes nothing on POSIX, where the
    service runs. *)

Inductive glob_tok : Type :=
| GStar
| GAny
| GLit (c : ascii)
| GClass (neg : bool) (items : list (ascii * ascii)).

(** The members of a bracket set: [c-d] is a range, anything else stands
    for itself; an opening or closing [-] is an ordinary member. *)
Fixpoint class_items (s : list ascii) : list (ascii * ascii) :=
  match s with
  | [] => []
  | c :: rest =>
      match rest with
      | "-"%char :: d :: rest' => (c, d) :: class_items rest'
      | _ => (c, c) :: class_items rest
      end
  end.

(** Split at the first ["]"]. *)
Fixpoint until_close (s : list ascii) : option (list ascii * list ascii) :=
  match s with
  | [] => None
  | c :: s' =>
      if Ascii.eqb c "]" then Some ([], s')
      else match until_close s' with
           | Some (body, rest) => Some (c :: body, rest)
           | None => None
           end
  end.

(** After a ["["]: negation mark, body of the set, rest of the pattern.
    A ["]"] right after the ["["] (or after ["[!"]) belongs to the set. *)
Definition split_class (s : list ascii)
  : option (bool * list ascii * list ascii) :=
  let '(neg, s1) :=
    match s with
    | "!"%char :: t => (true, t)
    | _ => (false, s)
    end in
  let '(first, s2) :=
    match s1 with
    | "]"%char :: t => (["]"%char], t)
    | _ => ([], s1)
    end in
  match until_close s2 with
  | Some (body, rest) => Some (neg, (first ++ body)%list, rest)
  | None => None
  end.

(** [fnmatch.translate], to tokens; every step consumes a character, so
    [length pat] steps are enough. *)
Fixpoint glob_tokens (fuel : nat) (pat : list ascii) : list glob_tok :=
  match fuel with
  | O => []
  | S fuel' =>
      match pat with
      | [] => []
      | c :: rest =>
          if Ascii.eqb c "*" then GStar :: glob_tokens fuel' rest
          else if Ascii.eqb c "?" then GAny :: glob_tokens fuel' rest
          else if Ascii.eqb c "[" then
            match split_class rest with
            | Some (neg, body, rest') =>
                GClass neg (class_items body) :: glob_tokens fuel' rest'
            | None => GLit c :: glob_tokens fuel' rest
            end
          else GLit c :: glob_tokens fuel' rest
      end
  end.

Definition translate (pat : string) : list glob_tok :=
  let p := list_ascii_of_string pat in glob_tokens (length p) p.

Definition in_class (c : ascii) (items : list (ascii * ascii)) : bool :=
  existsb (fun r => (code (fst r) <=? code c) && (code c <=? code (snd r)))%nat
          items.

Fixpoint match_tokens (toks : list glob_tok) (s : list ascii) : bool :=
  match toks with
  | [] => match s with [] => true | _ => false end
  | GStar :: toks' =>
      (fix star (s : list ascii) : bool :=
         match_tokens toks' s
         || match s with
            | [] => false
            | _ :: s' => star s'
            end) s
  | GAny :: toks' =>
      match s with
      | [] => false
      | _ :: s' => match_tokens toks' s'
      end
  | GLit c :: toks' =>
      match s with
      | [] => false
      | c' :: s' => Ascii.eqb c c' && match_tokens toks' s'
      end
  | GClass neg items :: toks' =>
      match s with
      | [] => false
      | c' :: s' => xorb neg (in_class c' items) && match_tokens toks' s'
      end
  end.

Definition normcase (s : string) : string := s.

Definition fnmatchcase (name pat : string) : bool :=
  match_tokens (translate pat) (list_ascii_of_string name).

Definition fnmatch (name pat : string) : bool :=
  fnmatchcase (normcase name) (normcase pat).

(** [fnmatch.fnmatch] on an arbitrary first argument: a name that is not
    a string is refused by [normcase]. *)
Definition py_fnmatch (name : value) (pat : string) : res bool :=
  match name with
  | VStr n => Ok (fnmatch n pat)
  | _ => Raise TypeError
  end.

(* ================================================================== *)
(** * Part III. The reviewer ([scripts/ai_reviewer.py])                 *)
(* ================================================================== *)

(** The entries of [AICodeReviewer.config] that the modelled methods
    read, as [_load_config] types them. *)
Record config : Type := Config {
  severity_threshold : string;
  include_patterns : list string;
  exclude_patterns : list string;
  languages : list string;
  enable_security_scan : bool;
  enable_performance_hints : bool;
  ci_commit_sha : value
}.

(** What one call of the Gemini model does: it raises, or it answers with
    a text. *)
Inductive model_outcome : Type :=
| ModelRaises (e : exc)
| ModelText (text : string).

(** The table of [_matches_languages]. *)
Definition language_extensions : list (string * list string) :=
  [ ("python", [".py"; ".pyw"]);
    ("javascript", [".js"; ".mjs"]);
    ("typescript", [".ts"; ".tsx"]);
    ("java", [".java"]);
    ("go", [".go"]);
    ("rust", [".rs"]);
    ("cpp", [".cpp"; ".cc"; ".cxx"; ".c++"; ".hpp"; ".h"]);
    ("csharp", [".cs"]);
    ("php", [".php"]);
    ("ruby", [".rb"]);
    ("html", [".html"; ".htm"]);
    ("css", [".css"; ".scss"; ".sass"]);
    ("yaml", [".yml"; ".yaml"]);
    ("json", [".json"]);
    ("xml", [".xml"]);
    ("sql", [".sql"]);
    ("shell", [".sh"; ".bash"; ".zsh"]) ].

Fixpoint assoc {A : Type} (k : string) (l : list (string * A)) : option A :=
  match l with
  | [] => None
  | (k', a) :: l' => if String.eqb k k' then Some a else assoc k l'
  end.

Definition str_in (s : string) (l : list string) : bool :=
  existsb (String.eqb s) l.

(** [severity_levels = {'low': 1, 'medium': 2, 'high': 3}] *)
Definition severity_levels : list (string * Z) :=
  [("low", 1%Z); ("medium", 2%Z); ("high", 3%Z)].

(** [severity_levels.get(k, default)] for an arbitrary key [k]: a list or
    a dictionary cannot be hashed, and a key that is not a string is not
    in the table. *)
Definition levels_get (k : value) (default : Z) : res Z :=
  match k with
  | VList _ | VDict _ => Raise TypeError
  | VStr s => Ok (match assoc s severity_levels with
                  | Some n => n
                  | None => default
                  end)
  | _ => Ok default
  end.

Section Reviewer.

(** [Path(p).suffix] of [pathlib]. *)
Variable path_suffix : string -> string.

Variable cfg : config.

(** [file_info['new_path'] if 'new_path' in file_info else
    file_info['path']] *)
Definition file_path_of (file_info : dict) : res value :=
  if dict_mem "new_path" file_info then dict_item "new_path" file_info
  else dict_item "path" file_info.

(** [any(fnmatch.fnmatch(file_path, pattern.strip())
         for pattern in patterns if pattern.strip())] *)
Fixpoint _matches_patterns (file_path : value) (patterns : list string)
  : res bool :=
  match patterns with
  | [] => Ok false
  | pattern :: patterns' =>
      if String.eqb (strip pattern) EmptyString then
        _matches_patterns file_path patterns'
      else
        do m <- py_fnmatch file_path (strip pattern);
        if m then Ok true else _matches_patterns file_path patterns'
  end.

Fixpoint languages_loop (file_ext : string) (langs : list string) : bool :=
  match langs with
  | [] => false
  | lang :: langs' =>
      let lang := lower (strip lang) in
      match assoc lang language_extensions with
      | Some exts =>
          if str_in file_ext exts then true
          else languages_loop file_ext langs'
      | None => languages_loop file_ext langs'
      end
  end.

Definition _matches_languages (file_path : value) (langs : list string)
  : res bool :=
  match file_path with
  | VStr p => Ok (languages_loop (lower (path_suffix p)) langs)
  | _ => Raise TypeError
  end.

Definition nonempty {A : Type} (l : list A) : bool :=
  match l with [] => false | _ => true end.

(** The body of the loop of [_filter_files]: whether [file_info] is
    appended. *)
Definition keep_file (file_info : dict) : res bool :=
  do file_path <- file_path_of file_info;
  if truthy (dict_get "deleted_file" (VBool false) file_info) then Ok false
  else
    do excluded <- _matches_patterns file_path (exclude_patterns cfg);
    if excluded then Ok false
    else
      do not_included <-
        (if nonempty (include_patterns cfg)
         then do m <- _matches_patterns file_path (include_patterns cfg);
              Ok (negb m)
         else Ok false);
      if not_included then Ok false
      else
        do wrong_language <-
          (if nonempty (languages cfg)
           then do m <- _matches_languages file_path (languages cfg);
                Ok (negb m)
           else Ok false);
        Ok (negb wrong_language).

Fixpoint _filter_files (files : list dict) : res (list dict) :=
  match files with
  | [] => Ok []
  | file_info :: files' =>
      do keep <- keep_file file_info;
      do filtered <- _filter_files files';
      Ok (if keep then file_info :: filtered else filtered)
  end.

(** The Comment Gate. *)
Definition _should_post_comment (comment : dict) : res bool :=
  do comment_severity <-
    levels_get (dict_get "severity" (VStr "low") comment) 1;
  do threshold_severity <-
    levels_get (VStr (severity_threshold cfg)) 2;
  Ok (threshold_severity <=? comment_severity)%Z.

End Reviewer.

(* ================================================================== *)
(** * Part IV. The Gemini client ([scripts/gemini_client.py])           *)
(* ================================================================== *)

(** ** Text search used by [_extract_json_from_response] *)

(** [s] without the prefix [p], when it starts with it. *)
Fixpoint strip_prefix (p s : string) : option string :=
  match p with
  | EmptyString => Some s
  | String a p' =>
      match s with
      | EmptyString => None
      | String b s' => if Ascii.eqb a b then strip_prefix p' s' else None
      end
  end.

Definition fence : string := "```".

Definition starts_with (p s : string) : bool :=
  match strip_prefix p s with Some _ => true | None => false end.

(** The lazy [.*?\}] followed by [\s*```]: the text up to and including
    the first closing brace after which, blanks skipped, a fence opens. *)
Fixpoint lazy_body (r : string) : option string :=
  match r with
  | EmptyString => None
  | String c r' =>
      if Ascii.eqb c "}" && starts_with fence (lstrip r')
      then Some (String c EmptyString)
      else match lazy_body r' with
           | Some b => Some (String c b)
           | None => None
           end
  end.

(** A match of [```(?:json)?\s*(\{.*?\})\s*```] (with [re.DOTALL])
    starting at the head of [s]: its group 1. *)
Definition match_fence_at (s : string) : option string :=
  match strip_prefix fence s with
  | None => None
  | Some r1 =>
      let r2 := match strip_prefix "json" r1 with
                | Some r => r
                | None => r1
                end in
      match lstrip r2 with
      | String c r3 =>
          if Ascii.eqb c "{" then
            match lazy_body r3 with
            | Some b => Some (String c b)
            | None => None
            end
          else None
      | EmptyString => None
      end
  end.

(** [re.findall(json_pattern, s, re.DOTALL)[0]], when there is a match. *)
Fixpoint first_fenced (s : string) : option string :=
  match s with
  | EmptyString => None
  | String _ s' =>
      match match_fence_at s with
      | Some g => Some g
      | None => first_fenced s'
      end
  end.

(** [s.find(c)] *)
Fixpoint find_char (c : ascii) (s : string) : option nat :=
  match s with
  | EmptyString => None
  | String a s' =>
      if Ascii.eqb a c then Some O
      else match find_char c s' with
           | Some i => Some (S i)
           | None => None
           end
  end.

(** [s.rfind(c)] *)
Fixpoint rfind_char (c : ascii) (s : string) : option nat :=
  match s with
  | EmptyString => None
  | String a s' =>
      match rfind_char c s' with
      | Some i => Some (S i)
      | None => if Ascii.eqb a c then Some O else None
      end
  end.

(** [s[i:j]] for [0 <= i <= j] *)
Definition slice (i j : nat) (s : string) : string := substring i (j - i) s.

(** The outermost brace span [text[brace_start:brace_end + 1]]. *)
Definition brace_span (text : string) : option string :=
  match find_char "{" text, rfind_char "}" text with
  | Some brace_start, Some brace_end =>
      if (brace_start <? brace_end)%nat
      then Some (slice brace_start (brace_end + 1) text)
      else None
  | _, _ => None
  end.

(** ** [GeminiClient] *)

Definition fallback_response : value :=
  VDict
    [ ("overall_score", VNum 5);
      ("summary", VStr "Review completed but response format was invalid");
      ("comments",
        VList
          [ VDict
              [ ("line_number", VNone);
                ("severity", VStr "medium");
                ("category", VStr "quality");
                ("title", VStr "Review Format Issue");
                ("description",
                  VStr "The AI review response could not be properly parsed. Manual review may be needed.");
                ("suggestion", VStr EmptyString);
                ("impact", VStr "Unable to provide detailed feedback") ] ]);
      ("positive_aspects", VList []);
      ("recommendations",
        VList [VStr "Manual code review recommended due to parsing issues"]) ].

Definition severities : list string := ["low"; "medium"; "high"].

Definition valid_categories : list string :=
  ["security"; "performance"; "quality"; "logic"; "style"; "documentation"].

(** [max(1, min(10, score))], the way [min] and [max] pick an argument. *)
Definition clamp_score (score : Q) : Q :=
  let m := if Qle_bool 10 score then 10%Q else score in
  if Qle_bool m 1 then 1%Q else m.

(** The same on a float: an infinity is compared like a number, and the
    value that is not a number is below nothing, so that [min] gives 10. *)
Definition clamp_float (score : pyfloat) : Q :=
  match score with
  | Finite q => clamp_score q
  | PosInf | NaN => 10
  | NegInf => 1
  end.

Definition validate_comment (comment : dict) : dict :=
  let severity := dict_get "severity" (VStr "medium") comment in
  let category := dict_get "category" (VStr "quality") comment in
  [ ("line_number", dict_get "line_number" VNone comment);
    ("severity", if in_strs severity severities then severity
                 else VStr "medium");
    ("category", if in_strs category valid_categories then category
                 else VStr "quality");
    ("title", dict_get "title" (VStr "Code Review") comment);
    ("description", dict_get "description" (VStr EmptyString) comment);
    ("suggestion", dict_get "suggestion" (VStr EmptyString) comment);
    ("impact", dict_get "impact" (VStr EmptyString) comment) ].

(** The loop over the comments: an item that is not a dictionary is
    dropped. *)
Fixpoint validated_comments (items : list value) : list value :=
  match items with
  | [] => []
  | VDict comment :: items' =>
      VDict (validate_comment comment) :: validated_comments items'
  | _ :: items' => validated_comments items'
  end.

Definition ensure_required (d : dict) : dict :=
  fold_left
    (fun d field =>
       if dict_mem field d then d
       else dict_set field
              (if String.eqb field "comments" then VList []
               else VStr EmptyString) d)
    ["overall_score"; "summary"; "comments"] d.

Definition is_list (x : value) : bool :=
  match x with VList _ => true | _ => false end.

Definition ensure_lists (d : dict) : dict :=
  fold_left
    (fun d field =>
       if negb (dict_mem field d) then dict_set field (VList []) d
       else if negb (is_list (dict_get field VNone d))
            then dict_set field (VList []) d
            else d)
    ["positive_aspects"; "recommendations"] d.

Section Gemini.

(** [json.loads]; [None] stands for [json.JSONDecodeError]. *)
Variable loads : string -> option value.

(** [float(s)] for a string [s]; [None] stands for [ValueError]. *)
Variable float_of_string : string -> option pyfloat.

(** [str(e)] for an exception [e]. *)
Variable str_exc : exc -> string.

(** [self.model.generate_content(prompt).text] for the prompt built
    from the path, the content, the diff and the two switches. *)
Variable generate_content :
  value -> string -> option value -> bool -> bool -> model_outcome.

(** [float(x)]: an [int] that is too large raises [OverflowError], a
    string that is no number [ValueError], and [None], a list or a
    dictionary [TypeError]. *)
Definition py_float (x : value) : res pyfloat :=
  match x with
  | VNum q => if is_whole q then float_of_int q else Ok (Finite q)
  | VBool b => Ok (Finite (if b then 1%Q else 0%Q))
  | VStr s =>
      match float_of_string s with
      | Some f => Ok f
      | None => Raise ValueError
      end
  | _ => Raise TypeError
  end.

(** The [try] around the score catches [ValueError] and [TypeError]
    only: any other exception of [float] leaves the function. *)
Definition validate_score (d : dict) : res dict :=
  if dict_mem "overall_score" d then
    match py_float (dict_get "overall_score" VNone d) with
    | Ok score => Ok (dict_set "overall_score" (VNum (clamp_float score)) d)
    | Raise ValueError | Raise TypeError =>
        Ok (dict_set "overall_score" (VNum 5) d)
    | Raise e => Raise e
    end
  else Ok d.

(** A [review_result] that is not a dictionary makes the first item
    assignment raise [TypeError]. *)
Definition _validate_review_result (review_result : value) : res value :=
  match review_result with
  | VDict d =>
      let d := ensure_required d in
      do d <- validate_score d;
      do items <- py_iter (dict_get "comments" (VList []) d);
      let d := dict_set "comments" (VList (validated_comments items)) d in
      Ok (VDict (ensure_lists d))
  | _ => Raise TypeError
  end.

(** Every exception inside is caught and leads to the fallback. *)
Definition _extract_json_from_response (response_text : string) : value :=
  match first_fenced response_text with
  | Some m =>
      match loads m with
      | Some v => v
      | None => fallback_response
      end
  | None =>
      match brace_span response_text with
      | Some json_content =>
          match loads json_content with
          | Some v => v
          | None => fallback_response
          end
      | None => fallback_response
      end
  end.

Definition error_result (msg : string) : value :=
  VDict [("error", VStr msg)].

Definition review_code (file_path : value) (file_content : string)
    (diff_content : option value)
    (security_scan performance_hints : bool) : value :=
  match generate_content file_path file_content diff_content
          security_scan performance_hints with
  | ModelRaises e => error_result (str_exc e)
  | ModelText text =>
      if String.eqb text EmptyString
      then error_result "Empty response from Gemini"
      else
        match loads text with
        | Some review_result =>
            match _validate_review_result review_result with
            | Ok r => r
            | Raise e => error_result (str_exc e)
            end
        | None => _extract_json_from_response text
        end
  end.

End Gemini.

(* ================================================================== *)
(** * Part V. Reviewing the files ([AICodeReviewer.run])                *)
(* ================================================================== *)

Section Dispatch.

Variable loads : string -> option value.
Variable float_of_string : string -> option pyfloat.
Variable str_exc : exc -> string.
Variable generate_content :
  value -> string -> option value -> bool -> bool -> model_outcome.

(** [GitLabClient.get_file_content(path, ref)]: the content, or [None];
    the method catches every exception itself. *)
Variable get_file_content : value -> value -> option string.

Variable cfg : config.

(** [_review_file]: [Ok None] is the [return None] of the source.  The
    path is read before the [try]; inside it neither the content fetch
    nor [review_code] raises, so the handler of the [try] is never
    entered. *)
Definition _review_file (file_info : dict) : res (option dict) :=
  do file_path <- file_path_of file_info;
  match get_file_content file_path (ci_commit_sha cfg) with
  | None => Ok None
  | Some file_content =>
      if String.eqb file_content EmptyString then Ok None
      else
        let diff_content := dict_lookup "diff" file_info in
        let review_result :=
          review_code loads float_of_string str_exc generate_content
            file_path file_content diff_content
            (enable_security_scan cfg) (enable_performance_hints cfg) in
        Ok (Some [ ("file_path", file_path);
                   ("review_result", review_result);
                   ("file_info", VDict file_info) ])
  end.

(** The loop of [run] that fills [reviews]: a review is appended when
    it is truthy, and a review that was returned is a dictionary of
    three entries. *)
Fixpoint review_files (files_to_review : list dict) : res (list dict) :=
  match files_to_review with
  | [] => Ok []
  | file_info :: files' =>
      do review <- _review_file file_info;
      do reviews <- review_files files';
      Ok (match review with
          | Some r => if truthy (VDict r) then r :: reviews else reviews
          | None => reviews
          end)
  end.

End Dispatch.

(* ================================================================== *)
(** * Part VI. Reports ([scripts/report_generator.py])                  *)
(* ================================================================== *)

(** A dictionary of counters with arbitrary keys. *)
Abbreviation counters := (list (value * Z)).

(** [counts.get(k, 0)] *)
Fixpoint counter_get (k : value) (counts : counters) : Z :=
  match counts with
  | [] => 0%Z
  | (k', n) :: counts' => if key_eqb k k' then n else counter_get k counts'
  end.

Fixpoint counter_set (k : value) (n : Z) (counts : counters) : counters :=
  match counts with
  | [] => [(k, n)]
  | (k', n') :: counts' =>
      if key_eqb k k' then (k', n) :: counts'
      else (k', n') :: counter_set k n counts'
  end.

(** [counts[k] = counts.get(k, 0) + 1] *)
Definition counter_incr (k : value) (counts : counters) : res counters :=
  if hashable k then Ok (counter_set k (counter_get k counts + 1)%Z counts)
  else Raise TypeError.

(** [sum(counts.values())] *)
Definition counter_total (counts : counters) : Z :=
  fold_right (fun kn acc => (snd kn + acc)%Z) 0%Z counts.

(** The local variables of the loop of [_generate_summary]. *)
Record tally : Type := Tally {
  t_comments : Z;
  t_severity : counters;
  t_category : counters;
  t_score : pynum
}.

Definition tally0 : tally :=
  {| t_comments := 0;
     t_severity := [(VStr "high", 0%Z); (VStr "medium", 0%Z);
                    (VStr "low", 0%Z)];
     t_category := [];
     t_score := PInt 0 |}.

(** The statistics of the dictionary [_generate_summary] returns; the
    time stamp and the echo of the configuration are left out.
    [average] is the entry [average_score], a number of Python. *)
Record summary : Type := Summary {
  total_files_reviewed : Z;
  total_comments : Z;
  average : pynum;
  severity_distribution : counters;
  category_distribution : counters
}.

(** The value of the entry [average_score] when it is finite. *)
Definition average_score (s : summary) : Q := num_value (average s).

Definition count_comment (t : tally) (comment : value) : res tally :=
  do severity <- py_get "severity" (VStr "medium") comment;
  do category <- py_get "category" (VStr "quality") comment;
  do sev <- counter_incr severity (t_severity t);
  do cat <- counter_incr category (t_category t);
  Ok {| t_comments := t_comments t + 1;
        t_severity := sev;
        t_category := cat;
        t_score := t_score t |}.

(** [not review or not review.get('review_result')] *)
Definition skipped (review : dict) : bool :=
  negb (truthy (VDict review))
  || negb (truthy (dict_get "review_result" VNone review)).

Definition summary_step (t : tally) (review : dict) : res tally :=
  if skipped review then Ok t
  else
    do result <- dict_item "review_result" review;
    do comments <- py_get "comments" (VList []) result;
    do items <- py_iter comments;
    do t' <- for_each count_comment items t;
    do score <- py_get "overall_score" (VNum 5) result;
    match py_number score with
    | Some x =>
        do total <- num_add (t_score t') x;
        Ok {| t_comments := t_comments t';
              t_severity := t_severity t';
              t_category := t_category t';
              t_score := total |}
    | None => Raise TypeError
    end.

Definition _generate_summary (reviews : list dict) : res summary :=
  let total_files := Z.of_nat (length reviews) in
  do t <- for_each summary_step reviews tally0;
  do average_score <-
    (if (0 <? total_files)%Z
     then do f <- num_div (t_score t) total_files; Ok (PFloat f)
     else Ok (t_score t));
  Ok {| total_files_reviewed := total_files;
        total_comments := t_comments t;
        average := num_round2 average_score;
        severity_distribution := t_severity t;
        category_distribution := t_category t |}.

(** ** The JUnit document *)

(** An [xml.etree.ElementTree.Element]: tag, attributes in the order they
    were set, text and children. *)
#[warnings="-register-all"]
Inductive element : Type :=
| Element (tag : string) (attrib : list (string * value))
          (text : option string) (children : list element).

Definition tag_of (e : element) : string :=
  match e with Element t _ _ _ => t end.
Definition attrib_of (e : element) : list (string * value) :=
  match e with Element _ a _ _ => a end.
Definition text_of (e : element) : option string :=
  match e with Element _ _ t _ => t end.
Definition children_of (e : element) : list element :=
  match e with Element _ _ _ c => c end.

Definition newline : string := String "010" EmptyString.

Section Junit.

(** [str(x)] for a value that is not a string. *)
Variable py_str : value -> string.

(** What an f-string puts in place of [{x}]. *)
Definition format_value (x : value) : string :=
  match x with
  | VStr s => s
  | _ => py_str x
  end.

(** [[c for c in comments if c.get('severity') == severity]] *)
Fixpoint issues_with (severity : string) (comments : list value)
  : res (list value) :=
  match comments with
  | [] => Ok []
  | c :: comments' =>
      do s <- py_get "severity" VNone c;
      do rest <- issues_with severity comments';
      Ok (if eq_str s severity then c :: rest else rest)
  end.

(** [f"{c.get('title', '')}: {c.get('description', '')}"] *)
Definition issue_line (c : value) : res string :=
  do title <- py_get "title" (VStr EmptyString) c;
  do description <- py_get "description" (VStr EmptyString) c;
  Ok (format_value title +:+ ": " +:+ format_value description).

Fixpoint issue_lines (issues : list value) : res (list string) :=
  match issues with
  | [] => Ok []
  | c :: issues' =>
      do line <- issue_line c;
      do rest <- issue_lines issues';
      Ok (line :: rest)
  end.

(** The sub-element [kind] of a test case, with its message and the
    joined lines of the issues as text. *)
Definition issue_node (kind headline : string) (file_path : value)
    (issues : list value) : res element :=
  do lines <- issue_lines issues;
  Ok (Element kind
        [("message", VStr (headline +:+ format_value file_path))]
        (Some (join newline lines)) []).

(** The body of the loop over the reviews: the test case of one review,
    or nothing for a review that is skipped. *)
Definition testcase (review : dict) : res (option element) :=
  if skipped review then Ok None
  else
    let file_path := dict_get "file_path" (VStr "unknown") review in
    do result <- dict_item "review_result" review;
    do comments <- py_get "comments" (VList []) result;
    do items <- py_iter comments;
    do high_issues <- issues_with "high" items;
    do failure <-
      (if nonempty high_issues
       then do n <- issue_node "failure" "High severity issues found in "
                      file_path high_issues;
            Ok [n]
       else Ok []);
    do medium_issues <- issues_with "medium" items;
    do error <-
      (if nonempty medium_issues && negb (nonempty high_issues)
       then do n <- issue_node "error" "Medium severity issues found in "
                      file_path medium_issues;
            Ok [n]
       else Ok []);
    Ok (Some (Element "testcase"
                [ ("classname", VStr "CodeReview");
                  ("name", file_path);
                  ("time", VStr "0") ]
                None (failure ++ error)%list)).

Fixpoint testcases (reviews : list dict) : res (list element) :=
  match reviews with
  | [] => Ok []
  | review :: reviews' =>
      do tc <- testcase review;
      do rest <- testcases reviews';
      Ok (match tc with
          | Some e => e :: rest
          | None => rest
          end)
  end.

Definition suite_attrib (name : string) (s : summary)
  : list (string * value) :=
  [ ("name", VStr name);
    ("tests", VStr (pretty (total_files_reviewed s)));
    ("failures",
      VStr (pretty (counter_get (VStr "high") (severity_distribution s))));
    ("errors",
      VStr (pretty (counter_get (VStr "medium") (severity_distribution s))));
    ("time", VStr "0") ].

(** [minidom.parseString(ET.tostring(tree)).toprettyxml(indent='  ')]:
    the text of the document, or the exception of the library, for
    instance [TypeError] for an attribute that is a number or [None]
    and [ExpatError] for a text with a character XML does not allow. *)
Variable to_pretty_xml : element -> res string.

(** [_generate_junit_report] builds the tree and has the library
    serialise it, all inside one [try]: the result is the tree with the
    text that is written to the file, or the exception that was caught,
    in which case nothing is written. *)
Definition _generate_junit_report (s : summary) (reviews : list dict)
  : res (element * string) :=
  do cases <- testcases reviews;
  let testsuites :=
    Element "testsuites" (suite_attrib "AI Code Review" s) None
      [ Element "testsuite" (suite_attrib "Code Review Results" s) None
          cases ] in
  do xml_str <- to_pretty_xml testsuites;
  Ok (testsuites, xml_str).

End Junit.

(** The tree of the JUnit document with the given test cases. *)
Definition junit_tree (s : summary) (cases : list element) : element :=
  Element "testsuites" (suite_attrib "AI Code Review" s) None
    [ Element "testsuite" (suite_attrib "Code Review Results" s) None cases ].

(* ================================================================== *)
(** * Part VII. The web server ([scripts/web_server.py])                *)
(* ================================================================== *)

(** One entry of [active_reviews].  [ident] is the identity of the
    dictionary object: every [active_reviews[review_key] = {...}] builds a
    new object, the later assignments change the object in place. *)
Record review_record : Type := ReviewRecord {
  ident : nat;
  started_at : string;
  status : string;
  rec_mr_iid : value;
  rec_project_id : value;
  error : option string;
  completed_at : option string
}.

Record response : Type := Response {
  status_code : nat;
  body : dict
}.

(** What the closure [run_review] keeps of the request. *)
Record job : Type := Job {
  review_key : string;
  job_mr_iid : value;
  job_project_id : value
}.

Definition double_quote : string := String "034" EmptyString.

Definition actions : list string := ["open"; "update"; "reopen"].

Section WebServer.

Variable py_str : value -> string.
Variable str_exc : exc -> string.

(** [config['webhook_secret']] *)
Variable webhook_secret : string.

(** [f"{project_id}:{mr_iid}"] *)
Definition make_review_key (project_id mr_iid : value) : string :=
  format_value py_str project_id +:+ ":" +:+ format_value py_str mr_iid.

(** The [try] block of [gitlab_webhook]: the answer, and the review it
    starts in a background thread, if any.  [token] is the header
    [X-Gitlab-Token] (empty when absent), [webhook_data] the result of
    [request.get_json()]. *)
Definition webhook_try (token : string) (webhook_data : value)
    (active_reviews : gmap string review_record)
  : res (response * option job) :=
  if negb (String.eqb webhook_secret EmptyString)
     && negb (String.eqb token webhook_secret)
  then Ok (Response 401 [("error", VStr "Invalid webhook token")], None)
  else if negb (truthy webhook_data)
  then Ok (Response 400 [("error", VStr "No JSON data provided")], None)
  else
    do event_type <- py_get "object_kind" (VStr EmptyString) webhook_data;
    if negb (eq_str event_type "merge_request")
    then Ok (Response 200 [ ("message", VStr "Event type not supported");
                            ("event_type", event_type) ], None)
    else
      do mr_data <- py_get "object_attributes" (VDict []) webhook_data;
      do mr_iid <- py_get "iid" VNone mr_data;
      do mr_action <- py_get "action" (VStr EmptyString) mr_data;
      do project <- py_get "project" (VDict []) webhook_data;
      do project_id <- py_get "id" VNone project;
      if negb (truthy mr_iid) || negb (truthy project_id)
      then Ok (Response 400
                 [("error", VStr "Missing required merge request data")],
               None)
      else if negb (in_strs mr_action actions)
      then Ok (Response 200
                 [("message",
                    VStr ("MR action " +:+ double_quote
                          +:+ format_value py_str mr_action
                          +:+ double_quote +:+ " not processed"))],
               None)
      else
        let key := make_review_key project_id mr_iid in
        match active_reviews !! key with
        | Some _ =>
            Ok (Response 202 [ ("message", VStr "Review already in progress");
                               ("review_id", VStr key) ], None)
        | None =>
            Ok (Response 202 [ ("message", VStr "AI code review started");
                               ("review_id", VStr key);
                               ("mr_iid", mr_iid);
                               ("project_id", project_id);
                               ("action", mr_action) ],
                Some (Job key mr_iid project_id))
        end.

Definition gitlab_webhook (token : string) (webhook_data : value)
    (active_reviews : gmap string review_record)
  : response * option job :=
  match webhook_try token webhook_data active_reviews with
  | Ok r => r
  | Raise e => (Response 500 [("error", VStr (str_exc e))], None)
  end.

(** [review_status]: the record, or "not found". *)
Definition review_status (review_id : string)
    (active_reviews : gmap string review_record) : option review_record :=
  active_reviews !! review_id.

(** ** The background thread [run_review] *)

(** How [AICodeReviewer().run()] ends: it returns, it raises an
    exception, or it leaves through [sys.exit]. *)
Inductive run_outcome : Type :=
| Returned
| Raised (e : exc)
| Exited.

(** Where a thread started by the webhook stands. *)
Inductive phase : Type :=
| Waiting            (* before [with review_semaphore] *)
| Holding            (* slot taken, record not yet written *)
| Reviewing          (* record written, reviewer at work *)
| Stamping           (* status set to completed, time not yet *)
| Failing (e : exc)  (* slot given back, handler about to run *)
| Sleeping           (* the clean-up thread sleeps *)
| Gone.

Record server : Type := Server {
  active_reviews : gmap string review_record;
  review_semaphore : nat;
  next_ident : nat;
  threads : list (job * phase)
}.

Definition new_record (i : nat) (now : string) (j : job) : review_record :=
  {| ident := i; started_at := now; status := "running";
     rec_mr_iid := job_mr_iid j; rec_project_id := job_project_id j;
     error := None; completed_at := None |}.

Definition set_status (st : string) (r : review_record) : review_record :=
  {| ident := ident r; started_at := started_at r; status := st;
     rec_mr_iid := rec_mr_iid r; rec_project_id := rec_project_id r;
     error := error r; completed_at := completed_at r |}.

Definition set_error (msg : string) (r : review_record) : review_record :=
  {| ident := ident r; started_at := started_at r; status := status r;
     rec_mr_iid := rec_mr_iid r; rec_project_id := rec_project_id r;
     error := Some msg; completed_at := completed_at r |}.

Definition set_completed_at (now : string) (r : review_record)
  : review_record :=
  {| ident := ident r; started_at := started_at r; status := status r;
     rec_mr_iid := rec_mr_iid r; rec_project_id := rec_project_id r;
     error := error r; completed_at := Some now |}.

(** The handler of [run_review]: the three assignments, when the key is
    still there. *)
Definition mark_failed (key : string) (e : exc) (now : string)
    (table : gmap string review_record) : gmap string review_record :=
  match table !! key with
  | Some r =>
      <[key := set_completed_at now
                 (set_error (str_exc e) (set_status "failed" r))]> table
  | None => table
  end.

(** One step of the server: a request is answered, or one thread
    moves. *)
Inductive step : server -> server -> Prop :=
| step_request token data s resp started :
    gitlab_webhook token data (active_reviews s) = (resp, started) ->
    step s {| active_reviews := active_reviews s;
              review_semaphore := review_semaphore s;
              next_ident := next_ident s;
              threads :=
                match started with
                | Some j => (threads s ++ [(j, Waiting)])%list
                | None => threads s
                end |}
| step_acquire i j s n :
    threads s !! i = Some (j, Waiting) ->
    review_semaphore s = S n ->
    step s {| active_reviews := active_reviews s;
              review_semaphore := n;
              next_ident := next_ident s;
              threads := <[i := (j, Holding)]> (threads s) |}
| step_create i j s now :
    threads s !! i = Some (j, Holding) ->
    step s {| active_reviews :=
                <[review_key j := new_record (next_ident s) now j]>
                  (active_reviews s);
              review_semaphore := review_semaphore s;
              next_ident := S (next_ident s);
              threads := <[i := (j, Reviewing)]> (threads s) |}
| step_returned i j s r :
    threads s !! i = Some (j, Reviewing) ->
    active_reviews s !! review_key j = Some r ->
    step s {| active_reviews :=
                <[review_key j := set_status "completed" r]>
                  (active_reviews s);
              review_semaphore := review_semaphore s;
              next_ident := next_ident s;
              threads := <[i := (j, Stamping)]> (threads s) |}
| step_stamp i j s r now :
    threads s !! i = Some (j, Stamping) ->
    active_reviews s !! review_key j = Some r ->
    step s {| active_reviews :=
                <[review_key j := set_completed_at now r]>
                  (active_reviews s);
              review_semaphore := S (review_semaphore s);
              next_ident := next_ident s;
              threads := <[i := (j, Sleeping)]> (threads s) |}
| step_key_error i j s p :
    threads s !! i = Some (j, p) ->
    p = Reviewing \/ p = Stamping ->
    active_reviews s !! review_key j = None ->
    step s {| active_reviews := active_reviews s;
              review_semaphore := S (review_semaphore s);
              next_ident := next_ident s;
              threads := <[i := (j, Failing KeyError)]> (threads s) |}
| step_raised i j s e :
    threads s !! i = Some (j, Reviewing) ->
    step s {| active_reviews := active_reviews s;
              review_semaphore := S (review_semaphore s);
              next_ident := next_ident s;
              threads := <[i := (j, Failing e)]> (threads s) |}
| step_exited i j s :
    threads s !! i = Some (j, Reviewing) ->
    step s {| active_reviews := active_reviews s;
              review_semaphore := S (review_semaphore s);
              next_ident := next_ident s;
              threads := <[i := (j, Sleeping)]> (threads s) |}
| step_failed i j s e now :
    threads s !! i = Some (j, Failing e) ->
    step s {| active_reviews :=
                mark_failed (review_key j) e now (active_reviews s);
              review_semaphore := review_semaphore s;
              next_ident := next_ident s;
              threads := <[i := (j, Sleeping)]> (threads s) |}
| step_cleanup i j s :
    threads s !! i = Some (j, Sleeping) ->
    step s {| active_reviews := delete (review_key j) (active_reviews s);
              review_semaphore := review_semaphore s;
              next_ident := next_ident s;
              threads := <[i := (j, Gone)]> (threads s) |}.

(** The server as the module leaves it at import. *)
Definition initial (max_concurrent_reviews : nat) : server :=
  {| active_reviews := ∅;
     review_semaphore := max_concurrent_reviews;
     next_ident := 0;
     threads := [] |}.

Inductive reachable (n : nat) : server -> Prop :=
| reach_initial : reachable n (initial n)
| reach_step s s' : reachable n s -> step s s' -> reachable n s'.

End WebServer.

(* ================================================================== *)
(** * Part VIII. What the design document says, in its own words        *)
(* ================================================================== *)

(** The severity order of the design document: [low < medium < high]. *)
Inductive severity : Type := Low | Medium | High.

Definition severity_name (s : severity) : string :=
  match s with
  | Low => "low"
  | Medium => "medium"
  | High => "high"
  end.

Definition rank (s : severity) : Z :=
  match s with
  | Low => 1
  | Medium => 2
  | High => 3
  end.

(** [s >= t] in that order. *)
Definition at_least (s t : severity) : bool := (rank t <=? rank s)%Z.

(** The threshold a configured text stands for: a text that names no
    level stands for [medium]. *)
Definition threshold_of (t : string) : severity :=
  if String.eqb t "low" then Low
  else if String.eqb t "high" then High
  else Medium.






(** The validated shape of a finding and of a review result. *)
Definition finding_keys : list string :=
  ["line_number"; "severity"; "category"; "title"; "description";
   "suggestion"; "impact"].

Definition valid_finding (c : value) : bool :=
  match c with
  | VDict d =>
      forallb (fun k => dict_mem k d) finding_keys
      && in_strs (dict_get "severity" VNone d) severities
      && in_strs (dict_get "category" VNone d) valid_categories
  | _ => false
  end.

Definition valid_shape (r : value) : bool :=
  match r with
  | VDict d =>
      match dict_lookup "overall_score" d with
      | Some (VNum q) => Qle_bool 1 q && Qle_bool q 10
      | _ => false
      end
      && dict_mem "summary" d
      && match dict_lookup "comments" d with
         | Some (VList l) => forallb valid_finding l
         | _ => false
         end
  | _ => false
  end.

(** The findings and the score a review brings to the aggregate. *)
Definition findings_of (review : dict) : list value :=
  if skipped review then []
  else match dict_get "review_result" VNone review with
       | VDict result =>
           match dict_get "comments" (VList []) result with
           | VList l => l
           | _ => []
           end
       | _ => []
       end.

(** The score of a review as a number of Python; a result without a
    score counts 5. *)
Definition score_number (review : dict) : option pynum :=
  match dict_get "review_result" VNone review with
  | VDict result => py_number (dict_get "overall_score" (VNum 5) result)
  | _ => None
  end.

(** A score the sum takes in as it is: any float, and an [int] below
    2^20 in magnitude, so that the sum of fewer than 2^32 of them is an
    integer a float holds exactly. *)
Definition modest (x : pynum) : bool :=
  match x with
  | PInt z => (Z.abs z <? 2 ^ 20)%Z
  | PFloat _ => true
  end.



(** A review the aggregation accepts: it is skipped, or its result is a
    dictionary whose comments are a list of dictionaries with hashable
    severity and category and whose score is a modest number. *)
Definition countable_finding (c : value) : bool :=
  match c with
  | VDict d =>
      hashable (dict_get "severity" (VStr "medium") d)
      && hashable (dict_get "category" (VStr "quality") d)
  | _ => false
  end.

Definition well_formed_review (review : dict) : bool :=
  skipped review
  || match dict_get "review_result" VNone review with
     | VDict result =>
         match dict_get "comments" (VList []) result with
         | VList l => forallb countable_finding l
         | _ => false
         end
         && match py_number (dict_get "overall_score" (VNum 5) result) with
            | Some x => modest x
            | None => false
            end
     | _ => false
     end.

Definition terminal (r : review_record) : Prop :=
  status r = "completed" \/ status r = "failed".

(** ** Auxiliary notions of the statements *)


(** A file whose path entry holds a string. *)
Definition has_str_path (file_info : dict) : bool :=
  match file_path_of file_info with
  | Ok (VStr _) => true
  | _ => false
  end.

(** A finding of the given severity, and the line it contributes. *)
Definition has_severity (sev : string) (c : dict) : bool :=
  eq_str (dict_get "severity" VNone c) sev.

(** Lines put one under the other: the first line, and every further
    line after a line feed. *)
Definition lines_text (lines : list string) : string :=
  match lines with
  | [] => EmptyString
  | first :: rest =>
      first +:+ String.concat EmptyString
                  (map (fun line => String "010" line) rest)
  end.

(** The call of the model failed: it raised, or it answered nothing. *)
Definition call_failed (o : model_outcome) : bool :=
  match o with
  | ModelRaises _ => true
  | ModelText text => String.eqb text EmptyString
  end.

(** One turn of the loop of [ensure_required]. *)
Definition ensure (field : string) (v : value) (d : dict) : dict :=
  if dict_mem field d then d else dict_set field v d.

(** One turn of the loop of [ensure_lists]. *)
Definition ensure_list (field : string) (d : dict) : dict :=
  if negb (dict_mem field d) then dict_set field (VList []) d
  else if negb (is_list (dict_get field VNone d))
       then dict_set field (VList []) d
       else d.

(** The text the fallback chain hands to [json.loads]: the first fenced
    block, or else the outermost brace span. *)
Definition extract_candidate (text : string) : option string :=
  match first_fenced text with
  | Some m => Some m
  | None => brace_span text
  end.


(** The number of findings the reviews bring. *)
Definition total_findings (reviews : list dict) : Z :=
  fold_right (fun r acc => (Z.of_nat (length (findings_of r)) + acc)%Z) 0%Z
             reviews.

(** A review whose score is an [int], or that is skipped. *)
Definition whole_score (review : dict) : bool :=
  skipped review
  || match score_number review with
     | Some (PInt _) => true
     | _ => false
     end.

(** What a review with an [int] for score adds to the sum of the
    scores: nothing when it is skipped. *)
Definition score_added (review : dict) : Z :=
  if skipped review then 0%Z
  else match score_number review with
       | Some (PInt z) => z
       | _ => 0%Z
       end.

(** The sum of the scores of the reviews that are not skipped. *)
Definition total_score (reviews : list dict) : Z :=
  fold_right (fun r acc => (score_added r + acc)%Z) 0%Z reviews.

(** A sum of scores that can go on: any float, and an [int] of magnitude
    at most [bound]. *)
Definition within (bound : Z) (x : pynum) : Prop :=
  match x with
  | PInt z => (Z.abs z <= bound)%Z
  | PFloat _ => True
  end.


Definition in_progress (key : string) : response :=
  Response 202 [ ("message", VStr "Review already in progress");
                 ("review_id", VStr key) ].

(** Every record in the table was created before [next_ident]. *)
Definition idents_bounded (s : server) : Prop :=
  forall k r, active_reviews s !! k = Some r -> (ident r < next_ident s)%nat.

Section Statements.

Variable py_str : value -> string.
Variable str_exc : exc -> string.
Variable webhook_secret : string.

Definition finding_line (c : dict) : string :=
  format_value py_str (dict_get "title" (VStr EmptyString) c)
  +:+ ": "
  +:+ format_value py_str (dict_get "description" (VStr EmptyString) c).

Definition failure_message (o : model_outcome) : string :=
  match o with
  | ModelRaises e => str_exc e
  | ModelText _ => "Empty response from Gemini"
  end.

(** A merge request event for the unit [(project_id, mr_iid)] that passes
    every check before the look-up in [active_reviews]: the token is
    accepted, both numbers are there and the action is one of open,
    update and reopen. *)
Definition is_trigger (token : string) (data : dict)
    (project_id mr_iid : value) : Prop :=
  (webhook_secret = EmptyString \/ token = webhook_secret)
  /\ dict_lookup "object_kind" data = Some (VStr "merge_request")
  /\ (exists attrs,
        dict_lookup "object_attributes" data = Some (VDict attrs)
        /\ dict_lookup "iid" attrs = Some mr_iid
        /\ in_strs (dict_get "action" (VStr EmptyString) attrs) actions = true)
  /\ (exists project,
        dict_lookup "project" data = Some (VDict project)
        /\ dict_lookup "id" project = Some project_id)
  /\ truthy mr_iid = true
  /\ truthy project_id = true.

End Statements.

(** ** Concrete inputs for the examples *)

Definition example_config (threshold : string) : config :=
  {| severity_threshold := threshold;
     include_patterns := [];
     exclude_patterns := [];
     languages := [];
     enable_security_scan := true;
     enable_performance_hints := true;
     ci_commit_sha := VStr "HEAD" |}.

Definition example_filter_config : config :=
  {| severity_threshold := "medium";
     include_patterns := ["*.py"; " *.md "];
     exclude_patterns := ["tests/*"];
     languages := ["Python"];
     enable_security_scan := true;
     enable_performance_hints := true;
     ci_commit_sha := VStr "HEAD" |}.

Definition example_files : list dict :=
  [ [("new_path", VStr "src/app.py"); ("deleted_file", VBool false)];
    [("new_path", VStr "docs/guide.md")];
    [("new_path", VStr "src/old.py"); ("deleted_file", VBool true)];
    [("path", VStr "tests/test_app.py")] ].

(** A stand-in for [Path(p).suffix], right on the paths of the examples:
    the text from the last dot on. *)
Fixpoint suffix_from_last_dot (s : string) : string :=
  match s with
  | EmptyString => EmptyString
  | String c s' =>
      match suffix_from_last_dot s' with
      | EmptyString => if Ascii.eqb c "." then s else EmptyString
      | r => r
      end
  end.

(** A stand-in for [str], right on [None], the booleans and the whole
    numbers. *)
Definition example_py_str (x : value) : string :=
  match x with
  | VNone => "None"
  | VBool true => "True"
  | VBool false => "False"
  | VNum q => pretty (Qnum q)
  | _ => "?"
  end.

Definition example_exc_str (e : exc) : string :=
  match e with
  | TypeError => "TypeError"
  | AttributeError => "AttributeError"
  | KeyError => "KeyError"
  | ValueError => "ValueError"
  | OverflowError => "OverflowError"
  | ExpatError => "ExpatError"
  | ServiceError msg => msg
  end.

(** A stand-in for the serialisation of a tree, which accepts every
    tree. *)
Definition example_to_xml (e : element) : res string := Ok (tag_of e).

(** A stand-in for [json.loads] that knows one text. *)
Definition example_loads (s : string) : option value :=
  if String.eqb s "{severity: critical}"
  then Some (VDict [("comments", VList [VDict [("severity", VStr "critical")]])])
  else None.

Definition example_finding (sev title description : string) : dict :=
  [ ("severity", VStr sev); ("title", VStr title);
    ("description", VStr description) ].

Definition example_result (comments : list dict) : dict :=
  [ ("overall_score", VNum 6); ("comments", VList (map VDict comments)) ].

Definition example_review (path : string) (comments : list dict) : dict :=
  [ ("file_path", VStr path);
    ("review_result", VDict (example_result comments)) ].

Definition scored_review (path : string) (score : Q) (comments : list dict)
  : dict :=
  [ ("file_path", VStr path);
    ("review_result",
      VDict [ ("overall_score", VNum score);
              ("summary", VStr "reviewed");
              ("comments", VList (map VDict comments)) ]) ].

Definition example_trigger (project_id mr_iid : Z) (action : string) : dict :=
  [ ("object_kind", VStr "merge_request");
    ("object_attributes",
      VDict [("iid", VNum (inject_Z mr_iid)); ("action", VStr action)]);
    ("project", VDict [("id", VNum (inject_Z project_id))]) ].

Definition example_record (st : string) : review_record :=
  {| ident := 0; started_at := "2025-01-01T10:00:00"; status := st;
     rec_mr_iid := VNum 7; rec_project_id := VNum 42;
     error := None;
     completed_at := if String.eqb st "running" then None
                     else Some "2025-01-01T10:02:00" |}.

Definition example_job : job := Job "42:7" (VNum 7) (VNum 42).

(** A server with one thread, working for [example_job]. *)
Definition example_server (table : gmap string review_record)
    (slots next : nat) (p : phase) : server :=
  {| active_reviews := table;
     review_semaphore := slots;
     next_ident := next;
     threads := [(example_job, p)] |}.

(* ================================================================== *)
(** * Part VIII (continued). Further parts of the code                  *)
(* ================================================================== *)

(** ** The slots of [review_semaphore] *)

(** A thread between [with review_semaphore] and the end of that block
    holds a slot. *)
Definition holds_slot (p : phase) : bool :=
  match p with
  | Holding | Reviewing | Stamping => true
  | _ => false
  end.

Fixpoint slots_held (ts : list (job * phase)) : nat :=
  match ts with
  | [] => 0
  | (_, p) :: ts' => (if holds_slot p then 1 else 0) + slots_held ts'
  end.

(** ** Text *)

(** The first and the last character of a text. *)
Definition first_char (s : string) : option ascii :=
  match s with
  | EmptyString => None
  | String c _ => Some c
  end.

Fixpoint last_char (s : string) : option ascii :=
  match s with
  | EmptyString => None
  | String c EmptyString => Some c
  | String _ s' => last_char s'
  end.

(** [c in s] for a character [c]. *)
Definition has_char (c : ascii) (s : string) : bool :=
  match find_char c s with
  | Some _ => true
  | None => false
  end.

(** ** Validation *)

(** The entries [_validate_review_result] looks at. *)
Definition validated_fields : list string :=
  ["overall_score"; "summary"; "comments"; "positive_aspects";
   "recommendations"].

(** An answer of the model with a score out of range, an entry the
    validation does not know, a finding of unknown severity and a comment
    that is no finding. *)
Definition example_answer : dict :=
  [ ("overall_score", VNum 12);
    ("model", VStr "gemini");
    ("comments",
      VList [ VDict [("severity", VStr "critical"); ("title", VStr "Race")];
              VStr "not a finding" ]) ].

(** ** The listings of the GitLab client ([scripts/gitlab_client.py]) *)

(** [x[k]] for a string [k]: only a dictionary can be indexed by one. *)
Definition py_item (k : string) (x : value) : res value :=
  match x with
  | VDict d => dict_item k d
  | _ => Raise TypeError
  end.

(** The dictionary [get_changed_files] builds for one change. *)
Definition changed_file (change : dict) : dict :=
  [ ("old_path", dict_get "old_path" VNone change);
    ("new_path", dict_get "new_path" VNone change);
    ("new_file", dict_get "new_file" (VBool false) change);
    ("renamed_file", dict_get "renamed_file" (VBool false) change);
    ("deleted_file", dict_get "deleted_file" (VBool false) change);
    ("diff", dict_get "diff" (VStr EmptyString) change);
    ("change", VDict change) ].

(** The loop over the changes; a change that is no dictionary has no
    [get]. *)
Definition changed_files_step (files : list dict) (change : value)
  : res (list dict) :=
  match change with
  | VDict c => Ok (files ++ [changed_file c])%list
  | _ => Raise AttributeError
  end.

(** [get_changed_files]: [changes] is what [mr.changes()] gave, or the
    exception the request raised; any exception ends in the empty
    list. *)
Definition get_changed_files (changes : res value) : list dict :=
  match
    (do c <- changes;
     do l <- py_get "changes" (VList []) c;
     do items <- py_iter l;
     for_each changed_files_step items [])
  with
  | Ok files => files
  | Raise _ => []
  end.

(** The loop of [get_all_project_files]. *)
Definition tree_step (max_files : Z) (files : list dict) (item : value)
  : res (list dict) :=
  do ty <- py_item "type" item;
  if eq_str ty "blob" && (Z.of_nat (length files) <? max_files)%Z then
    do p <- py_item "path" item;
    do n <- py_item "name" item;
    do i <- py_item "id" item;
    Ok (files ++ [[("path", p); ("name", n); ("id", i)]])%list
  else Ok files.

(** [get_all_project_files]: [items] is what [repository_tree] gave, or
    the exception it raised. *)
Definition get_all_project_files (items : res (list value)) (max_files : Z)
  : list dict :=
  match (do l <- items; for_each (tree_step max_files) l []) with
  | Ok files => files
  | Raise _ => []
  end.

(** ** The files to review ([AICodeReviewer._get_files_to_review]) *)

(** The entries of the configuration beside those of [config]. *)
Record run_settings : Type := RunSettings {
  base : config;
  ci_merge_request_iid : option string;
  review_scope : string;
  max_files : Z;
  post_mr_comments : bool;
  generate_report : bool
}.

(** [l[:n]] *)
Definition slice_to {A : Type} (n : Z) (l : list A) : list A :=
  if (0 <=? n)%Z then firstn (Z.to_nat n) l
  else firstn (length l - Z.to_nat (- n)) l.

(** A text of the environment that is there and not empty. *)
Definition env_set (v : option string) : option string :=
  match v with
  | Some s => if String.eqb s EmptyString then None else Some s
  | None => None
  end.

Section FilesToReview.

Variable path_suffix : string -> string.

(** [mr.changes()] for a merge request, and [repository_tree]. *)
Variable mr_changes : string -> res value.
Variable repository_tree : res (list value).

Definition _get_files_to_review (rs : run_settings) : res (list dict) :=
  match env_set (ci_merge_request_iid rs) with
  | None => Ok []
  | Some iid =>
      let files :=
        if String.eqb (review_scope rs) "changed"
        then get_changed_files (mr_changes iid)
        else get_all_project_files repository_tree 100 in
      do filtered_files <- _filter_files path_suffix (base rs) files;
      Ok (if (max_files rs <? Z.of_nat (length filtered_files))%Z
          then slice_to (max_files rs) filtered_files
          else filtered_files)
  end.

End FilesToReview.

(** ** The JSON report ([ReportGenerator._generate_json_report]) *)

(** [len(x)] *)
Definition py_len (x : value) : res Z :=
  match x with
  | VList l => Ok (Z.of_nat (length l))
  | VStr s => Ok (Z.of_nat (String.length s))
  | VDict d => Ok (Z.of_nat (length d))
  | _ => Raise TypeError
  end.

(** [{'high': 0, 'medium': 0, 'low': 0}] *)
Definition breakdown0 : counters :=
  [(VStr "high", 0%Z); (VStr "medium", 0%Z); (VStr "low", 0%Z)].

Definition breakdown_step (breakdown : counters) (comment : value)
  : res counters :=
  do severity <- py_get "severity" (VStr "medium") comment;
  counter_incr severity breakdown.

Definition _get_severity_breakdown (comments : value) : res counters :=
  do items <- py_iter comments;
  for_each breakdown_step items breakdown0.

(** One entry of [report_data['reviews']]. *)
Record review_data : Type := ReviewData {
  rd_file_path : value;
  rd_overall_score : value;
  rd_summary : value;
  comment_count : Z;
  positive_aspects_count : Z;
  recommendations_count : Z;
  severity_breakdown : counters
}.

Definition review_data_of (review : dict) : res review_data :=
  let file_path := dict_get "file_path" (VStr EmptyString) review in
  do result <- dict_item "review_result" review;
  do overall_score <- py_get "overall_score" (VNum 0) result;
  do summary_text <- py_get "summary" (VStr EmptyString) result;
  do comments <- py_get "comments" (VList []) result;
  do n_comments <- py_len comments;
  do positive_aspects <- py_get "positive_aspects" (VList []) result;
  do n_aspects <- py_len positive_aspects;
  do recommendations <- py_get "recommendations" (VList []) result;
  do n_recommendations <- py_len recommendations;
  do breakdown <- _get_severity_breakdown comments;
  Ok {| rd_file_path := file_path;
        rd_overall_score := overall_score;
        rd_summary := summary_text;
        comment_count := n_comments;
        positive_aspects_count := n_aspects;
        recommendations_count := n_recommendations;
        severity_breakdown := breakdown |}.

Definition json_step (entries : list review_data) (review : dict)
  : res (list review_data) :=
  if skipped review then Ok entries
  else do entry <- review_data_of review; Ok (entries ++ [entry])%list.

(** The data [_generate_json_report] hands to [json.dump]; when the loop
    raises, the method logs the error and writes nothing. *)
Definition _generate_json_report (s : summary) (reviews : list dict)
  : res (summary * list review_data) :=
  do entries <- for_each json_step reviews [];
  Ok (s, entries).

(** ** Auxiliary definitions for the reports *)

(** [comment.get('severity', default)] of a finding that is a
    dictionary. *)
Definition severity_or (default : value) (comment : value) : value :=
  match comment with
  | VDict d => dict_get "severity" default d
  | _ => VNone
  end.

(** The findings of the given severity, a missing one counting as
    medium. *)
Definition with_severity (sev : string) (items : list value) : list value :=
  List.filter (fun c => eq_str (severity_or (VStr "medium") c) sev) items.

Definition Zsum (l : list Z) : Z := fold_right Z.add 0%Z l.

(** The findings the loops over a review iterate: none for a review
    that is skipped. *)
Definition review_items (review : dict) : list value :=
  if skipped review then []
  else
    match dict_get "review_result" VNone review with
    | VDict result =>
        match py_iter (dict_get "comments" (VList []) result) with
        | Ok items => items
        | Raise _ => []
        end
    | _ => []
    end.

(** How many of the findings have a severity equal, as a key, to [j]. *)
Definition sev_count (j : value) (items : list value) : Z :=
  Z.of_nat (length
    (List.filter (fun c => key_eqb j (severity_or (VStr "medium") c)) items)).

(** A test case with a failure node. *)
Definition has_failure (e : element) : bool :=
  existsb (fun n => String.eqb (tag_of n) "failure") (children_of e).

(** ** Auxiliary definitions for the listings *)

(** The keys of a file of [get_changed_files]. *)
Definition changed_file_keys : list string :=
  ["old_path"; "new_path"; "new_file"; "renamed_file"; "deleted_file";
   "diff"; "change"].

(** An item of the tree that is a file, and the entry it gives. *)
Definition is_blob (item : dict) : bool :=
  eq_str (dict_get "type" VNone item) "blob".

Definition tree_entry (item : dict) : dict :=
  [ ("path", dict_get "path" VNone item);
    ("name", dict_get "name" VNone item);
    ("id", dict_get "id" VNone item) ].

(** An item of the tree with the keys the loop reads: its type, and for
    a file its path, name and id. *)
Definition tree_item (item : dict) : bool :=
  dict_mem "type" item
  && (negb (is_blob item)
      || (dict_mem "path" item && dict_mem "name" item && dict_mem "id" item)).

(** ** More concrete inputs *)

Definition blank_include_config : config :=
  {| severity_threshold := "medium";
     include_patterns := [" "; EmptyString];
     exclude_patterns := [];
     languages := [];
     enable_security_scan := true;
     enable_performance_hints := true;
     ci_commit_sha := VStr "HEAD" |}.

Definition example_changes : list dict :=
  [ [("old_path", VStr "a.py"); ("new_path", VStr "a.py");
     ("diff", VStr "+x = 1")];
    [("old_path", VStr "b.py"); ("new_path", VStr "b.py");
     ("deleted_file", VBool true)] ].

Definition example_tree : list dict :=
  [ [("type", VStr "tree"); ("path", VStr "src")];
    [("type", VStr "blob"); ("path", VStr "src/a.py"); ("name", VStr "a.py");
     ("id", VStr "1")];
    [("type", VStr "blob"); ("path", VStr "src/b.py"); ("name", VStr "b.py");
     ("id", VStr "2")];
    [("type", VStr "blob"); ("path", VStr "c.py"); ("name", VStr "c.py");
     ("id", VStr "3")] ].

Definition example_settings (scope : string) (limit : Z) : run_settings :=
  {| base := example_config "medium";
     ci_merge_request_iid := Some "7";
     review_scope := scope;
     max_files := limit;
     post_mr_comments := true;
     generate_report := true |}.

Definition example_reviews : list dict :=
  [ example_review "a.py"
      [ example_finding "high" "t1" "d1"; example_finding "low" "t2" "d2" ];
    [("file_path", VStr "b.py")];
    example_review "c.py" [ example_finding "high" "t3" "d3" ] ].

(** ** The Cloud Functions entry point ([scripts/cloud_function_main.py]) *)

(** How a handler ends: with an answer, or left by [SystemExit], which
    no [except Exception] catches. *)
Inductive cloud_outcome : Type :=
| Responds (r : response)
| SystemExits.

(** The request as [webhook_handler] reads it: [health_arg] is
    [request.args.get('health')], [gitlab_token] the header
    [X-Gitlab-Token] (empty when absent), [json_data] the result of
    [request.get_json()]. *)
Record request : Type := Request {
  method : string;
  path : string;
  health_arg : option string;
  gitlab_token : string;
  json_data : value
}.

Definition has_nul (s : string) : bool := has_char "000" s.

(** [os.environ[key] = v]: the text that is stored. *)
Definition environ_value (v : value) : res string :=
  match v with
  | VStr s => if has_nul s then Raise ValueError else Ok s
  | _ => Raise TypeError
  end.

(** [for key, value in review_env.items(): os.environ[key] = value] *)
Fixpoint set_environ (entries : list (string * value))
  : res (list (string * string)) :=
  match entries with
  | [] => Ok []
  | (key, v) :: entries' =>
      do s <- environ_value v;
      do rest <- set_environ entries';
      Ok ((key, s) :: rest)
  end.

Section CloudFunction.

Variable py_str : value -> string.
Variable str_exc : exc -> string.

(** [os.getenv('GITLAB_WEBHOOK_SECRET', '')] *)
Variable webhook_secret : string.

(** [AICodeReviewer().run()] under the variables just set. *)
Variable run_reviewer : list (string * string) -> run_outcome.

(** [handle_health_check()], which answers 200 or 500. *)
Variable handle_health_check : response.

(** The dictionary [review_env]. *)
Definition review_env (project_id mr_iid mr_data webhook_data : value)
  : res (list (string * value)) :=
  do last_commit <- py_get "last_commit" (VDict []) mr_data;
  do sha <- py_get "id" (VStr EmptyString) last_commit;
  do project <- py_get "project" (VDict []) webhook_data;
  do web_url <- py_get "web_url" (VStr EmptyString) project;
  do author <- py_get "author" (VDict []) mr_data;
  do username <- py_get "username" (VStr "webhook-user") author;
  Ok [ ("CI_PROJECT_ID", VStr (format_value py_str project_id));
       ("CI_MERGE_REQUEST_IID", VStr (format_value py_str mr_iid));
       ("CI_COMMIT_SHA", sha);
       ("CI_PROJECT_URL", web_url);
       ("GITLAB_USER_LOGIN", username) ].

(** The end of the [try] block of [handle_gitlab_webhook], from the
    set-up of the environment on: the review runs in the request. *)
Definition run_in_request
    (project_id mr_iid mr_action mr_data webhook_data : value)
  : res cloud_outcome :=
  do entries <- review_env project_id mr_iid mr_data webhook_data;
  do environ <- set_environ entries;
  match run_reviewer environ with
  | Returned =>
      Ok (Responds (Response 200 [ ("message", VStr "AI code review completed");
                                   ("mr_iid", mr_iid);
                                   ("project_id", project_id);
                                   ("action", mr_action) ]))
  | Raised e => Raise e
  | Exited => Ok SystemExits
  end.

Definition handle_gitlab_webhook_try (token : string) (webhook_data : value)
  : res cloud_outcome :=
  if negb (String.eqb webhook_secret EmptyString)
     && negb (String.eqb token webhook_secret)
  then Ok (Responds (Response 401 [("error", VStr "Invalid webhook token")]))
  else if negb (truthy webhook_data)
  then Ok (Responds (Response 400 [("error", VStr "No JSON data provided")]))
  else
    do event_type <- py_get "object_kind" (VStr EmptyString) webhook_data;
    if negb (eq_str event_type "merge_request")
    then Ok (Responds
               (Response 200 [ ("message", VStr "Event type not supported");
                               ("event_type", event_type) ]))
    else
      do mr_data <- py_get "object_attributes" (VDict []) webhook_data;
      do mr_iid <- py_get "iid" VNone mr_data;
      do mr_action <- py_get "action" (VStr EmptyString) mr_data;
      do project <- py_get "project" (VDict []) webhook_data;
      do project_id <- py_get "id" VNone project;
      if negb (truthy mr_iid) || negb (truthy project_id)
      then Ok (Responds
                 (Response 400
                    [("error", VStr "Missing required merge request data")]))
      else if negb (in_strs mr_action actions)
      then Ok (Responds
                 (Response 200
                    [("message",
                       VStr ("MR action " +:+ double_quote
                             +:+ format_value py_str mr_action
                             +:+ double_quote +:+ " not processed"))]))
      else run_in_request project_id mr_iid mr_action mr_data webhook_data.

(** The handler of the [try] block: any exception becomes a 500. *)
Definition answer_or_500 (r : res cloud_outcome) : cloud_outcome :=
  match r with
  | Ok o => o
  | Raise e => Responds (Response 500 [("error", VStr (str_exc e))])
  end.

Definition handle_gitlab_webhook (token : string) (webhook_data : value)
  : cloud_outcome :=
  answer_or_500 (handle_gitlab_webhook_try token webhook_data).

(** [webhook_handler]: the answer to a preflight request, the health
    check, the webhook for a POST, the service description otherwise.
    The headers of the answers are left out. *)
Definition webhook_handler (req : request) : cloud_outcome :=
  if String.eqb (method req) "OPTIONS"
  then Responds (Response 204 [])
  else if String.eqb (path req) "/health"
          || match health_arg req with
             | Some h => negb (String.eqb h EmptyString)
             | None => false
             end
  then Responds handle_health_check
  else if String.eqb (method req) "POST"
  then handle_gitlab_webhook (gitlab_token req) (json_data req)
  else Responds
         (Response 200
            [ ("service", VStr "AI Code Review for GitLab");
              ("version", VStr "1.0.0");
              ("description",
                VStr "AI-powered code review using Gemini 2.5 Flash");
              ("hackathon", VStr "GitLab Hackathon Submission") ]).

End CloudFunction.

Definition example_request : request :=
  {| method := "POST";
     path := "/";
     health_arg := None;
     gitlab_token := EmptyString;
     json_data := VDict (example_trigger 42 7 "open") |}.

Definition example_environ : list (string * string) :=
  [ ("CI_PROJECT_ID", "42");
    ("CI_MERGE_REQUEST_IID", "7");
    ("CI_COMMIT_SHA", EmptyString);
    ("CI_PROJECT_URL", EmptyString);
    ("GITLAB_USER_LOGIN", "webhook-user") ].

(** What the report generator makes of [example_reviews]. *)
Definition example_summary : summary :=
  {| total_files_reviewed := 3;
     total_comments := 3;
     average := PFloat (Finite 4);
     severity_distribution :=
       [(VStr "high", 2%Z); (VStr "medium", 0%Z); (VStr "low", 1%Z)];
     category_distribution := [(VStr "quality", 3%Z)] |}.

Definition example_entries : list review_data :=
  [ {| rd_file_path := VStr "a.py";
       rd_overall_score := VNum 6;
       rd_summary := VStr EmptyString;
       comment_count := 2;
       positive_aspects_count := 0;
       recommendations_count := 0;
       severity_breakdown :=
         [(VStr "high", 1%Z); (VStr "medium", 0%Z); (VStr "low", 1%Z)] |};
    {| rd_file_path := VStr "c.py";
       rd_overall_score := VNum 6;
       rd_summary := VStr EmptyString;
       comment_count := 1;
       positive_aspects_count := 0;
       recommendations_count := 0;
       severity_breakdown :=
         [(VStr "high", 1%Z); (VStr "medium", 0%Z); (VStr "low", 0%Z)] |} ].

Definition example_cases : list element :=
  [ Element "testcase"
      [ ("classname", VStr "CodeReview"); ("name", VStr "a.py");
        ("time", VStr "0") ]
      None
      [ Element "failure"
          [("message", VStr "High severity issues found in a.py")]
          (Some "t1: d1") [] ];
    Element "testcase"
      [ ("classname", VStr "CodeReview"); ("name", VStr "c.py");
        ("time", VStr "0") ]
      None
      [ Element "failure"
          [("message", VStr "High severity issues found in c.py")]
          (Some "t3: d3") [] ] ].

Definition example_document : element :=
  Element "testsuites" (suite_attrib "AI Code Review" example_summary) None
    [ Element "testsuite" (suite_attrib "Code Review Results" example_summary)
        None example_cases ].

(** ** Auxiliary definitions for the reports of validated reviews *)

(** The dictionary [_review_file] returns. *)
Definition built_review (file_path review_result file_info : value) : dict :=
  [ ("file_path", file_path);
    ("review_result", review_result);
    ("file_info", file_info) ].

(** A review on which no report can fail: it is skipped, or its result
    is a dictionary whose comments are validated findings, whose score
    is a modest number and whose two lists, when there, are lists. *)
Definition report_ready (review : dict) : bool :=
  skipped review
  || match dict_get "review_result" VNone review with
     | VDict result =>
         match dict_get "comments" (VList []) result with
         | VList l => forallb valid_finding l
         | _ => false
         end
         && match py_number (dict_get "overall_score" (VNum 5) result) with
            | Some x => modest x
            | None => false
            end
         && is_list (dict_get "positive_aspects" (VList []) result)
         && is_list (dict_get "recommendations" (VList []) result)
     | _ => false
     end.

(** What validation makes of [example_answer], and two reviews as
    the reviewer builds them: one validated, one failed. *)
Definition example_validated : value :=
  VDict
    [ ("overall_score", VNum 10); ("model", VStr "gemini");
      ("comments",
        VList
          [ VDict
              [ ("line_number", VNone); ("severity", VStr "medium");
                ("category", VStr "quality"); ("title", VStr "Race");
                ("description", VStr EmptyString);
                ("suggestion", VStr EmptyString);
                ("impact", VStr EmptyString) ] ]);
      ("summary", VStr EmptyString); ("positive_aspects", VList []);
      ("recommendations", VList []) ].

Definition example_built_reviews : list dict :=
  [ built_review (VStr "a.py") example_validated (VDict []);
    built_review (VStr "b.py") (error_result "timeout") (VDict []) ].

(** ** Posting the findings ([AICodeReviewer._post_review_comments]) *)

(** A note [post_mr_comment] asks GitLab to create on a merge request.
    The request itself may fail; [post_mr_comment] then logs the error
    and returns [False], which the caller does not read. *)
Record note : Type := Note {
  note_mr_iid : string;
  note_body : string
}.

Definition backtick : string := String "096" EmptyString.

Section Posting.

Variable py_str : value -> string.

(** [s.title()] *)
Variable title : string -> string.

(** The pictographs of [_format_comment], which lie beyond the code
    points a [string] holds: those of the severities low, medium and
    high, of the categories security, performance, quality, logic and
    style, and the one of the signature. *)
Variable emoji_low emoji_medium emoji_high : string.
Variable emoji_security emoji_performance emoji_quality : string.
Variable emoji_logic emoji_style emoji_robot : string.

Definition severity_emoji : list (string * string) :=
  [("low", emoji_low); ("medium", emoji_medium); ("high", emoji_high)].

Definition category_emoji : list (string * string) :=
  [ ("security", emoji_security); ("performance", emoji_performance);
    ("quality", emoji_quality); ("logic", emoji_logic);
    ("style", emoji_style) ].

(** [table.get(k, default)] for an arbitrary key [k]. *)
Definition emoji_get (table : list (string * string)) (k : value)
    (default : string) : res string :=
  match k with
  | VList _ | VDict _ => Raise TypeError
  | VStr s => Ok (match assoc s table with
                  | Some e => e
                  | None => default
                  end)
  | _ => Ok default
  end.

(** [x.title()] *)
Definition py_title (x : value) : res string :=
  match x with
  | VStr s => Ok (title s)
  | _ => Raise AttributeError
  end.

Definition _format_comment (comment : dict) : res string :=
  let severity := dict_get "severity" (VStr "low") comment in
  let category := dict_get "category" (VStr "quality") comment in
  do se <- emoji_get severity_emoji severity emoji_low;
  do ce <- emoji_get category_emoji category emoji_quality;
  let formatted := se +:+ " " +:+ ce +:+ " " in
  let formatted :=
    formatted +:+ "**"
    +:+ format_value py_str (dict_get "title" (VStr "Code Review") comment)
    +:+ "**" +:+ newline +:+ newline in
  let formatted :=
    formatted
    +:+ format_value py_str
          (dict_get "description" (VStr EmptyString) comment)
    +:+ newline +:+ newline in
  do formatted <-
    (if truthy (dict_get "suggestion" VNone comment)
     then do suggestion <- dict_item "suggestion" comment;
          Ok (formatted +:+ "**Suggestion:**" +:+ newline
              +:+ backtick +:+ backtick +:+ backtick +:+ newline
              +:+ format_value py_str suggestion +:+ newline
              +:+ backtick +:+ backtick +:+ backtick +:+ newline +:+ newline)
     else Ok formatted);
  do severity_title <- py_title severity;
  do category_title <- py_title category;
  Ok (formatted +:+ "*Severity: " +:+ severity_title +:+ " | Category: "
      +:+ category_title +:+ "*" +:+ newline
      +:+ "*" +:+ emoji_robot +:+ " Generated by AI Code Review*").

(** The body [post_mr_comment] gives the note. *)
Definition post_mr_comment (mr_iid : string) (comment_text : string)
    (file_path line_number : value) : note :=
  if truthy file_path && truthy line_number
  then Note mr_iid
         ("**File: " +:+ backtick +:+ format_value py_str file_path
          +:+ backtick +:+ " (Line " +:+ format_value py_str line_number
          +:+ ")**" +:+ newline +:+ newline +:+ comment_text)
  else Note mr_iid comment_text.

Variable cfg : config.
Variable mr_iid : string.

(** The inner loop: the notes asked for so far, and one comment. *)
Definition post_comment_step (file_path : value) (notes : list note)
    (comment : value) : res (list note) :=
  match comment with
  | VDict c =>
      do post <- _should_post_comment cfg c;
      if post then
        do text <- _format_comment c;
        Ok (notes
            ++ [post_mr_comment mr_iid text file_path
                  (dict_get "line_number" VNone c)])%list
      else Ok notes
  | _ => Raise AttributeError
  end.

(** [not review or not review['review_result']] *)
Definition post_skipped (review : dict) : res bool :=
  if negb (truthy (VDict review)) then Ok true
  else do review_result <- dict_item "review_result" review;
       Ok (negb (truthy review_result)).

Definition post_review_step (notes : list note) (review : dict)
  : res (list note) :=
  do skip <- post_skipped review;
  if skip then Ok notes
  else
    do review_result <- dict_item "review_result" review;
    do file_path <- dict_item "file_path" review;
    do comments <- py_get "comments" (VList []) review_result;
    do items <- py_iter comments;
    for_each (post_comment_step file_path) items notes.

End Posting.

(** [_post_review_comments]: the notes it asks for, in order. *)
Definition _post_review_comments (py_str : value -> string)
    (title : string -> string)
    (emoji_low emoji_medium emoji_high : string)
    (emoji_security emoji_performance emoji_quality : string)
    (emoji_logic emoji_style emoji_robot : string)
    (rs : run_settings) (reviews : list dict) : res (list note) :=
  match (if post_mr_comments rs then env_set (ci_merge_request_iid rs)
         else None) with
  | None => Ok []
  | Some mr_iid =>
      for_each
        (post_review_step py_str title emoji_low emoji_medium emoji_high
           emoji_security emoji_performance emoji_quality emoji_logic
           emoji_style emoji_robot (base rs) mr_iid)
        reviews []
  end.

(** ** Auxiliary definitions for the posting *)

(** Whether the Comment Gate lets a finding through. *)
Definition passes_gate (cfg : config) (c : value) : bool :=
  match c with
  | VDict d =>
      match _should_post_comment cfg d with
      | Ok b => b
      | Raise _ => false
      end
  | _ => false
  end.

(** The findings at or above the threshold, each with the path of its
    file, review by review. *)
Definition findings_to_post (cfg : config) (reviews : list dict)
  : list (value * value) :=
  flat_map
    (fun review =>
       map (fun c => (dict_get "file_path" VNone review, c))
         (List.filter (passes_gate cfg) (review_items review)))
    reviews.

Section PostingStatements.

Variable py_str : value -> string.
Variable title : string -> string.
Variable emoji_low emoji_medium emoji_high : string.
Variable emoji_security emoji_performance emoji_quality : string.
Variable emoji_logic emoji_style emoji_robot : string.

(** A note and the finding, with the path of its file, that it was
    written for. *)
Definition note_for (mr_iid : string) (n : note) (pc : value * value)
  : Prop :=
  exists d text,
    snd pc = VDict d
    /\ _format_comment py_str title emoji_low emoji_medium emoji_high
         emoji_security emoji_performance emoji_quality emoji_logic
         emoji_style emoji_robot d = Ok text
    /\ n = post_mr_comment py_str mr_iid text (fst pc)
             (dict_get "line_number" VNone d).

End PostingStatements.

(** ** The address of the GitLab instance ([GitLabClient._setup_client]) *)

(** [s.split(sep)] for a separator of one character. *)
Fixpoint split_on (sep : ascii) (s : string) : list string :=
  match s with
  | EmptyString => [EmptyString]
  | String c s' =>
      if Ascii.eqb c sep then EmptyString :: split_on sep s'
      else match split_on sep s' with
           | x :: l => String c x :: l
           | [] => [String c EmptyString]
           end
  end.

(** [p in s] for texts. *)
Fixpoint contains (p s : string) : bool :=
  starts_with p s
  || match s with
     | EmptyString => false
     | String _ s' => contains p s'
     end.

(** The first lines of [_setup_client]: [project_url] is
    [os.getenv('CI_PROJECT_URL')], which is [None] when the variable is
    not set; [None] has no [in]. *)
Definition gitlab_url (project_url : option string) : res string :=
  match project_url with
  | Some url =>
      Ok (if contains "//" url
          then join "/" (firstn 3 (split_on "/" url))
          else "https://gitlab.com")
  | None => Raise TypeError
  end.

(** One changed file, and the review the loop of [run] collects for it
    when the model answers with the text [example_loads] knows. *)
Definition example_pipeline_files : list dict :=
  [[("new_path", VStr "app.py")]].

Definition example_pipeline_reviews : list dict :=
  [ built_review (VStr "app.py")
      (VDict
         [ ("comments",
             VList
               [ VDict
                   [ ("line_number", VNone); ("severity", VStr "medium");
                     ("category", VStr "quality");
                     ("title", VStr "Code Review");
                     ("description", VStr EmptyString);
                     ("suggestion", VStr EmptyString);
                     ("impact", VStr EmptyString) ] ]);
           ("overall_score", VNum 5); ("summary", VStr EmptyString);
           ("positive_aspects", VList []); ("recommendations", VList []) ])
      (VDict [("new_path", VStr "app.py")]) ].

(* ================================================================== *)
(** * Part IX. Properties                                               *)
(* ================================================================== *)

(** ** Dictionaries *)

Lemma dict_lookup_set_eq k v d : dict_lookup k (dict_set k v d) = Some v.
Proof.
  induction d as [|[k' v'] d IH]; simpl.
  - now rewrite String.eqb_refl.
  - destruct (String.eqb k k') eqn:E; simpl; rewrite ?String.eqb_refl, ?E; auto.
Qed.

Lemma dict_lookup_set_ne k k' v d :
  String.eqb k' k = false -> dict_lookup k' (dict_set k v d) = dict_lookup k' d.
Proof.
  intros Hne. induction d as [|[k0 v0] d IH]; simpl.
  - now rewrite Hne.
  - destruct (String.eqb k k0) eqn:E; simpl.
    + apply String.eqb_eq in E. subst k0. now rewrite Hne.
    + now rewrite IH.
Qed.

Lemma dict_mem_lookup k d :
  dict_mem k d = match dict_lookup k d with Some _ => true | None => false end.
Proof.
  induction d as [|[k' v'] d IH]; simpl; auto.
  destruct (String.eqb k k'); auto.
Qed.

Lemma dict_mem_set k k' v d :
  dict_mem k' (dict_set k v d) = String.eqb k' k || dict_mem k' d.
Proof.
  rewrite !dict_mem_lookup.
  destruct (String.eqb k' k) eqn:E.
  - apply String.eqb_eq in E. subst. now rewrite dict_lookup_set_eq.
  - now rewrite dict_lookup_set_ne.
Qed.

(** ** The Comment Gate *)

Lemma levels_get_name s default :
  levels_get (VStr (severity_name s)) default = Ok (rank s).
Proof. destruct s; reflexivity. Qed.

Lemma levels_get_threshold t :
  levels_get (VStr t) 2 = Ok (rank (threshold_of t)).
Proof.
  unfold levels_get, threshold_of, severity_levels, assoc.
  destruct (String.eqb t "low") eqn:E1; [reflexivity|].
  destruct (String.eqb t "medium") eqn:E2.
  - apply String.eqb_eq in E2. subst t. reflexivity.
  - destruct (String.eqb t "high"); reflexivity.
Qed.


(** C8. The Comment Gate posts a finding exactly when its severity is at
    least the threshold in the order low < medium < high; a configured
    threshold that names no level counts as medium; at the threshold
    medium, a medium or high finding is posted and a low one is not. *)
Theorem comment_gate_threshold (cfg : config) (comment : dict) (s : severity) :
  dict_lookup "severity" comment = Some (VStr (severity_name s)) ->
  _should_post_comment cfg comment
  = Ok (at_least s (threshold_of (severity_threshold cfg)))
  /\ (str_in (severity_threshold cfg) severities = false ->
      threshold_of (severity_threshold cfg) = Medium)
  /\ (severity_threshold cfg = "medium" ->
      _should_post_comment cfg comment
      = Ok (match s with Low => false | Medium | High => true end)).
Proof.
  intros Hsev.
  assert (Hgate : _should_post_comment cfg comment
                  = Ok (at_least s (threshold_of (severity_threshold cfg)))).
  { unfold _should_post_comment, dict_get. rewrite Hsev.
    rewrite levels_get_name, levels_get_threshold. reflexivity. }
  split; [exact Hgate|]. split.
  - unfold str_in, severities, threshold_of. simpl.
    destruct (String.eqb (severity_threshold cfg) "low"); [discriminate|].
    destruct (String.eqb (severity_threshold cfg) "medium"); [discriminate|].
    destruct (String.eqb (severity_threshold cfg) "high"); [discriminate|].
    reflexivity.
  - intros Hmed. rewrite Hgate, Hmed. destruct s; reflexivity.
Qed.

Lemma comment_gate_threshold_witness :
  _should_post_comment (example_config "medium")
    [("severity", VStr "high"); ("title", VStr "Injection")]
  = Ok true.
Proof.
  destruct (comment_gate_threshold (example_config "medium")
              [("severity", VStr "high"); ("title", VStr "Injection")] High
              eq_refl) as [H _].
  exact H.
Defined.



(** ** The exception monad *)

Lemma bind_Ok {A B : Type} (m : res A) (k : A -> res B) (b : B) :
  bind m k = Ok b -> exists a, m = Ok a /\ k a = Ok b.
Proof. destruct m as [a|e]; simpl; [eauto | discriminate]. Qed.

Ltac bind_inv H :=
  let a := fresh "a" in
  let Ha := fresh "Ha" in
  apply bind_Ok in H; destruct H as (a & Ha & H).

(** ** [fnmatch] *)

Example fnmatch_ex1 : fnmatch "main.py" "*.py" = true.
Proof. reflexivity. Qed.

Example fnmatch_ex2 : fnmatch "main.pyc" "*.py" = false.
Proof. reflexivity. Qed.

Example fnmatch_ex3 : fnmatch "a1.txt" "[a-c][!a-z].t?t" = true.
Proof. reflexivity. Qed.

Example fnmatch_ex4 : fnmatch "x[y" "x[y" = true.
Proof. reflexivity. Qed.

Example fnmatch_ex5 : fnmatch "-" "[a-c-e]" = true.
Proof. reflexivity. Qed.

Example fnmatch_ex6 : fnmatch "d" "[a-c-e]" = false.
Proof. reflexivity. Qed.
















(** ** The File Filter *)

Section FilterProperties.

Variable path_suffix : string -> string.
Variable cfg : config.

Lemma matches_patterns_total (p : string) (patterns : list string) :
  exists b, _matches_patterns (VStr p) patterns = Ok b.
Proof.
  induction patterns as [|pat patterns [b IH]]; simpl; [eauto|].
  destruct (String.eqb (strip pat) EmptyString); [eauto|].
  simpl. destruct (fnmatch p (strip pat)); eauto.
Qed.

Lemma keep_file_total (file_info : dict) :
  has_str_path file_info = true ->
  exists b, keep_file path_suffix cfg file_info = Ok b.
Proof.
  unfold has_str_path, keep_file. intros H.
  destruct (file_path_of file_info) as [[| | |p| |]|]; try discriminate.
  simpl.
  destruct (truthy _); [eauto|].
  destruct (matches_patterns_total p (exclude_patterns cfg)) as [b1 ->]. simpl.
  destruct b1; [eauto|].
  destruct (matches_patterns_total p (include_patterns cfg)) as [b2 ->].
  destruct (nonempty (include_patterns cfg)); simpl.
  - destruct b2; simpl; [|eauto]. destruct (nonempty (languages cfg)); simpl; eauto.
  - destruct (nonempty (languages cfg)); simpl; eauto.
Qed.

Lemma filter_files_total (files : list dict) :
  forallb has_str_path files = true ->
  exists filtered, _filter_files path_suffix cfg files = Ok filtered.
Proof.
  induction files as [|f files IH]; simpl; [eauto|].
  intros H. apply andb_prop in H as [Hf Hfs].
  destruct (keep_file_total f Hf) as [b ->].
  destruct (IH Hfs) as [filtered ->]. simpl. eauto.
Qed.

(** What comes out of the filter was kept by the loop body, in the order
    of the input. *)
Lemma filter_files_kept (files filtered : list dict) :
  _filter_files path_suffix cfg files = Ok filtered ->
  Forall (fun f => keep_file path_suffix cfg f = Ok true) filtered
  /\ sublist filtered files.
Proof.
  revert filtered. induction files as [|f files IH]; simpl; intros filtered H.
  - injection H as <-. split; constructor.
  - bind_inv H. bind_inv H. injection H as <-.
    destruct (IH _ Ha0) as [Hall Hsub].
    destruct a.
    + split; [constructor; assumption | now constructor].
    + split; [assumption | now constructor].
Qed.

Lemma filter_files_fixed (files : list dict) :
  Forall (fun f => keep_file path_suffix cfg f = Ok true) files ->
  _filter_files path_suffix cfg files = Ok files.
Proof.
  induction 1 as [|f files Hf _ IH]; simpl; [reflexivity|].
  now rewrite Hf, IH.
Qed.

(** C9. The File Filter is idempotent and keeps the order of its input:
    on a list of files that carry their path, [_filter_files] returns a
    list, that list is a subsequence of the input, and filtering it again
    with the same patterns and languages returns it unchanged. *)
Theorem filter_files_idempotent (files : list dict) :
  forallb has_str_path files = true ->
  exists filtered,
    _filter_files path_suffix cfg files = Ok filtered
    /\ _filter_files path_suffix cfg filtered = Ok filtered
    /\ sublist filtered files.
Proof.
  intros H. destruct (filter_files_total files H) as [filtered Hf].
  exists filtered. destruct (filter_files_kept _ _ Hf) as [Hall Hsub].
  auto using filter_files_fixed.
Qed.

End FilterProperties.

Lemma filter_files_idempotent_witness :
  exists filtered,
    _filter_files suffix_from_last_dot example_filter_config example_files
    = Ok filtered
    /\ _filter_files suffix_from_last_dot example_filter_config filtered
       = Ok filtered
    /\ sublist filtered example_files.
Proof.
  exact (filter_files_idempotent suffix_from_last_dot example_filter_config
           example_files eq_refl).
Defined.

Example filter_files_example :
  _filter_files suffix_from_last_dot example_filter_config example_files
  = Ok [ [("new_path", VStr "src/app.py"); ("deleted_file", VBool false)] ].
Proof. reflexivity. Qed.

(** ** The JUnit document *)

Section JunitProperties.

Variable py_str : value -> string.

Lemma issues_with_dicts (sev : string) (comments : list dict) :
  issues_with sev (map VDict comments)
  = Ok (map VDict (List.filter (has_severity sev) comments)).
Proof.
  induction comments as [|c comments IH]; simpl; [reflexivity|].
  rewrite IH. simpl. unfold has_severity.
  destruct (eq_str (dict_get "severity" VNone c) sev); reflexivity.
Qed.

Lemma issue_lines_dicts (issues : list dict) :
  issue_lines py_str (map VDict issues) = Ok (map (finding_line py_str) issues).
Proof.
  induction issues as [|c issues IH]; simpl; [reflexivity|].
  now rewrite IH.
Qed.

Lemma nonempty_map {A B : Type} (f : A -> B) (l : list A) :
  nonempty (map f l) = nonempty l.
Proof. destruct l; reflexivity. Qed.

Lemma not_skipped (review result : dict) :
  dict_lookup "review_result" review = Some (VDict result) ->
  result <> [] ->
  skipped review = false.
Proof.
  intros Hres Hne. unfold skipped, dict_get. rewrite Hres.
  destruct review; [discriminate|]. destruct result; [contradiction|].
  reflexivity.
Qed.

Lemma append_empty (x : string) : x +:+ EmptyString = x.
Proof.
  induction x as [|c x IH]; [reflexivity|].
  change (String c (x +:+ EmptyString) = String c x). now f_equal.
Qed.

Lemma join_lines (lines : list string) :
  join newline lines = lines_text lines.
Proof.
  destruct lines as [|first rest]; [reflexivity|].
  revert first. induction rest as [|x rest IH]; intros first.
  - unfold lines_text. cbn [join map String.concat].
    now rewrite append_empty.
  - change (join newline (first :: x :: rest))
      with (first +:+ newline +:+ join newline (x :: rest)).
    rewrite IH. unfold lines_text. cbn [map].
    destruct rest; [cbn [map String.concat]; rewrite append_empty|];
      reflexivity.
Qed.

(** C2, as the code has it.  The test case of a reviewed file, that is
    of a review with a non-empty result whose comments are a list of
    findings, is classified three ways.  With a high finding it has one
    failure node and no error node: the message of the node is the fixed
    headline with the path of the file, and its text has one line
    [title: description] per high finding, in their order, one under the
    other.  With a medium finding and no high one it has one error node,
    built the same way from the medium findings.  Otherwise it has no
    node at all and passes. *)
Theorem junit_three_way (review result : dict) (comments : list dict) :
  dict_lookup "review_result" review = Some (VDict result) ->
  result <> [] ->
  dict_get "comments" (VList []) result = VList (map VDict comments) ->
  let file_path := dict_get "file_path" (VStr "unknown") review in
  let highs := List.filter (has_severity "high") comments in
  let mediums := List.filter (has_severity "medium") comments in
  testcase py_str review
  = Ok (Some
          (Element "testcase"
             [ ("classname", VStr "CodeReview");
               ("name", file_path);
               ("time", VStr "0") ]
             None
             (if nonempty highs then
                [ Element "failure"
                    [("message",
                       VStr ("High severity issues found in "
                             +:+ format_value py_str file_path))]
                    (Some (lines_text (map (finding_line py_str) highs))) [] ]
              else if nonempty mediums then
                [ Element "error"
                    [("message",
                       VStr ("Medium severity issues found in "
                             +:+ format_value py_str file_path))]
                    (Some (lines_text (map (finding_line py_str) mediums)))
                    [] ]
              else []))).
Proof.
  intros Hres Hne Hcom file_path highs mediums.
  unfold testcase. rewrite (not_skipped review result Hres Hne).
  unfold dict_item. rewrite Hres. simpl bind. rewrite Hcom. simpl bind.
  rewrite !issues_with_dicts. simpl bind. fold highs mediums file_path.
  rewrite !nonempty_map. unfold issue_node. rewrite !issue_lines_dicts.
  cbn [bind]. rewrite !join_lines.
  destruct (nonempty highs), (nonempty mediums); reflexivity.
Qed.

End JunitProperties.

Lemma junit_three_way_witness :
  testcase example_py_str
    (example_review "app.py"
       [ example_finding "high" "SQL injection" "query built from input";
         example_finding "medium" "Long function" "split it";
         example_finding "high" "Eval" "input is evaluated";
         example_finding "low" "Naming" "use snake case";
         example_finding "high" "Secret" "token in the source" ])
  = Ok (Some
          (Element "testcase"
             [ ("classname", VStr "CodeReview");
               ("name", VStr "app.py");
               ("time", VStr "0") ]
             None
             [ Element "failure"
                 [("message", VStr "High severity issues found in app.py")]
                 (Some ("SQL injection: query built from input"
                        +:+ String "010"
                              ("Eval: input is evaluated"
                               +:+ String "010" "Secret: token in the source")))
                 [] ])).
Proof.
  apply (junit_three_way example_py_str
           (example_review "app.py"
              [ example_finding "high" "SQL injection" "query built from input";
                example_finding "medium" "Long function" "split it";
                example_finding "high" "Eval" "input is evaluated";
                example_finding "low" "Naming" "use snake case";
                example_finding "high" "Secret" "token in the source" ])
           (example_result
              [ example_finding "high" "SQL injection" "query built from input";
                example_finding "medium" "Long function" "split it";
                example_finding "high" "Eval" "input is evaluated";
                example_finding "low" "Naming" "use snake case";
                example_finding "high" "Secret" "token in the source" ])
           [ example_finding "high" "SQL injection" "query built from input";
             example_finding "medium" "Long function" "split it";
             example_finding "high" "Eval" "input is evaluated";
             example_finding "low" "Naming" "use snake case";
             example_finding "high" "Secret" "token in the source" ]).
  - reflexivity.
  - discriminate.
  - reflexivity.
Defined.

(** C2, as stated, fails: the message of the failure node is not built
    from the titles and descriptions of the high findings.  It is the
    headline with the path of the file and holds none of them; they are
    the text of the node. *)
Lemma failure_message_is_the_headline :
  exists failure,
    testcase example_py_str
      (example_review "app.py"
         [example_finding "high" "SQL injection" "query built from input"])
    = Ok (Some
            (Element "testcase"
               [ ("classname", VStr "CodeReview");
                 ("name", VStr "app.py");
                 ("time", VStr "0") ]
               None [failure]))
    /\ tag_of failure = "failure"
    /\ attrib_of failure
       = [("message", VStr "High severity issues found in app.py")]
    /\ contains "SQL injection" "High severity issues found in app.py" = false
    /\ contains "query built from input"
         "High severity issues found in app.py" = false
    /\ text_of failure = Some "SQL injection: query built from input".
Proof. eexists. split; [reflexivity|]. repeat split. Qed.

Example junit_two_mediums :
  testcase example_py_str
    (example_review "app.py"
       [ example_finding "medium" "Long function" "split it";
         example_finding "low" "Naming" "use snake case";
         example_finding "medium" "Dead code" "remove it" ])
  = Ok (Some
          (Element "testcase"
             [ ("classname", VStr "CodeReview");
               ("name", VStr "app.py");
               ("time", VStr "0") ]
             None
             [ Element "error"
                 [("message", VStr "Medium severity issues found in app.py")]
                 (Some ("Long function: split it"
                        +:+ String "010" "Dead code: remove it")) [] ])).
Proof. reflexivity. Qed.

Example junit_medium_only :
  testcase example_py_str
    (example_review "app.py" [example_finding "medium" "Long function" "split it"])
  = Ok (Some
          (Element "testcase"
             [ ("classname", VStr "CodeReview");
               ("name", VStr "app.py");
               ("time", VStr "0") ]
             None
             [ Element "error"
                 [("message", VStr "Medium severity issues found in app.py")]
                 (Some "Long function: split it") [] ])).
Proof. reflexivity. Qed.

Example junit_low_only :
  testcase example_py_str
    (example_review "app.py" [example_finding "low" "Naming" "use snake case"])
  = Ok (Some
          (Element "testcase"
             [ ("classname", VStr "CodeReview");
               ("name", VStr "app.py");
               ("time", VStr "0") ]
             None [])).
Proof. reflexivity. Qed.

(** ** A failed review call *)

Section DispatchProperties.

Variable loads : string -> option value.
Variable float_of_string : string -> option pyfloat.
Variable str_exc : exc -> string.
Variable generate_content :
  value -> string -> option value -> bool -> bool -> model_outcome.
Variable get_file_content : value -> value -> option string.
Variable cfg : config.

Lemma review_code_failed path content diff a b :
  call_failed (generate_content path content diff a b) = true ->
  review_code loads float_of_string str_exc generate_content
    path content diff a b
  = error_result (failure_message str_exc (generate_content path content diff a b)).
Proof.
  unfold review_code, call_failed.
  destruct (generate_content path content diff a b) as [e|text]; simpl.
  - reflexivity.
  - now intros ->.
Qed.

(** C1, on the code: a file whose content was fetched and whose review
    call failed is not skipped.  [_review_file] returns a review that
    carries the error record, the loop of [run] appends it, and
    [_generate_summary] counts it as a reviewed file with the default
    score 5. *)
Theorem failed_review_is_aggregated
    (file_info : dict) (path : value) (content : string) :
  file_path_of file_info = Ok path ->
  get_file_content path (ci_commit_sha cfg) = Some content ->
  content <> EmptyString ->
  call_failed
    (generate_content path content (dict_lookup "diff" file_info)
       (enable_security_scan cfg) (enable_performance_hints cfg)) = true ->
  exists (review : dict) (s : summary),
    review_files loads float_of_string str_exc generate_content
      get_file_content cfg [file_info] = Ok [review]
    /\ (exists msg, dict_lookup "review_result" review
                    = Some (error_result msg))
    /\ _generate_summary [review] = Ok s
    /\ total_files_reviewed s = 1%Z
    /\ total_comments s = 0%Z
    /\ (average_score s == 5)%Q.
Proof.
  intros Hpath Hfetch Hne Hfail.
  eexists. eexists. split.
  - unfold review_files, _review_file. rewrite Hpath. simpl bind.
    rewrite Hfetch.
    destruct (String.eqb content EmptyString) eqn:E;
      [apply String.eqb_eq in E; contradiction|].
    rewrite (review_code_failed _ _ _ _ _ Hfail). reflexivity.
  - split; [eexists; reflexivity|].
    split; [reflexivity|]. repeat split.
Qed.

End DispatchProperties.

Lemma failed_review_is_aggregated_witness :
  exists (review : dict) (s : summary),
    review_files (fun _ => None) (fun _ => None) example_exc_str
      (fun _ _ _ _ _ => ModelRaises (ServiceError "deadline exceeded"))
      (fun _ _ => Some "x = 1") (example_config "medium")
      [[("new_path", VStr "app.py")]] = Ok [review]
    /\ (exists msg, dict_lookup "review_result" review
                    = Some (error_result msg))
    /\ _generate_summary [review] = Ok s
    /\ total_files_reviewed s = 1%Z
    /\ total_comments s = 0%Z
    /\ (average_score s == 5)%Q.
Proof.
  apply (failed_review_is_aggregated (fun _ => None) (fun _ => None)
           example_exc_str
           (fun _ _ _ _ _ => ModelRaises (ServiceError "deadline exceeded"))
           (fun _ _ => Some "x = 1") (example_config "medium")
           [("new_path", VStr "app.py")] (VStr "app.py") "x = 1").
  - reflexivity.
  - reflexivity.
  - discriminate.
  - reflexivity.
Defined.

(** ** Validation of the answer of the model *)

Example first_fenced_ex :
  first_fenced ("Here:" +:+ fence +:+ "json {a: {}} " +:+ fence +:+ " done")
  = Some "{a: {}}".
Proof. reflexivity. Qed.

Example brace_span_ex : brace_span "x {a} y } z" = Some "{a} y }".
Proof. reflexivity. Qed.

Example brace_span_none : brace_span "} {" = None.
Proof. reflexivity. Qed.

Lemma ensure_required_unfold (d : dict) :
  ensure_required d
  = ensure "comments" (VList [])
      (ensure "summary" (VStr EmptyString)
         (ensure "overall_score" (VStr EmptyString) d)).
Proof. reflexivity. Qed.

Lemma lookup_ensure_eq field v d :
  dict_lookup field (ensure field v d) = Some (dict_get field v d).
Proof.
  unfold ensure, dict_get. rewrite dict_mem_lookup.
  destruct (dict_lookup field d) eqn:E.
  - now rewrite E.
  - now rewrite dict_lookup_set_eq.
Qed.

Lemma lookup_ensure_ne field k v d :
  String.eqb k field = false ->
  dict_lookup k (ensure field v d) = dict_lookup k d.
Proof.
  intros Hne. unfold ensure. destruct (dict_mem field d); [reflexivity|].
  now apply dict_lookup_set_ne.
Qed.

Lemma ensure_lists_unfold (d : dict) :
  ensure_lists d
  = ensure_list "recommendations" (ensure_list "positive_aspects" d).
Proof. reflexivity. Qed.

Lemma lookup_ensure_list_ne field k d :
  String.eqb k field = false ->
  dict_lookup k (ensure_list field d) = dict_lookup k d.
Proof.
  intros Hne. unfold ensure_list.
  destruct (negb (dict_mem field d)); [now apply dict_lookup_set_ne|].
  destruct (negb (is_list (dict_get field VNone d)));
    [now apply dict_lookup_set_ne | reflexivity].
Qed.

Lemma clamp_score_bounds (q : Q) :
  Qle_bool 1 (clamp_score q) && Qle_bool (clamp_score q) 10 = true.
Proof.
  unfold clamp_score.
  destruct (Qle_bool 10 q) eqn:E10.
  - reflexivity.
  - destruct (Qle_bool q 1) eqn:E1; [reflexivity|].
    apply andb_true_intro. split; apply Qle_bool_iff.
    + apply Qlt_le_weak, Qnot_le_lt. intros H.
      apply Qle_bool_iff in H. congruence.
    + apply Qlt_le_weak, Qnot_le_lt. intros H.
      apply Qle_bool_iff in H. congruence.
Qed.

Lemma in_strs_coerced (x : value) (names : list string) (default : string) :
  str_in default names = true ->
  in_strs (if in_strs x names then x else VStr default) names = true.
Proof.
  intros Hd. destruct (in_strs x names) eqn:E; [exact E|].
  unfold in_strs, eq_str. exact Hd.
Qed.

Lemma validate_comment_valid (comment : dict) :
  valid_finding (VDict (validate_comment comment)) = true.
Proof.
  unfold valid_finding, validate_comment.
  set (sev := if in_strs _ severities then _ else _).
  set (cat := if in_strs _ valid_categories then _ else _).
  assert (Hs : in_strs sev severities = true)
    by (subst sev; now apply in_strs_coerced).
  assert (Hc : in_strs cat valid_categories = true)
    by (subst cat; now apply in_strs_coerced).
  change (dict_get "severity" VNone _) with sev.
  change (dict_get "category" VNone _) with cat.
  rewrite Hs, Hc. reflexivity.
Qed.

Lemma validated_comments_valid (items : list value) :
  forallb valid_finding (validated_comments items) = true.
Proof.
  induction items as [|[]]; simpl; auto.
  rewrite IHitems, andb_true_r. apply validate_comment_valid.
Qed.

Lemma clamp_score_idem (q : Q) :
  clamp_score (clamp_score q) = clamp_score q.
Proof.
  unfold clamp_score.
  destruct (Qle_bool 10 q) eqn:E10.
  - reflexivity.
  - destruct (Qle_bool q 1) eqn:E1.
    + reflexivity.
    + now rewrite E10, E1.
Qed.

Lemma clamp_float_bounds (f : pyfloat) :
  Qle_bool 1 (clamp_float f) && Qle_bool (clamp_float f) 10 = true.
Proof. destruct f; [apply clamp_score_bounds | reflexivity ..]. Qed.

Lemma clamp_float_idem (f : pyfloat) :
  clamp_score (clamp_float f) = clamp_float f.
Proof. destruct f; [apply clamp_score_idem | reflexivity ..]. Qed.

Section GeminiProperties.

Variable loads : string -> option value.
Variable float_of_string : string -> option pyfloat.
Variable str_exc : exc -> string.
Variable generate_content :
  value -> string -> option value -> bool -> bool -> model_outcome.

(** What [validate_score] leaves when it returns. *)
Lemma validate_score_inv (d d' : dict) :
  validate_score float_of_string d = Ok d' ->
  (forall k, String.eqb k "overall_score" = false ->
             dict_lookup k d' = dict_lookup k d)
  /\ (dict_mem "overall_score" d = true ->
      exists q, dict_lookup "overall_score" d' = Some (VNum q)
                /\ Qle_bool 1 q && Qle_bool q 10 = true
                /\ clamp_score q = q).
Proof.
  unfold validate_score.
  destruct (dict_mem "overall_score" d).
  - destruct (py_float float_of_string _) as [score|e].
    + intros H. injection H as <-. split.
      * intros k Hk. now apply dict_lookup_set_ne.
      * intros _. exists (clamp_float score). rewrite dict_lookup_set_eq.
        split; [reflexivity|].
        split; [apply clamp_float_bounds | apply clamp_float_idem].
    + destruct e; try discriminate; intros H; injection H as <-; split;
        try (intros k Hk; now apply dict_lookup_set_ne);
        intros _; exists 5%Q; rewrite dict_lookup_set_eq; repeat split.
  - intros H. injection H as <-. split; [reflexivity | discriminate].
Qed.




Lemma required_score (d : dict) :
  dict_lookup "overall_score" (ensure_required d)
  = Some (dict_get "overall_score" (VStr EmptyString) d).
Proof.
  rewrite ensure_required_unfold, !lookup_ensure_ne by reflexivity.
  apply lookup_ensure_eq.
Qed.

Lemma required_score_mem (d : dict) :
  dict_mem "overall_score" (ensure_required d) = true.
Proof. now rewrite dict_mem_lookup, required_score. Qed.


(** The comments the validation iterates over are those of the answer. *)
Lemma comments_before_validation (d d1 : dict) :
  validate_score float_of_string (ensure_required d) = Ok d1 ->
  dict_get "comments" (VList []) d1 = dict_get "comments" (VList []) d.
Proof.
  intros H. apply validate_score_inv in H as [Hother _].
  unfold dict_get at 1. rewrite Hother by reflexivity.
  rewrite ensure_required_unfold, lookup_ensure_eq.
  unfold dict_get. rewrite !lookup_ensure_ne by reflexivity. reflexivity.
Qed.

(** The two steps of a validation that returns. *)
Lemma validate_review_result_inv (d : dict) (r : value) :
  _validate_review_result float_of_string (VDict d) = Ok r ->
  exists d1 items,
    validate_score float_of_string (ensure_required d) = Ok d1
    /\ py_iter (dict_get "comments" (VList []) d) = Ok items
    /\ r = VDict (ensure_lists
                    (dict_set "comments" (VList (validated_comments items))
                       d1)).
Proof.
  unfold _validate_review_result.
  destruct (validate_score float_of_string (ensure_required d))
    as [d1|e] eqn:E1; [|discriminate].
  cbn [bind]. rewrite (comments_before_validation _ _ E1).
  destruct (py_iter (dict_get "comments" (VList []) d)) as [items|e];
    [|discriminate].
  cbn [bind]. intros H. injection H as <-. eauto.
Qed.




End GeminiProperties.

Section FallbackChain.

Variable loads : string -> option value.
Variable float_of_string : string -> option pyfloat.
Variable str_exc : exc -> string.
Variable generate_content :
  value -> string -> option value -> bool -> bool -> model_outcome.

Lemma extract_by_candidate (text : string) :
  _extract_json_from_response loads text
  = match extract_candidate text with
    | Some c => match loads c with
                | Some v => v
                | None => fallback_response
                end
    | None => fallback_response
    end.
Proof.
  unfold _extract_json_from_response, extract_candidate.
  destruct (first_fenced text); reflexivity.
Qed.


End FallbackChain.



(** An answer that parses and whose score is the [int] 10^309: [float]
    raises [OverflowError] and the result is an error record. *)
Example huge_score_is_an_error_record :
  let loads := fun _ => Some (VDict [("overall_score",
                                       VNum (inject_Z (10 ^ 309)))]) in
  review_code loads (fun _ => None) example_exc_str
    (fun _ _ _ _ _ => ModelText "{overall_score: 1e309 written out}")
    (VStr "app.py") "x = 1" None true true
  = error_result "OverflowError".
Proof. vm_compute. reflexivity. Qed.

(** What the chain extracts is returned as [json.loads] gives it: the
    validation of the direct path is not applied to it. *)
Example extracted_block_is_returned_unvalidated :
  let r := review_code example_loads (fun _ => None) example_exc_str
             (fun _ _ _ _ _ =>
                ModelText ("Review:" +:+ fence +:+ "json {severity: critical} "
                           +:+ fence))
             (VStr "app.py") "x = 1" None true true in
  r = VDict [("comments", VList [VDict [("severity", VStr "critical")]])]
  /\ valid_shape r = false.
Proof. split; reflexivity. Qed.

(** A fenced block that does not parse ends the chain: the brace span,
    which would parse here, is not tried. *)
Example unparsable_block_ends_the_chain :
  let text := fence +:+ "{b}" +:+ fence +:+ " and {c}" in
  let loads := fun s => if String.eqb s "{b}``` and {c}"
                        then Some (VDict [("overall_score", VNum 7)])
                        else None in
  extract_candidate text = Some "{b}"
  /\ brace_span text = Some "{b}``` and {c}"
  /\ _extract_json_from_response loads text = fallback_response.
Proof. repeat split. Qed.

(** Without a fenced block the outermost brace span is parsed. *)
Example brace_span_is_parsed :
  let loads := fun s => if String.eqb s "{b} and {c}"
                        then Some (VDict [("overall_score", VNum 7)])
                        else None in
  _extract_json_from_response loads "see {b} and {c}."
  = VDict [("overall_score", VNum 7)].
Proof. reflexivity. Qed.

(** ** The aggregate summary *)

Lemma counter_total_incr (k : value) (counts : counters) :
  counter_total (counter_set k (counter_get k counts + 1)%Z counts)
  = (counter_total counts + 1)%Z.
Proof.
  induction counts as [|[k' n] counts IH]; simpl.
  - reflexivity.
  - destruct (key_eqb k k'); simpl; [lia|]. rewrite IH. lia.
Qed.

Lemma count_comment_ok (t : tally) (c : value) :
  countable_finding c = true ->
  exists t', count_comment t c = Ok t'
    /\ t_comments t' = (t_comments t + 1)%Z
    /\ counter_total (t_severity t') = (counter_total (t_severity t) + 1)%Z
    /\ t_score t' = t_score t.
Proof.
  destruct c as [| | | | |d]; try discriminate. simpl.
  intros H. apply andb_prop in H as [Hs Hc].
  unfold count_comment, py_get, counter_incr. simpl bind.
  rewrite Hs. simpl bind. rewrite Hc. simpl bind.
  eexists. split; [reflexivity|]. simpl.
  rewrite counter_total_incr. auto.
Qed.

Lemma count_comments_ok (items : list value) (t : tally) :
  forallb countable_finding items = true ->
  exists t', for_each count_comment items t = Ok t'
    /\ t_comments t' = (t_comments t + Z.of_nat (length items))%Z
    /\ counter_total (t_severity t')
       = (counter_total (t_severity t) + Z.of_nat (length items))%Z
    /\ t_score t' = t_score t.
Proof.
  revert t. induction items as [|c items IH]; intros t H.
  - exists t. simpl. repeat split; lia.
  - simpl in H. apply andb_prop in H as [Hc Hitems].
    destruct (count_comment_ok t c Hc) as (t1 & E1 & A1 & B1 & C1).
    destruct (IH t1 Hitems) as (t2 & E2 & A2 & B2 & C2).
    exists t2. cbn [for_each]. rewrite E1. cbn [bind]. rewrite E2.
    rewrite A2, B2, C2, A1, B1, C1. cbn [length].
    repeat split; lia.
Qed.

(** ** Numbers that stay in the range of the floats *)

Lemma float_range : (2 ^ 127 < 2 ^ 1024 - 2 ^ 970)%Z.
Proof. vm_compute. reflexivity. Qed.

Lemma quotient_not_too_large (z : Z) (p : positive) :
  (Z.abs z < 2 ^ 127)%Z -> too_large (z # p) = false.
Proof.
  intros H. unfold too_large. apply not_true_iff_false. intros E.
  apply Qle_bool_iff in E. pose proof float_range as HK.
  set (K := (2 ^ 1024 - 2 ^ 970)%Z) in *.
  unfold Qle in E. cbn [Qabs Qnum Qden inject_Z] in E. nia.
Qed.

Lemma float_of_int_returns (z : Z) :
  (Z.abs z < 2 ^ 127)%Z -> exists q, float_of_int (inject_Z z) = Ok (Finite q).
Proof.
  intros H. unfold float_of_int.
  change (inject_Z z) with (z # 1) at 1.
  rewrite (quotient_not_too_large z 1 H). eauto.
Qed.

Lemma within_mono (b1 b2 : Z) (x : pynum) :
  (b1 <= b2)%Z -> within b1 x -> within b2 x.
Proof. destruct x; simpl; [lia | auto]. Qed.

Lemma num_add_within (bound : Z) (acc x : pynum) :
  within bound acc -> modest x = true ->
  (0 <= bound)%Z -> (bound + 2 ^ 20 < 2 ^ 127)%Z ->
  exists r, num_add acc x = Ok r
    /\ within (bound + 2 ^ 20) r
    /\ (forall a b, acc = PInt a -> x = PInt b -> r = PInt (a + b)).
Proof.
  intros Hacc Hx H0 Hlt.
  destruct acc as [a|f], x as [b|g]; cbn [num_add within modest] in *.
  - apply Z.ltb_lt in Hx. eexists. split; [reflexivity|]. split.
    + cbn [within]. lia.
    + intros a' b' Ea Eb. injection Ea as <-. injection Eb as <-. reflexivity.
  - destruct (float_of_int_returns a) as [q ->]; [lia|].
    cbn [bind]. eexists. split; [reflexivity|]. split; [exact I|].
    intros a' b' _ Eb. discriminate.
  - apply Z.ltb_lt in Hx.
    destruct (float_of_int_returns b) as [q ->]; [lia|].
    cbn [bind]. eexists. split; [reflexivity|]. split; [exact I|].
    intros a' b' Ea. discriminate.
  - eexists. split; [reflexivity|]. split; [exact I|].
    intros a' b' Ea. discriminate.
Qed.

(** ** The loop of the summary *)

Lemma summary_step_ok (t : tally) (review : dict) (bound : Z) :
  well_formed_review review = true ->
  within bound (t_score t) ->
  (0 <= bound)%Z -> (bound + 2 ^ 20 < 2 ^ 127)%Z ->
  exists t', summary_step t review = Ok t'
    /\ t_comments t'
       = (t_comments t + Z.of_nat (length (findings_of review)))%Z
    /\ counter_total (t_severity t')
       = (counter_total (t_severity t)
          + Z.of_nat (length (findings_of review)))%Z
    /\ within (bound + 2 ^ 20) (t_score t')
    /\ (forall a, t_score t = PInt a -> whole_score review = true ->
                  t_score t' = PInt (a + score_added review)).
Proof.
  unfold well_formed_review, summary_step, findings_of, whole_score,
    score_added, score_number.
  destruct (skipped review) eqn:Hs; cbn [orb].
  - intros _ Hw H0 Hlt. exists t. cbn [length].
    split; [reflexivity|]. split; [lia|]. split; [lia|]. split.
    + eapply within_mono; [|exact Hw]. lia.
    + intros a Ea _. rewrite Ea. f_equal. lia.
  - unfold skipped in Hs. apply orb_false_elim in Hs as [_ Hs].
    apply negb_false_iff in Hs.
    assert (Hg : dict_get "review_result" VNone review
                 = match dict_lookup "review_result" review with
                   | Some v => v
                   | None => VNone
                   end) by reflexivity.
    rewrite Hg in Hs. rewrite !Hg. unfold dict_item. clear Hg.
    destruct (dict_lookup "review_result" review) as [v|]; [|discriminate].
    destruct v as [| | | | |result]; try discriminate.
    cbn [bind py_get].
    destruct (dict_get "comments" (VList []) result) as [| | | |l|];
      try discriminate.
    cbn [py_iter bind].
    destruct (py_number (dict_get "overall_score" (VNum 5) result))
      as [x|] eqn:Hx; [|intros H; apply andb_prop in H as [_ H]; discriminate].
    intros H Hw H0 Hlt. apply andb_prop in H as [Hl Hm].
    destruct (count_comments_ok l t Hl) as (t1 & E1 & A1 & B1 & C1).
    rewrite E1. cbn [bind]. rewrite C1.
    destruct (num_add_within bound (t_score t) x Hw Hm H0 Hlt)
      as (r & Er & Wr & Hint).
    rewrite Er. cbn [bind]. eexists. split; [reflexivity|].
    cbn [t_comments t_severity t_score].
    split; [exact A1|]. split; [exact B1|]. split; [exact Wr|].
    intros a Ea Hwhole. destruct x as [z|f]; [|discriminate].
    now apply Hint.
Qed.

Lemma summary_loop_ok (reviews : list dict) (t : tally) (bound : Z) :
  forallb well_formed_review reviews = true ->
  within bound (t_score t) ->
  (0 <= bound)%Z ->
  (bound + Z.of_nat (length reviews) * 2 ^ 20 < 2 ^ 127)%Z ->
  exists t', for_each summary_step reviews t = Ok t'
    /\ t_comments t' = (t_comments t + total_findings reviews)%Z
    /\ counter_total (t_severity t')
       = (counter_total (t_severity t) + total_findings reviews)%Z
    /\ within (bound + Z.of_nat (length reviews) * 2 ^ 20) (t_score t')
    /\ (forall a, t_score t = PInt a ->
                  forallb whole_score reviews = true ->
                  t_score t' = PInt (a + total_score reviews)).
Proof.
  revert t bound. induction reviews as [|r reviews IH]; intros t bound H Hw H0 Hlt.
  - exists t. cbn [for_each total_findings total_score fold_right length].
    split; [reflexivity|]. split; [lia|]. split; [lia|]. split.
    + eapply within_mono; [|exact Hw]. lia.
    + intros a -> _. f_equal. lia.
  - cbn [forallb] in H. apply andb_prop in H as [Hr Hrs].
    cbn [length] in Hlt |- *. rewrite Nat2Z.inj_succ in Hlt |- *.
    destruct (summary_step_ok t r bound Hr Hw H0) as (t1 & E1 & A1 & B1 & W1 & C1);
      [lia|].
    destruct (IH t1 (bound + 2 ^ 20)%Z Hrs W1) as (t2 & E2 & A2 & B2 & W2 & C2);
      [lia | lia |].
    exists t2. cbn [for_each]. rewrite E1. cbn [bind]. rewrite E2.
    split; [reflexivity|]. cbn [total_findings total_score fold_right].
    fold (total_findings reviews). fold (total_score reviews).
    split; [lia|]. split; [lia|]. split.
    + eapply within_mono; [|exact W2]. lia.
    + intros a Ea Hwhole. cbn [forallb] in Hwhole.
      apply andb_prop in Hwhole as [Hwr Hwrs].
      rewrite (C2 _ (C1 _ Ea Hwr) Hwrs). f_equal. lia.
Qed.

Lemma average_returns (n : Z) (total : pynum) :
  within (n * 2 ^ 20) total -> (n < 2 ^ 32)%Z ->
  exists x,
    (if (0 <? n)%Z
     then do f <- num_div total n; Ok (PFloat f)
     else Ok total) = Ok x.
Proof.
  intros Hw Hn. destruct (Z.ltb_spec 0 n) as [Hpos|_]; [|eauto].
  unfold num_div. destruct total as [a|f].
  - rewrite quotient_not_too_large; [cbn [bind]; eauto|].
    cbn [within] in Hw. lia.
  - destruct (float_of_int_returns n) as [q ->]; [lia|]. cbn [bind]. eauto.
Qed.

(** [_generate_summary] returns on reviews it accepts. *)
Lemma summary_returns (reviews : list dict) :
  forallb well_formed_review reviews = true ->
  (Z.of_nat (length reviews) < 2 ^ 32)%Z ->
  exists s, _generate_summary reviews = Ok s.
Proof.
  intros Hwf Hlen.
  destruct (summary_loop_ok reviews tally0 0 Hwf) as (t & Et & _ & _ & Wt & _);
    [cbn; lia | lia | lia |].
  destruct (average_returns _ _ Wt Hlen) as [x Hx].
  unfold _generate_summary. rewrite Et. cbn [bind]. rewrite Hx. cbn [bind].
  eauto.
Qed.




(** The quotient is a float before it is rounded: for 37 scores of 1
    and 3 of 2 it is the float below 1.075, and the average is the float
    nearest to 1.07, where the exact mean 1.075 would round to 1.08. *)
Example average_rounds_the_float :
  exists s,
    _generate_summary
      (repeat (scored_review "a.py" 1 []) 37
       ++ repeat (scored_review "b.py" 2 []) 3)%list = Ok s
    /\ average s = PFloat (Finite (to_double (107 # 100)))
    /\ (round_half_even ((43 # 40) * 100) # 100 == 108 # 100)%Q.
Proof.
  eexists. split; [vm_compute; reflexivity|]. split; reflexivity.
Qed.

Example average_of_no_review :
  exists s, _generate_summary [] = Ok s /\ average s = PInt 0.
Proof. eexists. split; reflexivity. Qed.

(** ** The webhook and the table of active reviews *)

Section WebProperties.

Variable py_str : value -> string.
Variable str_exc : exc -> string.
Variable webhook_secret : string.

(** What the webhook does with a trigger: it looks the key up. *)
Lemma webhook_try_trigger (token : string) (data : dict)
    (project_id mr_iid : value) (table : gmap string review_record) :
  is_trigger webhook_secret token data project_id mr_iid ->
  exists resp,
    webhook_try py_str webhook_secret token (VDict data) table
    = Ok (match table !! make_review_key py_str project_id mr_iid with
          | Some _ =>
              (in_progress (make_review_key py_str project_id mr_iid), None)
          | None =>
              (resp,
               Some (Job (make_review_key py_str project_id mr_iid)
                       mr_iid project_id))
          end).
Proof.
  intros (Htok & Hkind & (attrs & Hattrs & Hiid & Hact)
          & (project & Hproj & Hid) & Tm & Tp).
  assert (Hne : data <> []) by (intros ->; discriminate).
  assert (Hgate : negb (String.eqb webhook_secret EmptyString)
                  && negb (String.eqb token webhook_secret) = false).
  { destruct Htok as [-> | ->].
    - reflexivity.
    - rewrite String.eqb_refl. apply andb_false_r. }
  assert (Htruthy : truthy (VDict data) = true)
    by (destruct data; [exfalso; now apply Hne | reflexivity]).
  assert (G1 : dict_get "object_kind" (VStr EmptyString) data
               = VStr "merge_request") by (unfold dict_get; now rewrite Hkind).
  assert (G2 : dict_get "object_attributes" (VDict []) data = VDict attrs)
    by (unfold dict_get; now rewrite Hattrs).
  assert (G3 : dict_get "iid" VNone attrs = mr_iid)
    by (unfold dict_get; now rewrite Hiid).
  assert (G4 : dict_get "project" (VDict []) data = VDict project)
    by (unfold dict_get; now rewrite Hproj).
  assert (G5 : dict_get "id" VNone project = project_id)
    by (unfold dict_get; now rewrite Hid).
  unfold webhook_try. rewrite Hgate, Htruthy. cbn [negb py_get bind].
  rewrite G1. cbn [eq_str]. rewrite String.eqb_refl. cbn [negb].
  rewrite G2. cbn [py_get bind]. rewrite G3, G4. cbn [py_get bind].
  rewrite G5, Tm, Tp, Hact. cbn [negb orb].
  eexists. destruct (table !! _); reflexivity.
Qed.

Lemma webhook_on_trigger (token : string) (data : dict)
    (project_id mr_iid : value) (table : gmap string review_record) :
  is_trigger webhook_secret token data project_id mr_iid ->
  match table !! make_review_key py_str project_id mr_iid with
  | Some _ =>
      gitlab_webhook py_str str_exc webhook_secret token (VDict data) table
      = (in_progress (make_review_key py_str project_id mr_iid), None)
  | None =>
      exists resp,
        gitlab_webhook py_str str_exc webhook_secret token (VDict data) table
        = (resp,
           Some (Job (make_review_key py_str project_id mr_iid)
                   mr_iid project_id))
  end.
Proof.
  intros Htrig.
  destruct (webhook_try_trigger token data project_id mr_iid table Htrig)
    as [resp H].
  unfold gitlab_webhook. rewrite H.
  destruct (table !! _); [reflexivity | eauto].
Qed.

Lemma record_blocks_trigger (token : string) (data : dict)
    (project_id mr_iid : value) (table : gmap string review_record)
    (r : review_record) :
  is_trigger webhook_secret token data project_id mr_iid ->
  table !! make_review_key py_str project_id mr_iid = Some r ->
  gitlab_webhook py_str str_exc webhook_secret token (VDict data) table
  = (in_progress (make_review_key py_str project_id mr_iid), None).
Proof.
  intros Htrig Hrec.
  pose proof (webhook_on_trigger token data project_id mr_iid table Htrig) as H.
  cbv zeta in H. now rewrite Hrec in H.
Qed.

Lemma accepted_job_key (token : string) (data : dict)
    (project_id mr_iid : value) (table : gmap string review_record)
    (resp : response) (j : job) :
  is_trigger webhook_secret token data project_id mr_iid ->
  gitlab_webhook py_str str_exc webhook_secret token (VDict data) table
  = (resp, Some j) ->
  table !! make_review_key py_str project_id mr_iid = None
  /\ j = Job (make_review_key py_str project_id mr_iid) mr_iid project_id.
Proof.
  intros Htrig Hweb.
  pose proof (webhook_on_trigger token data project_id mr_iid table Htrig) as H.
  cbv zeta in H.
  destruct (table !! make_review_key py_str project_id mr_iid).
  - rewrite H in Hweb. discriminate.
  - destruct H as [resp' H]. rewrite H in Hweb. injection Hweb as _ <-. auto.
Qed.

(** C6. Of two submissions for the same project and merge request, the
    second, arriving while the record of the first is in state running,
    is answered "Review already in progress" and starts no review. *)
Theorem duplicate_while_running
    (token1 token2 : string) (data1 data2 : dict) (project_id mr_iid : value)
    (table1 table2 : gmap string review_record)
    (resp1 : response) (j : job) (r : review_record) :
  is_trigger webhook_secret token1 data1 project_id mr_iid ->
  is_trigger webhook_secret token2 data2 project_id mr_iid ->
  gitlab_webhook py_str str_exc webhook_secret token1 (VDict data1) table1
  = (resp1, Some j) ->
  table2 !! review_key j = Some r ->
  status r = "running" ->
  gitlab_webhook py_str str_exc webhook_secret token2 (VDict data2) table2
  = (in_progress (review_key j), None).
Proof.
  intros H1 H2 Hfirst Hrec _.
  destruct (accepted_job_key _ _ _ _ _ _ _ H1 Hfirst) as [_ ->].
  cbn [review_key] in *. now apply (record_blocks_trigger _ _ _ _ _ r).
Qed.

(** C4, on the code: a trigger for a unit whose record is completed or
    failed and not yet evicted is not taken as a fresh submission.  The
    webhook answers "Review already in progress", starts no review and
    leaves the old record in the table. *)
Theorem terminal_record_blocks_resubmission
    (token : string) (data : dict) (project_id mr_iid : value)
    (table : gmap string review_record) (r : review_record) :
  is_trigger webhook_secret token data project_id mr_iid ->
  table !! make_review_key py_str project_id mr_iid = Some r ->
  terminal r ->
  gitlab_webhook py_str str_exc webhook_secret token (VDict data) table
  = (in_progress (make_review_key py_str project_id mr_iid), None)
  /\ review_status (make_review_key py_str project_id mr_iid) table = Some r.
Proof.
  intros Htrig Hrec _. split.
  - now apply (record_blocks_trigger _ _ _ _ _ r).
  - exact Hrec.
Qed.

Lemma step_idents_bounded (s s' : server) :
  step py_str str_exc webhook_secret s s' ->
  idents_bounded s -> idents_bounded s'.
Proof.
  intros Hstep Hb k r'. unfold idents_bounded in Hb.
  destruct Hstep; cbn [active_reviews next_ident]; intros Hk; eauto.
  - destruct (decide (review_key j = k)) as [<-|Hne].
    + rewrite lookup_insert_eq in Hk. injection Hk as <-. simpl. lia.
    + rewrite lookup_insert_ne in Hk by done. apply Hb in Hk. lia.
  - destruct (decide (review_key j = k)) as [<-|Hne].
    + rewrite lookup_insert_eq in Hk. injection Hk as <-. simpl. eauto.
    + rewrite lookup_insert_ne in Hk by done. eauto.
  - destruct (decide (review_key j = k)) as [<-|Hne].
    + rewrite lookup_insert_eq in Hk. injection Hk as <-. simpl. eauto.
    + rewrite lookup_insert_ne in Hk by done. eauto.
  - unfold mark_failed in Hk.
    destruct (active_reviews s !! review_key j) as [r0|] eqn:E; [|eauto].
    destruct (decide (review_key j = k)) as [<-|Hne].
    + rewrite lookup_insert_eq in Hk. injection Hk as <-. simpl. eauto.
    + rewrite lookup_insert_ne in Hk by done. eauto.
  - destruct (decide (review_key j = k)) as [<-|Hne].
    + rewrite lookup_delete_eq in Hk. discriminate.
    + rewrite lookup_delete_ne in Hk by done. eauto.
Qed.

Lemma reachable_idents_bounded (n : nat) (s : server) :
  reachable py_str str_exc webhook_secret n s -> idents_bounded s.
Proof.
  induction 1 as [|s s' _ IH Hstep].
  - intros k r. simpl. rewrite lookup_empty. discriminate.
  - eapply step_idents_bounded; eauto.
Qed.

(** A record that reached a terminal state is never running again: a
    step leaves it terminal, removes it or puts a new record in its
    place. *)
Lemma terminal_record_stays_terminal (n : nat) (s s' : server)
    (k : string) (r r' : review_record) :
  reachable py_str str_exc webhook_secret n s ->
  step py_str str_exc webhook_secret s s' ->
  active_reviews s !! k = Some r ->
  terminal r ->
  active_reviews s' !! k = Some r' ->
  ident r' = ident r ->
  terminal r'.
Proof.
  intros Hreach Hstep Hk Hterm Hk' Hid.
  pose proof (reachable_idents_bounded n s Hreach k r Hk) as Hb.
  destruct Hstep; cbn [active_reviews] in Hk';
    try (rewrite Hk in Hk'; injection Hk' as <-; exact Hterm).
  - destruct (decide (review_key j = k)) as [<-|Hne].
    + rewrite lookup_insert_eq in Hk'. injection Hk' as <-.
      simpl in Hid. lia.
    + rewrite lookup_insert_ne in Hk' by done.
      rewrite Hk in Hk'. injection Hk' as <-. exact Hterm.
  - destruct (decide (review_key j = k)) as [<-|Hne].
    + rewrite lookup_insert_eq in Hk'. injection Hk' as <-.
      left. reflexivity.
    + rewrite lookup_insert_ne in Hk' by done.
      rewrite Hk in Hk'. injection Hk' as <-. exact Hterm.
  - destruct (decide (review_key j = k)) as [<-|Hne].
    + rewrite lookup_insert_eq in Hk'. injection Hk' as <-.
      assert (r0 = r) by congruence. subst r0. exact Hterm.
    + rewrite lookup_insert_ne in Hk' by done.
      rewrite Hk in Hk'. injection Hk' as <-. exact Hterm.
  - unfold mark_failed in Hk'.
    destruct (active_reviews s !! review_key j) as [r0|] eqn:E.
    + destruct (decide (review_key j = k)) as [<-|Hne].
      * rewrite lookup_insert_eq in Hk'. injection Hk' as <-.
        right. reflexivity.
      * rewrite lookup_insert_ne in Hk' by done.
        rewrite Hk in Hk'. injection Hk' as <-. exact Hterm.
    + rewrite Hk in Hk'. injection Hk' as <-. exact Hterm.
  - destruct (decide (review_key j = k)) as [<-|Hne].
    + rewrite lookup_delete_eq in Hk'. discriminate.
    + rewrite lookup_delete_ne in Hk' by done.
      rewrite Hk in Hk'. injection Hk' as <-. exact Hterm.
Qed.

End WebProperties.

Lemma example_is_trigger (action : string) :
  in_strs (VStr action) actions = true ->
  is_trigger EmptyString EmptyString (example_trigger 42 7 action)
    (VNum 42) (VNum 7).
Proof.
  intros H. unfold is_trigger. split; [now left|]. split; [reflexivity|].
  split; [eexists; repeat split; exact H|].
  split; [eexists; repeat split|]. split; reflexivity.
Defined.

Lemma duplicate_while_running_witness :
  gitlab_webhook example_py_str example_exc_str EmptyString EmptyString
    (VDict (example_trigger 42 7 "update"))
    (<["42:7" := example_record "running"]> ∅)
  = (in_progress "42:7", None).
Proof.
  apply (duplicate_while_running example_py_str example_exc_str EmptyString
           EmptyString EmptyString
           (example_trigger 42 7 "open") (example_trigger 42 7 "update")
           (VNum 42) (VNum 7) ∅ (<["42:7" := example_record "running"]> ∅)
           (Response 202
              [ ("message", VStr "AI code review started");
                ("review_id", VStr "42:7");
                ("mr_iid", VNum 7);
                ("project_id", VNum 42);
                ("action", VStr "open") ])
           (Job "42:7" (VNum 7) (VNum 42))
           (example_record "running")).
  - apply example_is_trigger. reflexivity.
  - apply example_is_trigger. reflexivity.
  - reflexivity.
  - apply lookup_insert_eq.
  - reflexivity.
Defined.

Lemma terminal_record_blocks_resubmission_witness :
  gitlab_webhook example_py_str example_exc_str EmptyString EmptyString
    (VDict (example_trigger 42 7 "update"))
    (<["42:7" := example_record "completed"]> ∅)
  = (in_progress "42:7", None)
  /\ review_status "42:7" (<["42:7" := example_record "completed"]> ∅)
     = Some (example_record "completed").
Proof.
  apply (terminal_record_blocks_resubmission example_py_str example_exc_str
           EmptyString EmptyString (example_trigger 42 7 "update")
           (VNum 42) (VNum 7) (<["42:7" := example_record "completed"]> ∅)
           (example_record "completed")).
  - apply example_is_trigger. reflexivity.
  - apply lookup_insert_eq.
  - left. reflexivity.
Defined.

(** A run of the server: a trigger is accepted, its thread takes a slot,
    writes the record, the reviewer returns and the record is marked
    completed; the next step stamps the time of completion. *)
Lemma example_run_reachable :
  reachable example_py_str example_exc_str EmptyString 3
    (example_server
       (<["42:7" := set_status "completed"
                      (new_record 0 "2025-01-01T10:00:00" example_job)]>
          (<["42:7" := new_record 0 "2025-01-01T10:00:00" example_job]> ∅))
       2 1 Stamping).
Proof.
  apply (reach_step _ _ _ _
           (example_server
              (<["42:7" := new_record 0 "2025-01-01T10:00:00" example_job]> ∅)
              2 1 Reviewing)).
  - apply (reach_step _ _ _ _ (example_server ∅ 2 0 Holding)).
    + apply (reach_step _ _ _ _ (example_server ∅ 3 0 Waiting)).
      * apply (reach_step _ _ _ _ (initial 3)).
        -- apply reach_initial.
        -- exact (step_request example_py_str example_exc_str EmptyString
                    EmptyString (VDict (example_trigger 42 7 "open"))
                    (initial 3) _ (Some example_job) eq_refl).
      * exact (step_acquire example_py_str example_exc_str EmptyString
                 0 example_job (example_server ∅ 3 0 Waiting) 2
                 eq_refl eq_refl).
    + exact (step_create example_py_str example_exc_str EmptyString
               0 example_job (example_server ∅ 2 0 Holding)
               "2025-01-01T10:00:00" eq_refl).
  - exact (step_returned example_py_str example_exc_str EmptyString
             0 example_job
             (example_server
                (<["42:7" := new_record 0 "2025-01-01T10:00:00" example_job]> ∅)
                2 1 Reviewing)
             (new_record 0 "2025-01-01T10:00:00" example_job)
             eq_refl (lookup_insert_eq _ _ _)).
Defined.

Lemma terminal_record_stays_terminal_witness :
  terminal
    (set_completed_at "2025-01-01T10:02:00"
       (set_status "completed"
          (new_record 0 "2025-01-01T10:00:00" example_job))).
Proof.
  pose (r := set_status "completed"
               (new_record 0 "2025-01-01T10:00:00" example_job)).
  pose (s := example_server
               (<["42:7" := r]>
                  (<["42:7" := new_record 0 "2025-01-01T10:00:00"
                                 example_job]> ∅))
               2 1 Stamping).
  apply (terminal_record_stays_terminal example_py_str example_exc_str
           EmptyString 3 s _ "42:7" r
           (set_completed_at "2025-01-01T10:02:00" r)
           example_run_reachable
           (step_stamp example_py_str example_exc_str EmptyString
              0 example_job s r "2025-01-01T10:02:00" eq_refl
              (lookup_insert_eq _ _ _))).
  - apply lookup_insert_eq.
  - left. reflexivity.
  - apply lookup_insert_eq.
  - reflexivity.
Defined.

(* ================================================================== *)
(** * Part X. Further properties of the code                            *)
(* ================================================================== *)

(** ** The web server *)

Lemma slots_held_update (ts : list (job * phase)) (i : nat)
    (j j' : job) (p p' : phase) :
  ts !! i = Some (j, p) ->
  (slots_held (<[i := (j', p')]> ts) + (if holds_slot p then 1 else 0)
   = slots_held ts + (if holds_slot p' then 1 else 0))%nat.
Proof.
  revert i. induction ts as [|[j0 p0] ts IH]; intros [|i] H;
    try discriminate; simpl in *.
  - injection H as -> ->. lia.
  - specialize (IH i H). lia.
Qed.

Lemma slots_held_app (ts1 ts2 : list (job * phase)) :
  slots_held (ts1 ++ ts2)%list = (slots_held ts1 + slots_held ts2)%nat.
Proof.
  induction ts1 as [|[j p] ts1 IH]; simpl; [reflexivity|]. rewrite IH. lia.
Qed.

Section ServerInvariants.

Variable py_str : value -> string.
Variable str_exc : exc -> string.
Variable webhook_secret : string.

Lemma step_slots (n : nat) (s s' : server) :
  step py_str str_exc webhook_secret s s' ->
  (review_semaphore s + slots_held (threads s) = n)%nat ->
  (review_semaphore s' + slots_held (threads s') = n)%nat.
Proof.
  intros Hstep Hinv.
  destruct Hstep as
    [ token data s resp started Hweb
    | i j s m Hi Hsem
    | i j s now Hi
    | i j s r Hi Hr
    | i j s r now Hi Hr
    | i j s p Hi Hp Hr
    | i j s e Hi
    | i j s Hi
    | i j s e now Hi
    | i j s Hi ];
    cbn [review_semaphore threads].
  - destruct started; [|exact Hinv]. rewrite slots_held_app. simpl. lia.
  - pose proof (slots_held_update _ _ _ j Waiting Holding Hi). simpl in *. lia.
  - pose proof (slots_held_update _ _ _ j Holding Reviewing Hi). simpl in *. lia.
  - pose proof (slots_held_update _ _ _ j Reviewing Stamping Hi). simpl in *. lia.
  - pose proof (slots_held_update _ _ _ j Stamping Sleeping Hi). simpl in *. lia.
  - pose proof (slots_held_update _ _ _ j p (Failing KeyError) Hi) as H.
    destruct Hp as [-> | ->]; simpl in *; lia.
  - pose proof (slots_held_update _ _ _ j Reviewing (Failing e) Hi). simpl in *. lia.
  - pose proof (slots_held_update _ _ _ j Reviewing Sleeping Hi). simpl in *. lia.
  - pose proof (slots_held_update _ _ _ j (Failing e) Sleeping Hi). simpl in *. lia.
  - pose proof (slots_held_update _ _ _ j Sleeping Gone Hi). simpl in *. lia.
Qed.

(** X2. The slots of the semaphore are conserved: in every state the
    server can reach, the free slots and the threads inside the
    [with review_semaphore] block add up to the capacity, so at most
    [max_concurrent_reviews] reviews run at once and no slot is lost,
    however a review ends. *)
Theorem slots_conserved (n : nat) (s : server) :
  reachable py_str str_exc webhook_secret n s ->
  (review_semaphore s + slots_held (threads s) = n)%nat
  /\ (slots_held (threads s) <= n)%nat.
Proof.
  intros Hreach.
  assert (H : (review_semaphore s + slots_held (threads s) = n)%nat).
  { induction Hreach as [|s s' _ IH Hstep]; [simpl; lia|].
    eapply step_slots; eauto. }
  split; [exact H | lia].
Qed.

End ServerInvariants.

Lemma slots_conserved_witness :
  (review_semaphore
     (example_server
        (<["42:7" := set_status "completed"
                       (new_record 0 "2025-01-01T10:00:00" example_job)]>
           (<["42:7" := new_record 0 "2025-01-01T10:00:00" example_job]> ∅))
        2 1 Stamping)
   + slots_held [(example_job, Stamping)] = 3)%nat
  /\ (slots_held [(example_job, Stamping)] <= 3)%nat.
Proof.
  exact (slots_conserved example_py_str example_exc_str EmptyString 3 _
           example_run_reachable).
Defined.

Section WebhookAcceptance.

Variable py_str : value -> string.
Variable str_exc : exc -> string.
Variable webhook_secret : string.

Lemma truthy_get_lookup (k : string) (d : dict) :
  truthy (dict_get k VNone d) = true ->
  dict_lookup k d = Some (dict_get k VNone d).
Proof.
  unfold dict_get. destruct (dict_lookup k d); [reflexivity | discriminate].
Qed.

Lemma py_get_Ok (k : string) (default x v : value) :
  py_get k default x = Ok v ->
  exists d, x = VDict d /\ v = dict_get k default d.
Proof.
  destruct x; try discriminate. simpl. intros H. injection H as <-. eauto.
Qed.

(** X3. The webhook starts a review only for a well-formed trigger: when
    [gitlab_webhook] starts a background review, the token was accepted,
    the body is a merge request event with a project id, a merge request
    number and one of the actions open, update and reopen, no record of
    the unit is in [active_reviews], and the answer is 202. *)
Theorem webhook_starts_only_triggers
    (token : string) (webhook_data : value)
    (table : gmap string review_record) (resp : response) (j : job) :
  gitlab_webhook py_str str_exc webhook_secret token webhook_data table
  = (resp, Some j) ->
  exists data,
    webhook_data = VDict data
    /\ is_trigger webhook_secret token data (job_project_id j) (job_mr_iid j)
    /\ review_key j = make_review_key py_str (job_project_id j) (job_mr_iid j)
    /\ table !! review_key j = None
    /\ status_code resp = 202.
Proof.
  unfold gitlab_webhook, webhook_try.
  destruct (negb (String.eqb webhook_secret EmptyString)
            && negb (String.eqb token webhook_secret)) eqn:Hgate;
    [discriminate|].
  destruct (truthy webhook_data) eqn:Htruthy; cbn [negb]; [|discriminate].
  destruct webhook_data as [| | | | |data]; try discriminate.
  cbn [py_get bind].
  destruct (eq_str (dict_get "object_kind" (VStr EmptyString) data)
              "merge_request") eqn:Hkind; cbn [negb]; [|discriminate].
  destruct (dict_get "object_attributes" (VDict []) data)
    as [| | | | |attrs] eqn:Hattrs; try discriminate.
  cbn [py_get bind].
  destruct (dict_get "project" (VDict []) data)
    as [| | | | |project] eqn:Hproj; try discriminate.
  cbn [py_get bind].
  destruct (truthy (dict_get "iid" VNone attrs)) eqn:Tm; cbn [negb orb];
    [|discriminate].
  destruct (truthy (dict_get "id" VNone project)) eqn:Tp; cbn [negb];
    [|discriminate].
  destruct (in_strs (dict_get "action" (VStr EmptyString) attrs) actions)
    eqn:Hact; cbn [negb]; [|discriminate].
  destruct (table !! make_review_key py_str (dict_get "id" VNone project)
                       (dict_get "iid" VNone attrs)) eqn:Hrec;
    [discriminate|].
  intros H. injection H as <- <-. exists data.
  cbn [job_project_id job_mr_iid review_key status_code].
  split; [reflexivity|]. split; [|auto].
  unfold is_trigger. split; [|split; [|split; [|split; [|split]]]]; auto.
  - apply andb_false_iff in Hgate as [H|H]; apply negb_false_iff in H.
    + left. now apply String.eqb_eq.
    + right. now apply String.eqb_eq.
  - unfold dict_get in Hkind.
    destruct (dict_lookup "object_kind" data) as [[| | |s| |]|];
      try discriminate.
    simpl in Hkind. apply String.eqb_eq in Hkind. now subst.
  - exists attrs. split; [|split; auto using truthy_get_lookup].
    unfold dict_get in Hattrs.
    destruct (dict_lookup "object_attributes" data) as [v|].
    + now subst.
    + injection Hattrs as <-. discriminate.
  - exists project. split; [|auto using truthy_get_lookup].
    unfold dict_get in Hproj.
    destruct (dict_lookup "project" data) as [v|].
    + now subst.
    + injection Hproj as <-. discriminate.
Qed.

(** X4. Eviction frees the unit: once the clean-up of a review has run,
    the status of the unit is "not found", and the next trigger for the
    unit is accepted and starts a review. *)
Theorem evicted_unit_is_accepted_again
    (i : nat) (j : job) (s : server)
    (token : string) (data : dict) (project_id mr_iid : value) :
  threads s !! i = Some (j, Sleeping) ->
  is_trigger webhook_secret token data project_id mr_iid ->
  review_key j = make_review_key py_str project_id mr_iid ->
  exists s',
    step py_str str_exc webhook_secret s s'
    /\ threads s' !! i = Some (j, Gone)
    /\ review_status (review_key j) (active_reviews s') = None
    /\ exists resp,
         gitlab_webhook py_str str_exc webhook_secret token (VDict data)
           (active_reviews s')
         = (resp, Some (Job (review_key j) mr_iid project_id)).
Proof.
  intros Hi Htrig Hkey.
  eexists. split; [exact (step_cleanup _ _ _ i j s Hi)|].
  cbn [threads active_reviews]. split.
  - apply list_lookup_insert_eq. eapply lookup_lt_Some; eauto.
  - split; [apply lookup_delete_eq|].
    pose proof (webhook_on_trigger py_str str_exc webhook_secret token data
                  project_id mr_iid
                  (delete (review_key j) (active_reviews s)) Htrig) as H.
    rewrite <- Hkey in H. rewrite lookup_delete_eq in H. exact H.
Qed.

(** X5. The check against [active_reviews] is no lock: the record is
    written by the background thread, so two triggers for one unit that
    arrive before the first thread has written it are both accepted, and
    with two free slots both reviews of the unit run at the same time. *)
Theorem same_unit_can_run_twice
    (n : nat) (token : string) (data : dict) (project_id mr_iid : value) :
  (2 <= n)%nat ->
  is_trigger webhook_secret token data project_id mr_iid ->
  exists s,
    reachable py_str str_exc webhook_secret n s
    /\ threads s
       = [ (Job (make_review_key py_str project_id mr_iid) mr_iid project_id,
            Reviewing);
           (Job (make_review_key py_str project_id mr_iid) mr_iid project_id,
            Reviewing) ].
Proof.
  intros Hn Htrig.
  destruct n as [|[|n]]; try lia.
  set (j := Job (make_review_key py_str project_id mr_iid) mr_iid project_id).
  pose proof (webhook_on_trigger py_str str_exc webhook_secret token data
                project_id mr_iid ∅ Htrig) as Hweb.
  rewrite lookup_empty in Hweb. destruct Hweb as [resp Hweb]. fold j in Hweb.
  set (now := EmptyString).
  set (s1 := {| active_reviews := ∅; review_semaphore := S (S n);
                next_ident := 0; threads := [(j, Waiting)] |}).
  set (s2 := {| active_reviews := ∅; review_semaphore := S (S n);
                next_ident := 0; threads := [(j, Waiting); (j, Waiting)] |}).
  set (s3 := {| active_reviews := ∅; review_semaphore := S n;
                next_ident := 0; threads := [(j, Holding); (j, Waiting)] |}).
  set (s4 := {| active_reviews := ∅; review_semaphore := n;
                next_ident := 0; threads := [(j, Holding); (j, Holding)] |}).
  set (s5 := {| active_reviews := <[review_key j := new_record 0 now j]> ∅;
                review_semaphore := n;
                next_ident := 1;
                threads := [(j, Reviewing); (j, Holding)] |}).
  set (s6 := {| active_reviews :=
                  <[review_key j := new_record 1 now j]>
                    (<[review_key j := new_record 0 now j]> ∅);
                review_semaphore := n;
                next_ident := 2;
                threads := [(j, Reviewing); (j, Reviewing)] |}).
  assert (R1 : reachable py_str str_exc webhook_secret (S (S n)) s1).
  { apply (reach_step _ _ _ _ (initial (S (S n)))); [apply reach_initial|].
    exact (step_request _ _ _ token (VDict data) (initial (S (S n)))
             resp (Some j) Hweb). }
  assert (R2 : reachable py_str str_exc webhook_secret (S (S n)) s2).
  { apply (reach_step _ _ _ _ s1 s2 R1).
    exact (step_request _ _ _ token (VDict data) s1 resp (Some j) Hweb). }
  assert (R3 : reachable py_str str_exc webhook_secret (S (S n)) s3).
  { apply (reach_step _ _ _ _ s2 s3 R2).
    exact (step_acquire _ _ _ 0 j s2 (S n) eq_refl eq_refl). }
  assert (R4 : reachable py_str str_exc webhook_secret (S (S n)) s4).
  { apply (reach_step _ _ _ _ s3 s4 R3).
    exact (step_acquire _ _ _ 1 j s3 n eq_refl eq_refl). }
  assert (R5 : reachable py_str str_exc webhook_secret (S (S n)) s5).
  { apply (reach_step _ _ _ _ s4 s5 R4).
    exact (step_create _ _ _ 0 j s4 now eq_refl). }
  exists s6. split; [|reflexivity].
  apply (reach_step _ _ _ _ s5 s6 R5).
  exact (step_create _ _ _ 1 j s5 now eq_refl).
Qed.

End WebhookAcceptance.

Lemma webhook_starts_only_triggers_witness :
  exists data,
    VDict (example_trigger 42 7 "open") = VDict data
    /\ is_trigger EmptyString EmptyString data (VNum 42) (VNum 7)
    /\ "42:7" = make_review_key example_py_str (VNum 42) (VNum 7)
    /\ (∅ : gmap string review_record) !! "42:7" = None
    /\ 202 = 202.
Proof.
  exact (webhook_starts_only_triggers example_py_str example_exc_str
           EmptyString EmptyString (VDict (example_trigger 42 7 "open")) ∅
           (Response 202
              [ ("message", VStr "AI code review started");
                ("review_id", VStr "42:7");
                ("mr_iid", VNum 7);
                ("project_id", VNum 42);
                ("action", VStr "open") ])
           example_job eq_refl).
Defined.

Lemma evicted_unit_is_accepted_again_witness :
  exists s',
    step example_py_str example_exc_str EmptyString
      (example_server (<["42:7" := example_record "completed"]> ∅) 3 1 Sleeping)
      s'
    /\ threads s' !! 0 = Some (example_job, Gone)
    /\ review_status "42:7" (active_reviews s') = None
    /\ exists resp,
         gitlab_webhook example_py_str example_exc_str EmptyString EmptyString
           (VDict (example_trigger 42 7 "update")) (active_reviews s')
         = (resp, Some (Job "42:7" (VNum 7) (VNum 42))).
Proof.
  exact (evicted_unit_is_accepted_again example_py_str example_exc_str
           EmptyString 0 example_job
           (example_server (<["42:7" := example_record "completed"]> ∅)
              3 1 Sleeping)
           EmptyString (example_trigger 42 7 "update") (VNum 42) (VNum 7)
           eq_refl (example_is_trigger "update" eq_refl) eq_refl).
Defined.

Lemma same_unit_can_run_twice_witness :
  exists s,
    reachable example_py_str example_exc_str EmptyString 3 s
    /\ threads s = [(example_job, Reviewing); (example_job, Reviewing)].
Proof.
  exact (same_unit_can_run_twice example_py_str example_exc_str EmptyString
           3 EmptyString (example_trigger 42 7 "open") (VNum 42) (VNum 7)
           (le_S _ _ (le_n 2)) (example_is_trigger "open" eq_refl)).
Defined.

(** ** The answer of the model *)

Lemma dict_set_same (k : string) (v : value) (d : dict) :
  dict_lookup k d = Some v -> dict_set k v d = d.
Proof.
  induction d as [|[k' v'] d IH]; simpl; [discriminate|].
  destruct (String.eqb k k') eqn:E.
  - intros H. injection H as ->. apply String.eqb_eq in E. now subst.
  - intros H. now rewrite IH.
Qed.

Lemma ensure_present (k : string) (v : value) (d : dict) :
  dict_mem k d = true -> ensure k v d = d.
Proof. unfold ensure. now intros ->. Qed.

Lemma ensure_list_fixed (k : string) (d : dict) (l : list value) :
  dict_lookup k d = Some (VList l) -> ensure_list k d = d.
Proof.
  intros H. unfold ensure_list, dict_get. rewrite dict_mem_lookup, H.
  reflexivity.
Qed.

Lemma lookup_ensure_list_eq (k : string) (d : dict) :
  exists l, dict_lookup k (ensure_list k d) = Some (VList l).
Proof.
  unfold ensure_list, dict_get. rewrite dict_mem_lookup.
  destruct (dict_lookup k d) as [v|] eqn:E; cbn [negb].
  - destruct v; cbn [is_list negb];
      try (exists []; apply dict_lookup_set_eq).
    eauto.
  - exists []. apply dict_lookup_set_eq.
Qed.

Lemma validate_comment_idem (comment : dict) :
  validate_comment (validate_comment comment) = validate_comment comment.
Proof.
  unfold validate_comment at 1 3.
  set (c := validate_comment comment).
  assert (Hs : dict_get "severity" (VStr "medium") c
               = if in_strs (dict_get "severity" (VStr "medium") comment)
                            severities
                 then dict_get "severity" (VStr "medium") comment
                 else VStr "medium") by reflexivity.
  assert (Hc : dict_get "category" (VStr "quality") c
               = if in_strs (dict_get "category" (VStr "quality") comment)
                            valid_categories
                 then dict_get "category" (VStr "quality") comment
                 else VStr "quality") by reflexivity.
  rewrite Hs, Hc.
  rewrite !in_strs_coerced by reflexivity.
  reflexivity.
Qed.

Lemma validated_comments_idem (items : list value) :
  validated_comments (validated_comments items) = validated_comments items.
Proof.
  induction items as [|[] items IH]; simpl; auto.
  now rewrite validate_comment_idem, IH.
Qed.

Section ValidationProperties.

Variable float_of_string : string -> option pyfloat.

(** What the validation leaves in the five entries it looks at. *)
Lemma validated_entries (d : dict) (r : value) :
  _validate_review_result float_of_string (VDict d) = Ok r ->
  exists d' items q l1 l2,
    r = VDict d'
    /\ py_iter (dict_get "comments" (VList []) d) = Ok items
    /\ dict_lookup "overall_score" d' = Some (VNum q)
    /\ Qle_bool 1 q && Qle_bool q 10 = true
    /\ clamp_score q = q
    /\ dict_mem "summary" d' = true
    /\ dict_lookup "comments" d' = Some (VList (validated_comments items))
    /\ dict_lookup "positive_aspects" d' = Some (VList l1)
    /\ dict_lookup "recommendations" d' = Some (VList l2).
Proof.
  intros H.
  apply validate_review_result_inv in H as (d1 & items & E1 & Hit & ->).
  apply validate_score_inv in E1 as [Hother Hscore].
  destruct (Hscore (required_score_mem d)) as (q & Hq & Hb & Hclamp).
  set (d2 := dict_set "comments" (VList (validated_comments items)) d1).
  destruct (lookup_ensure_list_eq "positive_aspects" d2) as [l1 Hl1].
  destruct (lookup_ensure_list_eq "recommendations"
              (ensure_list "positive_aspects" d2)) as [l2 Hl2].
  exists (ensure_lists d2), items, q, l1, l2.
  rewrite ensure_lists_unfold.
  split; [reflexivity|]. split; [exact Hit|].
  rewrite !dict_mem_lookup, !lookup_ensure_list_ne by reflexivity.
  rewrite Hl2. subst d2.
  rewrite !dict_lookup_set_ne by reflexivity. rewrite dict_lookup_set_eq.
  rewrite Hq.
  rewrite Hother by reflexivity.
  rewrite ensure_required_unfold, lookup_ensure_ne by reflexivity.
  rewrite lookup_ensure_eq.
  repeat split; auto.
Qed.

(** A score the validation has left is its own float. *)
Lemma py_float_of_clamped (q : Q) :
  clamp_score q = q -> py_float float_of_string (VNum q) = Ok (Finite q).
Proof.
  intros Hq. pose proof (clamp_score_bounds q) as Hb. rewrite Hq in Hb.
  apply andb_prop in Hb as [H1 H10].
  apply Qle_bool_iff in H1. apply Qle_bool_iff in H10.
  cbn [py_float]. destruct (is_whole q); [|reflexivity].
  assert (Habs : (Qabs q <= 10)%Q).
  { rewrite Qabs_pos; [exact H10|]. eapply Qle_trans; [|exact H1].
    discriminate. }
  unfold float_of_int, too_large.
  assert (E1 : Qle_bool (inject_Z (2 ^ 1024 - 2 ^ 970)) (Qabs q) = false).
  { apply not_true_iff_false. intros E. apply Qle_bool_iff in E.
    assert (C : (inject_Z (2 ^ 1024 - 2 ^ 970) <= 10)%Q)
      by (eapply Qle_trans; eassumption).
    revert C. vm_compute. intros C. now apply C. }
  assert (E2 : Qle_bool (Qabs q) (inject_Z (2 ^ 53)) = true).
  { apply Qle_bool_iff. eapply Qle_trans; [exact Habs|]. discriminate. }
  now rewrite E1, E2.
Qed.

(** X6. Validation is idempotent: validating the dictionary that
    [_validate_review_result] returned gives that dictionary again,
    entry for entry and in the same order. *)
Theorem validate_review_result_idempotent (d : dict) (r : value) :
  _validate_review_result float_of_string (VDict d) = Ok r ->
  _validate_review_result float_of_string r = Ok r.
Proof.
  intros Hr.
  destruct (validated_entries d r Hr)
    as (d' & items & q & l1 & l2 & -> & Hit & Hscore & _ & Hclamp & Hsum
        & Hcom & Hp & Hrec).
  unfold _validate_review_result.
  assert (E1 : ensure_required d' = d').
  { rewrite ensure_required_unfold.
    rewrite (ensure_present "overall_score")
      by (rewrite dict_mem_lookup, Hscore; reflexivity).
    rewrite (ensure_present "summary") by exact Hsum.
    apply ensure_present. rewrite dict_mem_lookup, Hcom. reflexivity. }
  assert (E2 : validate_score float_of_string d' = Ok d').
  { unfold validate_score, dict_get.
    rewrite dict_mem_lookup, Hscore.
    rewrite (py_float_of_clamped q Hclamp). cbn [clamp_float].
    rewrite Hclamp. f_equal. now apply dict_set_same. }
  rewrite E1, E2. cbn [bind]. unfold dict_get. rewrite Hcom.
  cbn [py_iter bind].
  rewrite validated_comments_idem, (dict_set_same _ _ _ Hcom).
  rewrite ensure_lists_unfold.
  rewrite (ensure_list_fixed "positive_aspects" d' l1 Hp).
  now rewrite (ensure_list_fixed "recommendations" d' l2 Hrec).
Qed.

Lemma clamp_score_in_range (q : Q) :
  (1 <= q)%Q -> (q <= 10)%Q -> (clamp_score q == q)%Q.
Proof.
  intros H1 H10. unfold clamp_score.
  destruct (Qle_bool 10 q) eqn:E10.
  - apply Qle_bool_iff in E10. cbn. now apply Qle_antisym.
  - destruct (Qle_bool q 1) eqn:E1; [|reflexivity].
    apply Qle_bool_iff in E1. now apply Qle_antisym.
Qed.

(** X7. Validation touches only the five entries it knows.  Every other
    entry of the answer is returned as it came; so are a summary, a score
    between 1 and 10 and the lists [positive_aspects] and
    [recommendations]. *)
Theorem validation_keeps_the_rest (d : dict) (r : value) :
  _validate_review_result float_of_string (VDict d) = Ok r ->
  exists d',
    r = VDict d'
    /\ (forall k, str_in k validated_fields = false ->
                  dict_lookup k d' = dict_lookup k d)
    /\ dict_lookup "summary" d'
       = Some (dict_get "summary" (VStr EmptyString) d)
    /\ (forall q, dict_lookup "overall_score" d = Some (VNum q) ->
                  (1 <= q)%Q -> (q <= 10)%Q ->
                  exists q', dict_lookup "overall_score" d' = Some (VNum q')
                             /\ (q' == q)%Q)
    /\ (forall l, dict_lookup "positive_aspects" d = Some (VList l) ->
                  dict_lookup "positive_aspects" d' = Some (VList l))
    /\ (forall l, dict_lookup "recommendations" d = Some (VList l) ->
                  dict_lookup "recommendations" d' = Some (VList l)).
Proof.
  intros H.
  apply validate_review_result_inv in H as (d1 & items & E1 & Hit & ->).
  pose proof (validate_score_inv float_of_string _ _ E1) as [Hother _].
  set (d2 := dict_set "comments" (VList (validated_comments items)) d1).
  assert (Hd2 : forall k, String.eqb k "comments" = false ->
                          String.eqb k "overall_score" = false ->
                          String.eqb k "summary" = false ->
                          dict_lookup k d2 = dict_lookup k d).
  { intros k Hc Ho Hs. unfold d2.
    rewrite dict_lookup_set_ne, Hother by assumption.
    rewrite ensure_required_unfold. now rewrite !lookup_ensure_ne. }
  eexists. split; [reflexivity|]. rewrite ensure_lists_unfold.
  split; [|split; [|split; [|split]]].
  - intros k Hk. unfold str_in, validated_fields in Hk. cbn [existsb] in Hk.
    repeat (apply orb_false_elim in Hk as [? Hk]).
    rewrite !lookup_ensure_list_ne by assumption. now apply Hd2.
  - rewrite !lookup_ensure_list_ne by reflexivity. unfold d2.
    rewrite dict_lookup_set_ne, Hother by reflexivity.
    rewrite ensure_required_unfold, lookup_ensure_ne by reflexivity.
    rewrite lookup_ensure_eq. unfold dict_get.
    now rewrite lookup_ensure_ne by reflexivity.
  - intros q Hq H1 H10.
    rewrite !lookup_ensure_list_ne by reflexivity. unfold d2.
    rewrite dict_lookup_set_ne by reflexivity.
    assert (Hreq : dict_lookup "overall_score" (ensure_required d)
                   = Some (VNum q)).
    { rewrite required_score. unfold dict_get. now rewrite Hq. }
    revert E1. unfold validate_score, dict_get.
    rewrite dict_mem_lookup, Hreq.
    destruct (py_float float_of_string (VNum q)) as [f|e] eqn:Ef.
    + intros E1. injection E1 as <-.
      exists (clamp_float f). rewrite dict_lookup_set_eq.
      split; [reflexivity|].
      assert (Hf : exists q', f = Finite q' /\ (q' == q)%Q).
      { revert Ef. cbn [py_float]. destruct (is_whole q).
        - unfold float_of_int. destruct (too_large q); [discriminate|].
          assert (E53 : Qle_bool (Qabs q) (inject_Z (2 ^ 53)) = true).
          { apply Qle_bool_iff. rewrite Qabs_pos.
            - eapply Qle_trans; [exact H10|]. discriminate.
            - eapply Qle_trans; [|exact H1]. discriminate. }
          rewrite E53. intros Ef. injection Ef as <-.
          exists q. split; reflexivity.
        - intros Ef. injection Ef as <-. exists q. split; reflexivity. }
      destruct Hf as (q' & -> & Eq). cbn [clamp_float].
      eapply Qeq_trans; [apply clamp_score_in_range | exact Eq];
        now rewrite Eq.
    + exfalso. revert Ef. cbn [py_float]. destruct (is_whole q); [|discriminate].
      unfold float_of_int.
      assert (E : too_large q = false).
      { unfold too_large. apply not_true_iff_false. intros E.
        apply Qle_bool_iff in E.
        assert (C : (inject_Z (2 ^ 1024 - 2 ^ 970) <= 10)%Q).
        { eapply Qle_trans; [exact E|]. rewrite Qabs_pos; [exact H10|].
          eapply Qle_trans; [|exact H1]. discriminate. }
        revert C. vm_compute. intros C. now apply C. }
      rewrite E. discriminate.
  - intros l Hl. rewrite lookup_ensure_list_ne by reflexivity.
    rewrite (ensure_list_fixed "positive_aspects" d2 l);
      rewrite Hd2 by reflexivity; exact Hl.
  - intros l Hl.
    assert (Hl' : dict_lookup "recommendations"
                    (ensure_list "positive_aspects" d2) = Some (VList l)).
    { rewrite lookup_ensure_list_ne by reflexivity.
      now rewrite Hd2 by reflexivity. }
    now rewrite (ensure_list_fixed "recommendations" _ l Hl').
Qed.

End ValidationProperties.

Lemma validate_review_result_idempotent_witness :
  let r := match _validate_review_result (fun _ => None) (VDict example_answer)
           with
           | Ok r => r
           | Raise _ => VNone
           end in
  _validate_review_result (fun _ => None) r = Ok r.
Proof.
  exact (validate_review_result_idempotent (fun _ => None) example_answer _
           eq_refl).
Defined.

Lemma validation_keeps_the_rest_witness :
  exists d',
    match _validate_review_result (fun _ => None) (VDict example_answer) with
    | Ok r => r
    | Raise _ => VNone
    end = VDict d'
    /\ dict_lookup "model" d' = Some (VStr "gemini").
Proof.
  destruct (validation_keeps_the_rest (fun _ => None) example_answer _ eq_refl)
    as (d' & Hr & Hrest & _).
  exists d'. split; [exact Hr|]. exact (Hrest "model" eq_refl).
Defined.

(** ** The fallback chain *)

Lemma has_char_cons (c a : ascii) (s : string) :
  has_char c (String a s) = Ascii.eqb a c || has_char c s.
Proof.
  unfold has_char. simpl. destruct (Ascii.eqb a c); [reflexivity|].
  destruct (find_char c s); reflexivity.
Qed.

Lemma has_char_strip_prefix (c : ascii) (p s r : string) :
  strip_prefix p s = Some r -> has_char c r = true -> has_char c s = true.
Proof.
  revert s. induction p as [|a p IH]; intros s; simpl.
  - intros H. now injection H as ->.
  - destruct s as [|b s]; [discriminate|].
    destruct (Ascii.eqb a b); [|discriminate].
    intros H Hr. rewrite has_char_cons, (IH s H Hr). apply orb_true_r.
Qed.

Lemma has_char_lstrip (c : ascii) (s : string) :
  has_char c (lstrip s) = true -> has_char c s = true.
Proof.
  induction s as [|a s IH]; simpl; [auto|].
  destruct (isspace a); [|auto].
  intros H. rewrite has_char_cons, (IH H). apply orb_true_r.
Qed.

Lemma lazy_body_close (r b : string) :
  lazy_body r = Some b ->
  has_char "}" r = true /\ last_char b = Some "}"%char /\ b <> EmptyString.
Proof.
  revert b. induction r as [|c r IH]; intros b; simpl; [discriminate|].
  destruct (Ascii.eqb c "}" && starts_with fence (lstrip r)) eqn:E.
  - intros H. injection H as <-.
    apply andb_prop in E as [E _]. apply Ascii.eqb_eq in E. subst c.
    rewrite has_char_cons. repeat split; discriminate.
  - destruct (lazy_body r) as [b'|]; [|discriminate].
    intros H. injection H as <-.
    destruct (IH b' eq_refl) as (H1 & H2 & H3).
    rewrite has_char_cons, H1, orb_true_r.
    repeat split; [|discriminate].
    destruct b'; [contradiction | exact H2].
Qed.

Lemma match_fence_at_braces (s g : string) :
  match_fence_at s = Some g ->
  has_char "{" s = true /\ has_char "}" s = true
  /\ first_char g = Some "{"%char /\ last_char g = Some "}"%char.
Proof.
  unfold match_fence_at.
  destruct (strip_prefix fence s) as [r1|] eqn:E1; [|discriminate].
  set (r2 := match strip_prefix "json" r1 with Some r => r | None => r1 end).
  assert (H2 : forall c, has_char c r2 = true -> has_char c r1 = true).
  { intros c. subst r2.
    destruct (strip_prefix "json" r1) eqn:E; [|auto].
    eapply has_char_strip_prefix; eauto. }
  destruct (lstrip r2) as [|c r3] eqn:E3; [discriminate|].
  destruct (Ascii.eqb c "{") eqn:Ec; [|discriminate].
  apply Ascii.eqb_eq in Ec. subst c.
  destruct (lazy_body r3) as [b|] eqn:Eb; [|discriminate].
  intros H. injection H as <-.
  destruct (lazy_body_close r3 b Eb) as (Hc & Hl & Hne).
  assert (Hopen : has_char "{" (lstrip r2) = true)
    by (rewrite E3, has_char_cons; reflexivity).
  assert (Hclose : has_char "}" (lstrip r2) = true)
    by (rewrite E3, has_char_cons, Hc; apply orb_true_r).
  split; [|split; [|split]].
  - eapply has_char_strip_prefix; eauto using has_char_lstrip.
  - eapply has_char_strip_prefix; eauto using has_char_lstrip.
  - reflexivity.
  - simpl. destruct b; [contradiction | exact Hl].
Qed.

Lemma first_fenced_braces (s g : string) :
  first_fenced s = Some g ->
  has_char "{" s = true /\ has_char "}" s = true
  /\ first_char g = Some "{"%char /\ last_char g = Some "}"%char.
Proof.
  induction s as [|a s IH]; [discriminate|].
  cbn [first_fenced].
  destruct (match_fence_at (String a s)) as [g'|] eqn:E.
  - intros H. injection H as <-. now apply match_fence_at_braces.
  - intros H. destruct (IH H) as (H1 & H2 & H3 & H4).
    rewrite !has_char_cons, H1, H2, !orb_true_r. auto.
Qed.

Lemma find_char_get (c : ascii) (s : string) (i : nat) :
  find_char c s = Some i -> String.get i s = Some c.
Proof.
  revert i. induction s as [|a s IH]; intros i; simpl; [discriminate|].
  destruct (Ascii.eqb a c) eqn:E.
  - intros H. injection H as <-. apply Ascii.eqb_eq in E. now subst.
  - destruct (find_char c s) as [k|]; [|discriminate].
    intros H. injection H as <-. simpl. now apply IH.
Qed.

Lemma rfind_char_get (c : ascii) (s : string) (i : nat) :
  rfind_char c s = Some i -> String.get i s = Some c.
Proof.
  revert i. induction s as [|a s IH]; intros i; simpl; [discriminate|].
  destruct (rfind_char c s) as [k|].
  - intros H. injection H as <-. simpl. now apply IH.
  - destruct (Ascii.eqb a c) eqn:E; [|discriminate].
    intros H. injection H as <-. apply Ascii.eqb_eq in E. now subst.
Qed.

Lemma rfind_char_absent (c : ascii) (s : string) :
  has_char c s = false -> rfind_char c s = None.
Proof.
  induction s as [|a s IH]; [reflexivity|].
  rewrite has_char_cons. intros H. apply orb_false_elim in H as [Ha Hs].
  simpl. now rewrite (IH Hs), Ha.
Qed.

Lemma last_char_get (s : string) (k : nat) (c : ascii) :
  String.get k s = Some c -> String.get (S k) s = None ->
  last_char s = Some c.
Proof.
  revert k. induction s as [|a s IH]; intros k; [discriminate|].
  destruct k as [|k]; simpl.
  - intros H. injection H as ->. destruct s; [reflexivity | discriminate].
  - intros H1 H2. destruct s as [|b s]; [discriminate|]. eapply IH; eauto.
Qed.

Lemma brace_span_braces (text c : string) :
  brace_span text = Some c ->
  first_char c = Some "{"%char /\ last_char c = Some "}"%char.
Proof.
  unfold brace_span.
  destruct (find_char "{" text) as [a|] eqn:Ea; [|discriminate].
  destruct (rfind_char "}" text) as [b|] eqn:Eb; [|discriminate].
  destruct (a <? b)%nat eqn:Hab; [|discriminate].
  apply Nat.ltb_lt in Hab. intros H. injection H as <-. unfold slice.
  apply find_char_get in Ea. apply rfind_char_get in Eb.
  split.
  - assert (H0 : String.get 0 (substring a (b + 1 - a) text) = Some "{"%char).
    { rewrite substring_correct1 by lia. exact Ea. }
    destruct (substring a (b + 1 - a) text); [discriminate | exact H0].
  - apply (last_char_get _ (b - a)).
    + rewrite substring_correct1 by lia.
      replace (b - a + a)%nat with b by lia. exact Eb.
    + apply substring_correct2. lia.
Qed.

(** X8. Whatever the fallback chain hands to [json.loads], the first
    fenced block or the outermost brace span, begins with an opening
    brace and ends with a closing brace. *)
Theorem extract_candidate_is_braced (text c : string) :
  extract_candidate text = Some c ->
  first_char c = Some "{"%char /\ last_char c = Some "}"%char.
Proof.
  unfold extract_candidate.
  destruct (first_fenced text) as [g|] eqn:E.
  - intros H. injection H as <-.
    destruct (first_fenced_braces text g E) as (_ & _ & H1 & H2). auto.
  - apply brace_span_braces.
Qed.

(** X9. An answer of the model without an opening brace, or without a
    closing one, gets the fixed fallback, whatever [json.loads] would
    make of any text. *)
Theorem no_brace_no_extract (loads : string -> option value) (text : string) :
  has_char "{" text = false \/ has_char "}" text = false ->
  _extract_json_from_response loads text = fallback_response.
Proof.
  intros H. rewrite extract_by_candidate.
  assert (E : extract_candidate text = None); [|now rewrite E].
  unfold extract_candidate.
  destruct (first_fenced text) as [g|] eqn:Ef.
  - destruct (first_fenced_braces text g Ef) as (H1 & H2 & _).
    destruct H as [H|H]; congruence.
  - unfold brace_span. destruct H as [H|H].
    + unfold has_char in H. destruct (find_char "{" text); [discriminate|].
      reflexivity.
    + rewrite (rfind_char_absent _ _ H).
      destruct (find_char "{" text); reflexivity.
Qed.

Lemma extract_candidate_is_braced_witness :
  first_char "{b} and {c}" = Some "{"%char
  /\ last_char "{b} and {c}" = Some "}"%char.
Proof.
  exact (extract_candidate_is_braced "see {b} and {c}." "{b} and {c}" eq_refl).
Defined.

Lemma no_brace_no_extract_witness :
  _extract_json_from_response example_loads "Looks good to me }"
  = fallback_response.
Proof.
  exact (no_brace_no_extract example_loads "Looks good to me }"
           (or_introl eq_refl)).
Defined.

(** ** The File Filter: what comes out, and its edge cases *)

Lemma assoc_in {A : Type} (k : string) (l : list (string * A)) (a : A) :
  assoc k l = Some a -> In (k, a) l.
Proof.
  induction l as [|[k' a'] l IH]; simpl; [discriminate|].
  destruct (String.eqb k k') eqn:Ek.
  - intros E. injection E as ->. apply String.eqb_eq in Ek. subst. now left.
  - auto.
Qed.

Section FilterEdges.

Variable path_suffix : string -> string.
Variable cfg : config.

Lemma filter_files_in (files filtered : list dict) (f : dict) :
  _filter_files path_suffix cfg files = Ok filtered ->
  In f filtered <-> In f files /\ keep_file path_suffix cfg f = Ok true.
Proof.
  revert filtered. induction files as [|g files IH]; simpl; intros filtered H.
  - injection H as <-. simpl. tauto.
  - bind_inv H. bind_inv H. injection H as <-.
    specialize (IH _ Ha0). destruct a; simpl; rewrite IH.
    + split.
      * intros [->|[H1 H2]]; auto.
      * intros [[->|H1] H2]; auto.
    + split.
      * intros [H1 H2]; auto.
      * intros [[->|H1] H2]; [congruence | auto].
Qed.

Lemma keep_file_true (f : dict) :
  keep_file path_suffix cfg f = Ok true <->
  exists p,
    file_path_of f = Ok p
    /\ truthy (dict_get "deleted_file" (VBool false) f) = false
    /\ _matches_patterns p (exclude_patterns cfg) = Ok false
    /\ (include_patterns cfg <> [] ->
        _matches_patterns p (include_patterns cfg) = Ok true)
    /\ (languages cfg <> [] ->
        _matches_languages path_suffix p (languages cfg) = Ok true).
Proof.
  unfold keep_file. split.
  - intros H. bind_inv H. exists a. split; [assumption|].
    destruct (truthy _); [discriminate|]. split; [reflexivity|].
    bind_inv H. destruct a0; [discriminate|]. split; [assumption|].
    bind_inv H. destruct a0; [discriminate|]. bind_inv H.
    injection H as H. destruct a0; [discriminate|]. split.
    + destruct (include_patterns cfg); [congruence|]. simpl in Ha1.
      intros _. bind_inv Ha1. injection Ha1 as Ha1. now destruct a0.
    + destruct (languages cfg); [congruence|]. simpl in Ha2.
      intros _. bind_inv Ha2. injection Ha2 as Ha2. now destruct a0.
  - intros (p & Hp & Hd & He & Hi & Hl). rewrite Hp. simpl. rewrite Hd, He.
    simpl.
    destruct (include_patterns cfg) as [|ip ips].
    + simpl. destruct (languages cfg) as [|l ls]; [reflexivity|].
      simpl. now rewrite Hl.
    + rewrite Hi by discriminate. simpl.
      destruct (languages cfg) as [|l ls]; [reflexivity|].
      simpl. now rewrite Hl.
Qed.


Lemma blank_patterns_match_nothing (p : value) (patterns : list string) :
  Forall (fun pat => strip pat = EmptyString) patterns ->
  _matches_patterns p patterns = Ok false.
Proof.
  induction 1 as [|pat patterns Hp _ IH]; simpl; [reflexivity|].
  now rewrite Hp.
Qed.

(** X11. With no include pattern, no language and only blank exclude
    patterns (or none), the filter keeps every file that has a path
    entry and is not flagged as deleted, whatever the path is. *)
Theorem empty_filter_keeps_undeleted (files : list dict) :
  include_patterns cfg = [] ->
  languages cfg = [] ->
  Forall (fun pat => strip pat = EmptyString) (exclude_patterns cfg) ->
  Forall (fun f => exists p, file_path_of f = Ok p) files ->
  _filter_files path_suffix cfg files
  = Ok (List.filter
          (fun f => negb (truthy (dict_get "deleted_file" (VBool false) f)))
          files).
Proof.
  intros Hi Hl He. induction 1 as [|f files [p Hp] _ IH]; simpl; [reflexivity|].
  rewrite IH. unfold keep_file. rewrite Hp. simpl.
  destruct (truthy _); simpl; [reflexivity|].
  rewrite (blank_patterns_match_nothing p _ He). simpl.
  now rewrite Hi, Hl.
Qed.

(** X12. An include list that is not empty but holds only blank patterns
    rejects every file. *)
Theorem blank_include_rejects_all (files : list dict) :
  include_patterns cfg <> [] ->
  Forall (fun pat => strip pat = EmptyString) (include_patterns cfg) ->
  forallb has_str_path files = true ->
  _filter_files path_suffix cfg files = Ok [].
Proof.
  intros Hne Hblank Hfiles.
  destruct (filter_files_total path_suffix cfg files Hfiles) as [filtered Hf].
  rewrite Hf. f_equal. destruct filtered as [|f filtered]; [reflexivity|].
  exfalso.
  assert (Hin : In f (f :: filtered)) by now left.
  apply (filter_files_in _ _ f Hf) in Hin as [_ Hk].
  apply keep_file_true in Hk as (p & _ & _ & _ & Hi & _).
  rewrite (blank_patterns_match_nothing p _ Hblank) in Hi.
  specialize (Hi Hne). discriminate.
Qed.

Lemma languages_loop_unknown (ext : string) (langs : list string) :
  (forall lang exts,
      In (lang, exts) language_extensions -> str_in ext exts = false) ->
  languages_loop ext langs = false.
Proof.
  intros H. induction langs as [|l langs IH]; [reflexivity|].
  cbn [languages_loop].
  destruct (assoc (lower (strip l)) language_extensions) as [exts|] eqn:E;
    [|assumption].
  now rewrite (H _ _ (assoc_in _ _ _ E)).
Qed.

(** X13. When a language list is configured, a file whose suffix, in
    lower case, stands in no row of the extension table never comes out
    of the filter. *)
Theorem unknown_extension_is_dropped
    (files filtered : list dict) (f : dict) (p : string) :
  languages cfg <> [] ->
  file_path_of f = Ok (VStr p) ->
  (forall lang exts,
      In (lang, exts) language_extensions ->
      str_in (lower (path_suffix p)) exts = false) ->
  _filter_files path_suffix cfg files = Ok filtered ->
  ~ In f filtered.
Proof.
  intros Hne Hp Hext Hf Hin.
  apply (filter_files_in _ _ f Hf) in Hin as [_ Hk].
  apply keep_file_true in Hk as (q & Hq & _ & _ & _ & Hl).
  rewrite Hp in Hq. injection Hq as <-. specialize (Hl Hne).
  simpl in Hl. rewrite (languages_loop_unknown _ _ Hext) in Hl. discriminate.
Qed.

End FilterEdges.


Lemma empty_filter_keeps_undeleted_witness :
  _filter_files suffix_from_last_dot (example_config "medium") example_files
  = Ok (List.filter
          (fun f => negb (truthy (dict_get "deleted_file" (VBool false) f)))
          example_files).
Proof.
  apply (empty_filter_keeps_undeleted suffix_from_last_dot
           (example_config "medium") example_files);
    try reflexivity.
  - constructor.
  - repeat constructor; eexists; reflexivity.
Defined.

Lemma blank_include_rejects_all_witness :
  _filter_files suffix_from_last_dot blank_include_config example_files
  = Ok [].
Proof.
  apply (blank_include_rejects_all suffix_from_last_dot blank_include_config
           example_files).
  - discriminate.
  - repeat constructor.
  - reflexivity.
Defined.

Lemma unknown_extension_is_dropped_witness :
  ~ In [("new_path", VStr "docs/guide.md")]
       [[("new_path", VStr "src/app.py"); ("deleted_file", VBool false)]].
Proof.
  apply (unknown_extension_is_dropped suffix_from_last_dot
           example_filter_config example_files _ _ "docs/guide.md").
  - discriminate.
  - reflexivity.
  - intros lang exts H. simpl in H.
    repeat (destruct H as [H|H]; [injection H as <- <-; reflexivity|]).
    contradiction.
  - reflexivity.
Defined.

(** ** The listings of the GitLab client *)

Lemma changed_files_loop_ok (cs : list dict) (acc : list dict) :
  for_each changed_files_step (map VDict cs) acc
  = Ok (acc ++ map changed_file cs)%list.
Proof.
  revert acc. induction cs as [|c cs IH]; intros acc; simpl.
  - now rewrite app_nil_r.
  - rewrite IH. now rewrite <- app_assoc.
Qed.

Lemma changed_files_loop_inv (items : list value) (acc files : list dict) :
  for_each changed_files_step items acc = Ok files ->
  exists cs, items = map VDict cs /\ files = (acc ++ map changed_file cs)%list.
Proof.
  revert acc. induction items as [|x items IH]; intros acc; simpl.
  - intros H. injection H as <-. exists []. now rewrite app_nil_r.
  - intros H. bind_inv H. destruct x; try discriminate.
    injection Ha as <-. destruct (IH _ H) as (cs & -> & ->).
    exists (d :: cs). simpl. now rewrite <- app_assoc.
Qed.

(** X14. [get_changed_files] is all or nothing: when every entry under
    [changes] is a dictionary it returns one file per entry, in order;
    as soon as one entry is not a dictionary the whole listing is
    dropped and the result is empty. *)
Theorem changed_files_all_or_nothing (c : dict) (items : list value) :
  dict_get "changes" (VList []) c = VList items ->
  (forall cs, items = map VDict cs ->
     get_changed_files (Ok (VDict c)) = map changed_file cs)
  /\ ((exists x, In x items /\ forall d, x <> VDict d) ->
      get_changed_files (Ok (VDict c)) = []).
Proof.
  intros Hc. unfold get_changed_files. simpl. rewrite Hc. simpl. split.
  - intros cs ->. now rewrite changed_files_loop_ok.
  - intros (x & Hin & Hx).
    destruct (for_each changed_files_step items []) as [files|e] eqn:E;
      [|reflexivity].
    exfalso. destruct (changed_files_loop_inv _ _ _ E) as (cs & -> & _).
    apply List.in_map_iff in Hin as (d & <- & _). now apply (Hx d).
Qed.

Lemma changed_files_all_or_nothing_witness :
  (forall cs,
      [VDict []; VStr "x"] = map VDict cs ->
      get_changed_files (Ok (VDict [("changes", VList [VDict []; VStr "x"])]))
      = map changed_file cs)
  /\ ((exists x, In x [VDict []; VStr "x"] /\ forall d, x <> VDict d) ->
      get_changed_files (Ok (VDict [("changes", VList [VDict []; VStr "x"])]))
      = []).
Proof.
  exact (changed_files_all_or_nothing
           [("changes", VList [VDict []; VStr "x"])] _ eq_refl).
Defined.

(** X15. Whatever the request gives, every file that
    [get_changed_files] returns has all seven keys, so the path the
    filter and the reviewer read from it is always there (it is the
    entry [new_path], [None] when the change had none). *)
Theorem changed_files_have_their_keys (changes : res value) :
  Forall (fun f =>
            (forall k, In k changed_file_keys -> dict_mem k f = true)
            /\ file_path_of f = dict_item "new_path" f
            /\ exists p, file_path_of f = Ok p)
         (get_changed_files changes).
Proof.
  unfold get_changed_files.
  destruct changes as [c|e]; simpl; [|constructor].
  destruct (py_get "changes" (VList []) c) as [l|e]; simpl; [|constructor].
  destruct (py_iter l) as [items|e]; simpl; [|constructor].
  destruct (for_each changed_files_step items []) as [files|e] eqn:E;
    [|constructor].
  destruct (changed_files_loop_inv _ _ _ E) as (cs & _ & ->). simpl.
  apply List.Forall_forall. intros f Hin.
  apply List.in_map_iff in Hin as (d & <- & _).
  repeat split.
  - intros k Hk. simpl in Hk.
    repeat (destruct Hk as [<-|Hk]; [reflexivity|]). contradiction.
  - eexists. reflexivity.
Qed.

Lemma dict_item_get (k : string) (default : value) (d : dict) :
  dict_mem k d = true -> dict_item k d = Ok (dict_get k default d).
Proof.
  rewrite dict_mem_lookup. unfold dict_item, dict_get.
  now destruct (dict_lookup k d).
Qed.

Lemma tree_step_item (max_files : Z) (files : list dict) (d : dict) :
  tree_item d = true ->
  tree_step max_files files (VDict d)
  = Ok (if is_blob d && (Z.of_nat (length files) <? max_files)%Z
        then (files ++ [tree_entry d])%list else files).
Proof.
  unfold tree_item, tree_step, is_blob. intros H.
  apply andb_prop in H as [Ht H]. simpl.
  rewrite (dict_item_get _ VNone _ Ht). simpl.
  destruct (eq_str (dict_get "type" VNone d) "blob"); simpl; [|reflexivity].
  simpl in H. apply andb_prop in H as [H Hi]. apply andb_prop in H as [Hp Hn].
  destruct (Z.of_nat (length files) <? max_files)%Z; [|reflexivity].
  rewrite (dict_item_get _ VNone _ Hp), (dict_item_get _ VNone _ Hn),
    (dict_item_get _ VNone _ Hi).
  reflexivity.
Qed.

Lemma tree_loop_items (max_files : Z) (ds : list dict) (files : list dict) :
  Forall (fun d => tree_item d = true) ds ->
  for_each (tree_step max_files) (map VDict ds) files
  = Ok (files
        ++ firstn (Z.to_nat max_files - length files)
             (map tree_entry (List.filter is_blob ds)))%list.
Proof.
  intros H. revert files. induction H as [|d ds Hd _ IH]; intros files.
  - simpl. rewrite firstn_nil. now rewrite app_nil_r.
  - cbn [map for_each]. rewrite (tree_step_item _ _ _ Hd). cbn [bind].
    rewrite IH. cbn [List.filter].
    destruct (is_blob d); cbn [andb]; [|reflexivity].
    destruct (Z.of_nat (length files) <? max_files)%Z eqn:E.
    + apply Z.ltb_lt in E. rewrite length_app. cbn [length map].
      replace (Z.to_nat max_files - length files)
        with (S (Z.to_nat max_files - (length files + 1))) by lia.
      cbn [firstn]. now rewrite <- app_assoc.
    + apply Z.ltb_ge in E.
      replace (Z.to_nat max_files - length files) with 0 by lia.
      reflexivity.
Qed.

(** X16. On a tree whose items carry the keys the loop reads,
    [get_all_project_files] returns the entries of the first [max_files]
    files of the tree, in the order of the tree; directories are left
    out, and a limit of zero or less gives the empty list. *)
Theorem project_files_first_blobs (ds : list dict) (max_files : Z) :
  Forall (fun d => tree_item d = true) ds ->
  get_all_project_files (Ok (map VDict ds)) max_files
  = firstn (Z.to_nat max_files) (map tree_entry (List.filter is_blob ds)).
Proof.
  intros H. unfold get_all_project_files. cbn [bind].
  rewrite (tree_loop_items _ _ _ H). cbn [length app].
  now rewrite Nat.sub_0_r.
Qed.

Lemma project_files_first_blobs_witness :
  get_all_project_files (Ok (map VDict example_tree)) 2
  = firstn (Z.to_nat 2) (map tree_entry (List.filter is_blob example_tree)).
Proof.
  apply (project_files_first_blobs example_tree 2).
  repeat constructor.
Defined.

Lemma tree_loop_invariant (P : list dict -> Prop) (max_files : Z)
    (items : list value) (acc files : list dict) :
  (forall fs x fs', P fs -> tree_step max_files fs x = Ok fs' -> P fs') ->
  P acc ->
  for_each (tree_step max_files) items acc = Ok files ->
  P files.
Proof.
  intros Hstep. revert acc. induction items as [|x items IH]; intros acc; simpl.
  - intros HP H. now injection H as <-.
  - intros HP H. bind_inv H. eauto.
Qed.

(** X17. Whatever the request gives, [get_all_project_files] returns at
    most [max_files] files (none for a limit below zero), and each of
    them has a [path] and neither [new_path], [deleted_file] nor
    [diff]. *)
Theorem project_files_capped (items : res (list value)) (max_files : Z) :
  (Z.of_nat (length (get_all_project_files items max_files))
   <= Z.max 0 max_files)%Z
  /\ Forall (fun f =>
               (exists p, file_path_of f = Ok p
                          /\ dict_item "path" f = Ok p)
               /\ dict_mem "new_path" f = false
               /\ dict_mem "deleted_file" f = false
               /\ dict_mem "diff" f = false)
            (get_all_project_files items max_files).
Proof.
  unfold get_all_project_files.
  destruct items as [l|e]; cbn [bind]; [|split; [simpl; lia | constructor]].
  destruct (for_each (tree_step max_files) l []) as [files|e] eqn:E;
    [|split; [simpl; lia | constructor]].
  revert E.
  apply (tree_loop_invariant
           (fun fs =>
              (Z.of_nat (length fs) <= Z.max 0 max_files)%Z
              /\ Forall (fun f =>
                           (exists p, file_path_of f = Ok p
                                      /\ dict_item "path" f = Ok p)
                           /\ dict_mem "new_path" f = false
                           /\ dict_mem "deleted_file" f = false
                           /\ dict_mem "diff" f = false) fs)).
  - intros fs x fs' [Hlen Hall]. unfold tree_step. intros H.
    bind_inv H.
    destruct (eq_str a "blob" && (Z.of_nat (length fs) <? max_files)%Z)
      eqn:Eg.
    + apply andb_prop in Eg as [_ Eg]. apply Z.ltb_lt in Eg.
      bind_inv H. bind_inv H. bind_inv H. injection H as <-. split.
      * rewrite length_app. simpl. lia.
      * apply Forall_app. split; [assumption|].
        constructor; [|constructor]. repeat split. eexists. split; reflexivity.
    + injection H as <-. auto.
  - split; [simpl; lia | constructor].
Qed.

(** ** The files to review *)

Section FilesToReviewProperties.

Variable path_suffix : string -> string.
Variable mr_changes : string -> res value.
Variable repository_tree : res (list value).

Lemma firstn_Forall {A : Type} (P : A -> Prop) (n : nat) (l : list A) :
  Forall P l -> Forall P (firstn n l).
Proof.
  intros H. revert n. induction H as [|x l Hx _ IH]; intros [|n]; simpl;
    constructor; auto.
Qed.

(** X18. Without a merge request nothing is listed. Otherwise every
    file that [_get_files_to_review] returns passed the filter, and for
    a limit that is not negative there are at most [max_files] of
    them. *)
Theorem files_to_review_limit (rs : run_settings) (result : list dict) :
  _get_files_to_review path_suffix mr_changes repository_tree rs = Ok result ->
  (env_set (ci_merge_request_iid rs) = None -> result = [])
  /\ ((0 <= max_files rs)%Z ->
      (Z.of_nat (length result) <= max_files rs)%Z)
  /\ Forall (fun f => keep_file path_suffix (base rs) f = Ok true) result.
Proof.
  unfold _get_files_to_review.
  destruct (env_set (ci_merge_request_iid rs)) as [iid|].
  - intros H. bind_inv H. injection H as <-.
    apply filter_files_kept in Ha as [Hall _].
    split; [discriminate|]. split.
    + intros Hmax.
      destruct (max_files rs <? Z.of_nat (length a))%Z eqn:E.
      * unfold slice_to. apply Z.leb_le in Hmax as Hb. rewrite Hb.
        rewrite length_firstn. lia.
      * apply Z.ltb_ge in E. exact E.
    + destruct (max_files rs <? Z.of_nat (length a))%Z; [|assumption].
      unfold slice_to. destruct (0 <=? max_files rs)%Z;
        now apply firstn_Forall.
  - intros H. injection H as <-. repeat split; [simpl; lia | constructor].
Qed.

End FilesToReviewProperties.

Lemma files_to_review_limit_witness :
  (env_set (ci_merge_request_iid (example_settings "changed" 1)) = None ->
   map changed_file (firstn 1 example_changes) = [])
  /\ ((0 <= max_files (example_settings "changed" 1))%Z ->
      (Z.of_nat (length (map changed_file (firstn 1 example_changes)))
       <= max_files (example_settings "changed" 1))%Z)
  /\ Forall (fun f =>
               keep_file suffix_from_last_dot
                 (base (example_settings "changed" 1)) f = Ok true)
            (map changed_file (firstn 1 example_changes)).
Proof.
  exact (files_to_review_limit suffix_from_last_dot
           (fun _ => Ok (VDict [("changes",
                                 VList (map VDict example_changes))]))
           (Ok []) (example_settings "changed" 1) _ eq_refl).
Defined.

(** ** The reports: counters *)

Lemma Qeq_bool_sym (p q : Q) : Qeq_bool p q = Qeq_bool q p.
Proof.
  destruct (Qeq_bool p q) eqn:E; symmetry.
  - apply Qeq_bool_iff. symmetry. now apply Qeq_bool_iff.
  - destruct (Qeq_bool q p) eqn:E'; [|reflexivity].
    apply Qeq_bool_iff in E'. symmetry in E'. apply Qeq_bool_iff in E'.
    congruence.
Qed.

Lemma Qeq_bool_trans (p q r : Q) :
  Qeq_bool p q = true -> Qeq_bool q r = true -> Qeq_bool p r = true.
Proof.
  rewrite !Qeq_bool_iff. intros H1 H2. now rewrite H1.
Qed.

Lemma key_eqb_sym (x y : value) : key_eqb x y = key_eqb y x.
Proof.
  destruct x, y; simpl; try reflexivity;
    try apply Qeq_bool_sym; apply String.eqb_sym.
Qed.

Lemma key_eqb_trans (x y z : value) :
  key_eqb x y = true -> key_eqb y z = true -> key_eqb x z = true.
Proof.
  destruct x, y; simpl; try discriminate; destruct z; simpl;
    try discriminate; try reflexivity; try apply Qeq_bool_trans.
  intros H1 H2. apply String.eqb_eq in H1, H2. subst. apply String.eqb_refl.
Qed.

Lemma key_eqb_congr (j k k' : value) :
  key_eqb k k' = true -> key_eqb j k' = key_eqb j k.
Proof.
  intros H. destruct (key_eqb j k) eqn:E.
  - now apply (key_eqb_trans j k k').
  - destruct (key_eqb j k') eqn:E'; [|reflexivity].
    rewrite key_eqb_sym in H.
    now rewrite (key_eqb_trans j k' k E' H) in E.
Qed.

Lemma counter_get_congr (j k : value) (counts : counters) :
  key_eqb j k = true -> counter_get j counts = counter_get k counts.
Proof.
  intros H. induction counts as [|[k' n] counts IH]; simpl; [reflexivity|].
  rewrite IH. replace (key_eqb j k') with (key_eqb k k'); [reflexivity|].
  rewrite (key_eqb_sym k k'), (key_eqb_sym j k'). rewrite key_eqb_sym in H.
  symmetry. now apply key_eqb_congr.
Qed.

Lemma counter_get_set (j k : value) (n : Z) (counts : counters) :
  counter_get j (counter_set k n counts)
  = if key_eqb j k then n else counter_get j counts.
Proof.
  induction counts as [|[k' n'] counts IH]; simpl; [reflexivity|].
  destruct (key_eqb k k') eqn:Ek; simpl.
  - rewrite (key_eqb_congr j k k' Ek). now destruct (key_eqb j k).
  - rewrite IH. destruct (key_eqb j k) eqn:Ej; [|reflexivity].
    destruct (key_eqb j k') eqn:Ej'; [|reflexivity].
    rewrite key_eqb_sym in Ej.
    now rewrite (key_eqb_trans k j k' Ej Ej') in Ek.
Qed.

Lemma counter_get_incr (j k : value) (counts counts' : counters) :
  counter_incr k counts = Ok counts' ->
  counter_get j counts'
  = (counter_get j counts + if key_eqb j k then 1 else 0)%Z.
Proof.
  unfold counter_incr. destruct (hashable k); [|discriminate].
  intros H. injection H as <-. rewrite counter_get_set.
  destruct (key_eqb j k) eqn:E; [|lia].
  now rewrite (counter_get_congr j k counts E).
Qed.

Lemma counter_total_incr_ok (k : value) (counts counts' : counters) :
  counter_incr k counts = Ok counts' ->
  counter_total counts' = (counter_total counts + 1)%Z.
Proof.
  unfold counter_incr. destruct (hashable k); [|discriminate].
  intros H. injection H as <-. apply counter_total_incr.
Qed.

Lemma sev_count_cons (j c : value) (items : list value) :
  sev_count j (c :: items)
  = ((if key_eqb j (severity_or (VStr "medium") c) then 1 else 0)
     + sev_count j items)%Z.
Proof.
  unfold sev_count. simpl.
  destruct (key_eqb j (severity_or (VStr "medium") c)); simpl; lia.
Qed.

Lemma sev_count_str (sev : string) (items : list value) :
  sev_count (VStr sev) items = Z.of_nat (length (with_severity sev items)).
Proof.
  unfold sev_count, with_severity. do 2 f_equal.
  apply filter_ext. intros c.
  destruct (severity_or (VStr "medium") c); simpl; try reflexivity.
  apply String.eqb_sym.
Qed.

Lemma counter_set_keys (k : value) (n : Z) (counts : counters) :
  exists tl, map fst (counter_set k n counts) = (map fst counts ++ tl)%list.
Proof.
  induction counts as [|[k' n'] counts [tl IH]]; simpl.
  - now exists [k].
  - destruct (key_eqb k k'); simpl.
    + exists []. now rewrite app_nil_r.
    + exists tl. now rewrite IH.
Qed.

Lemma counter_incr_keys (k : value) (counts counts' : counters) :
  counter_incr k counts = Ok counts' ->
  exists tl, map fst counts' = (map fst counts ++ tl)%list.
Proof.
  unfold counter_incr. destruct (hashable k); [|discriminate].
  intros H. injection H as <-. apply counter_set_keys.
Qed.

(** What the loop of [_get_severity_breakdown] adds to the counters. *)
Lemma breakdown_loop (items : list value) (b b' : counters) :
  for_each breakdown_step items b = Ok b' ->
  counter_total b' = (counter_total b + Z.of_nat (length items))%Z
  /\ (forall j, counter_get j b' = (counter_get j b + sev_count j items)%Z)
  /\ exists tl, map fst b' = (map fst b ++ tl)%list.
Proof.
  revert b. induction items as [|c items IH]; intros b; simpl.
  - intros H. injection H as <-. split; [lia|]. split.
    + intros j. unfold sev_count. simpl. lia.
    + exists []. now rewrite app_nil_r.
  - intros H. bind_inv H. unfold breakdown_step in Ha. bind_inv Ha.
    destruct c as [| | | | |d]; try discriminate. injection Ha0 as <-.
    destruct (IH _ H) as (Ht & Hj & tl & Htl).
    rewrite Ht, (counter_total_incr_ok _ _ _ Ha). split; [lia|]. split.
    + intros j. rewrite Hj, (counter_get_incr j _ _ _ Ha), sev_count_cons.
      simpl. lia.
    + destruct (counter_incr_keys _ _ _ Ha) as (tl' & Htl').
      exists (tl' ++ tl)%list. rewrite Htl, Htl'. now rewrite <- app_assoc.
Qed.

(** X19. When [_get_severity_breakdown] returns, the counts add up to
    the number of findings, the count under each severity is the number
    of findings with that severity (a missing one counting as medium),
    and the keys [high], [medium] and [low] come first, in this order,
    also when their count is zero. *)
Theorem severity_breakdown_counts (comments : value) (b : counters) :
  _get_severity_breakdown comments = Ok b ->
  exists items,
    py_iter comments = Ok items
    /\ counter_total b = Z.of_nat (length items)
    /\ (forall sev,
          counter_get (VStr sev) b
          = Z.of_nat (length (with_severity sev items)))
    /\ exists tl,
         map fst b = ([VStr "high"; VStr "medium"; VStr "low"] ++ tl)%list.
Proof.
  unfold _get_severity_breakdown. intros H. bind_inv H. exists a.
  split; [assumption|].
  destruct (breakdown_loop _ _ _ H) as (Ht & Hj & tl & Htl).
  split; [rewrite Ht; reflexivity|]. split.
  - intros sev. rewrite Hj, sev_count_str.
    assert (E : counter_get (VStr sev) breakdown0 = 0%Z).
    { unfold breakdown0. simpl.
      repeat match goal with |- context [if ?c then _ else _] =>
        destruct c end; reflexivity. }
    rewrite E. lia.
  - exists tl. exact Htl.
Qed.

Lemma severity_breakdown_counts_witness :
  exists items,
    py_iter (VList [VDict [("severity", VStr "high")]; VDict []]) = Ok items
    /\ counter_total [(VStr "high", 1%Z); (VStr "medium", 1%Z);
                      (VStr "low", 0%Z)]
       = Z.of_nat (length items)
    /\ (forall sev,
          counter_get (VStr sev)
            [(VStr "high", 1%Z); (VStr "medium", 1%Z); (VStr "low", 0%Z)]
          = Z.of_nat (length (with_severity sev items)))
    /\ exists tl,
         map fst [(VStr "high", 1%Z); (VStr "medium", 1%Z);
                  (VStr "low", 0%Z)]
         = ([VStr "high"; VStr "medium"; VStr "low"] ++ tl)%list.
Proof.
  exact (severity_breakdown_counts
           (VList [VDict [("severity", VStr "high")]; VDict []]) _ eq_refl).
Defined.

(** ** The reports: the summary and the JSON entries side by side *)

Lemma count_comments_inv (items : list value) (t t' : tally) :
  for_each count_comment items t = Ok t' ->
  t_comments t' = (t_comments t + Z.of_nat (length items))%Z
  /\ (forall j, counter_get j (t_severity t')
                = (counter_get j (t_severity t) + sev_count j items)%Z)
  /\ t_score t' = t_score t.
Proof.
  revert t. induction items as [|c items IH]; intros t; simpl.
  - intros H. injection H as <-. split; [lia|]. split; [|reflexivity].
    intros j. unfold sev_count. simpl. lia.
  - intros H. bind_inv H. unfold count_comment in Ha.
    bind_inv Ha. bind_inv Ha. bind_inv Ha. bind_inv Ha.
    destruct c as [| | | | |d]; try discriminate.
    injection Ha0 as <-. injection Ha as <-.
    destruct (IH _ H) as (Hc & Hj & Hs). cbn in Hc, Hj, Hs.
    split; [lia|]. split; [|assumption].
    intros j. rewrite Hj, (counter_get_incr j _ _ _ Ha2), sev_count_cons.
    simpl. lia.
Qed.

Lemma skipped_result (review : dict) :
  skipped review = false ->
  truthy (dict_get "review_result" VNone review) = true
  /\ dict_item "review_result" review
     = Ok (dict_get "review_result" VNone review).
Proof.
  unfold skipped. intros H. apply orb_false_elim in H as [_ H].
  apply negb_false_iff in H. split; [assumption|].
  revert H. unfold dict_get, dict_item.
  destruct (dict_lookup "review_result" review); [reflexivity|discriminate].
Qed.

Lemma summary_step_inv (t t' : tally) (review : dict) :
  summary_step t review = Ok t' ->
  t_comments t'
  = (t_comments t + Z.of_nat (length (review_items review)))%Z
  /\ (forall j, counter_get j (t_severity t')
                = (counter_get j (t_severity t)
                   + sev_count j (review_items review))%Z).
Proof.
  unfold summary_step, review_items.
  destruct (skipped review) eqn:Hs.
  - intros H. injection H as <-. split; [simpl; lia|].
    intros j. unfold sev_count. simpl. lia.
  - destruct (skipped_result _ Hs) as [_ ->]. cbn [bind].
    intros H. bind_inv H. bind_inv H. bind_inv H. bind_inv H.
    destruct (dict_get "review_result" VNone review) as [| | | | |result];
      try discriminate.
    injection Ha as <-. rewrite Ha0.
    destruct (count_comments_inv _ _ _ Ha1) as (Hc & Hj & _).
    destruct (py_number a2); [|discriminate]. bind_inv H.
    injection H as <-. cbn. auto.
Qed.

Lemma summary_loop_inv (reviews : list dict) (t t' : tally) :
  for_each summary_step reviews t = Ok t' ->
  t_comments t'
  = (t_comments t
     + Zsum (map (fun r => Z.of_nat (length (review_items r))) reviews))%Z
  /\ (forall j, counter_get j (t_severity t')
                = (counter_get j (t_severity t)
                   + Zsum (map (fun r => sev_count j (review_items r))
                             reviews))%Z).
Proof.
  revert t. induction reviews as [|r reviews IH]; intros t; simpl.
  - intros H. injection H as <-. split; [lia|]. intros j. lia.
  - intros H. bind_inv H.
    destruct (summary_step_inv _ _ _ Ha) as (Hc & Hj).
    destruct (IH _ H) as (Hc' & Hj'). split; [lia|].
    intros j. rewrite Hj', Hj. lia.
Qed.

Lemma py_len_iter (x : value) (n : Z) (items : list value) :
  py_len x = Ok n -> py_iter x = Ok items -> n = Z.of_nat (length items).
Proof.
  destruct x; simpl; try discriminate.
  - intros H1 H2. injection H1 as <-. injection H2 as <-.
    f_equal. induction s as [|c s IH]; simpl; [reflexivity|]. now rewrite IH.
  - intros H1 H2. injection H1 as <-. now injection H2 as <-.
  - intros H1 H2. injection H1 as <-. injection H2 as <-.
    now rewrite length_map.
Qed.

Lemma review_data_inv (review : dict) (entry : review_data) :
  skipped review = false ->
  review_data_of review = Ok entry ->
  comment_count entry = Z.of_nat (length (review_items review))
  /\ counter_total (severity_breakdown entry) = comment_count entry
  /\ (forall j, counter_get j (severity_breakdown entry)
                = sev_count j (review_items review))
  /\ rd_file_path entry = dict_get "file_path" (VStr EmptyString) review.
Proof.
  intros Hs. unfold review_data_of, review_items. rewrite Hs.
  destruct (skipped_result _ Hs) as [_ ->]. cbn [bind].
  intros H. do 9 bind_inv H. unfold _get_severity_breakdown in Ha7.
  apply bind_Ok in Ha7 as (items & Hitems & Hloop).
  destruct (dict_get "review_result" VNone review) as [| | | | |result];
    try discriminate.
  injection Ha1 as <-. rewrite Hitems. injection H as <-. cbn.
  destruct (breakdown_loop _ _ _ Hloop) as (Ht & Hj & _).
  rewrite (py_len_iter _ _ _ Ha2 Hitems).
  repeat split; auto.
  intros j. rewrite Hj.
  assert (E : counter_get j breakdown0 = 0%Z).
  { unfold breakdown0. simpl.
    repeat match goal with |- context [if ?c then _ else _] =>
      destruct c end; reflexivity. }
  rewrite E. lia.
Qed.

Lemma Zsum_app (l1 l2 : list Z) : Zsum (l1 ++ l2) = (Zsum l1 + Zsum l2)%Z.
Proof. induction l1 as [|x l1 IH]; simpl; [reflexivity|]. rewrite IH. lia. Qed.

Lemma json_loop_inv (reviews : list dict) (acc acc' : list review_data) :
  for_each json_step reviews acc = Ok acc' ->
  exists entries,
    acc' = (acc ++ entries)%list
    /\ map rd_file_path entries
       = map (dict_get "file_path" (VStr EmptyString))
           (List.filter (fun r => negb (skipped r)) reviews)
    /\ Zsum (map comment_count entries)
       = Zsum (map (fun r => Z.of_nat (length (review_items r))) reviews)
    /\ (forall j,
          Zsum (map (fun e => counter_get j (severity_breakdown e)) entries)
          = Zsum (map (fun r => sev_count j (review_items r)) reviews))
    /\ Forall (fun e => counter_total (severity_breakdown e)
                        = comment_count e) entries.
Proof.
  revert acc. induction reviews as [|r reviews IH]; intros acc; simpl.
  - intros H. injection H as <-. exists []. rewrite app_nil_r.
    repeat split; auto.
  - intros H. bind_inv H. unfold json_step in Ha.
    destruct (skipped r) eqn:Hs.
    + injection Ha as <-. destruct (IH _ H) as (es & -> & Hp & Hc & Hj & Ht).
      exists es. simpl. unfold review_items at 1. rewrite Hs. simpl.
      repeat split; auto.
      intros j. rewrite Hj. unfold review_items at 2. rewrite Hs.
      reflexivity.
    + bind_inv Ha. injection Ha as <-.
      destruct (review_data_inv _ _ Hs Ha0) as (Hc0 & Ht0 & Hj0 & Hp0).
      destruct (IH _ H) as (es & -> & Hp & Hc & Hj & Ht).
      exists (a0 :: es). rewrite <- app_assoc. simpl.
      rewrite Hp, Hc, Hp0, Hc0. repeat split; auto.
      intros j. now rewrite Hj, Hj0.
Qed.

(** X20. The JSON report is consistent with its summary: there is one
    entry per review that is not skipped, in order; the comment counts
    of the entries add up to the total of the summary, the severity
    breakdowns add up to its severity distribution, key by key; and in
    each entry the breakdown adds up to the comment count. *)
Theorem json_report_agrees_with_summary
    (reviews : list dict) (s s' : summary) (entries : list review_data) :
  _generate_summary reviews = Ok s ->
  _generate_json_report s reviews = Ok (s', entries) ->
  s' = s
  /\ map rd_file_path entries
     = map (dict_get "file_path" (VStr EmptyString))
         (List.filter (fun r => negb (skipped r)) reviews)
  /\ total_comments s = Zsum (map comment_count entries)
  /\ (forall k,
        counter_get k (severity_distribution s)
        = Zsum (map (fun e => counter_get k (severity_breakdown e)) entries))
  /\ Forall (fun e => counter_total (severity_breakdown e) = comment_count e)
       entries.
Proof.
  unfold _generate_summary, _generate_json_report. intros Hs Hj.
  apply bind_Ok in Hs as (t & Ht & Hs).
  apply bind_Ok in Hs as (x & _ & Hs). injection Hs as <-.
  apply bind_Ok in Hj as (es' & Hes & Hj). injection Hj as <- <-.
  destruct (summary_loop_inv _ _ _ Ht) as (Hc & Hk).
  destruct (json_loop_inv _ _ _ Hes) as (es & E & Hp & Hc' & Hk' & Hall).
  simpl in E. subst es'. cbn.
  split; [reflexivity|]. split; [assumption|]. split.
  - rewrite Hc, Hc'. simpl. lia.
  - split; [|assumption]. intros k. rewrite Hk, Hk'.
    assert (E : counter_get k (t_severity tally0) = 0%Z).
    { simpl.
      repeat match goal with |- context [if ?c then _ else _] =>
        destruct c end; reflexivity. }
    rewrite E. lia.
Qed.

Lemma json_report_agrees_with_summary_witness :
  example_summary = example_summary
  /\ map rd_file_path example_entries
     = map (dict_get "file_path" (VStr EmptyString))
         (List.filter (fun r => negb (skipped r)) example_reviews)
  /\ total_comments example_summary
     = Zsum (map comment_count example_entries)
  /\ (forall k,
        counter_get k (severity_distribution example_summary)
        = Zsum (map (fun e => counter_get k (severity_breakdown e))
                  example_entries))
  /\ Forall (fun e => counter_total (severity_breakdown e) = comment_count e)
       example_entries.
Proof.
  apply (json_report_agrees_with_summary example_reviews example_summary
           example_summary example_entries).
  - vm_compute. reflexivity.
  - vm_compute. reflexivity.
Defined.

(** ** The reports: the JUnit document *)

Section JunitDocument.

Variable py_str : value -> string.
Variable to_pretty_xml : element -> res string.

Lemma issues_with_inv (sev : string) (items l : list value) :
  String.eqb "medium" sev = false ->
  issues_with sev items = Ok l -> l = with_severity sev items.
Proof.
  intros Hsev. revert l. induction items as [|c items IH]; simpl; intros l H.
  - now injection H as <-.
  - bind_inv H. bind_inv H. injection H as <-.
    destruct c as [| | | | |d]; try discriminate. injection Ha as <-.
    unfold with_severity. cbn [List.filter severity_or].
    fold (with_severity sev items). rewrite <- (IH _ Ha0). unfold dict_get.
    destruct (dict_lookup "severity" d); [reflexivity|].
    cbn [eq_str]. now rewrite Hsev.
Qed.

Lemma testcase_inv (review : dict) (tc : option element) :
  testcase py_str review = Ok tc ->
  (skipped review = true /\ tc = None)
  \/ (skipped review = false
      /\ exists e,
           tc = Some e
           /\ tag_of e = "testcase"
           /\ assoc "name" (attrib_of e)
              = Some (dict_get "file_path" (VStr "unknown") review)
           /\ length (children_of e) <= 1
           /\ ((if has_failure e then 1 else 0)
               <= sev_count (VStr "high") (review_items review))%Z).
Proof.
  unfold testcase, review_items. destruct (skipped review) eqn:Hs.
  - intros H. injection H as <-. now left.
  - right. split; [reflexivity|]. revert H.
    destruct (skipped_result _ Hs) as [_ ->]. cbn [bind].
    intros H. do 6 bind_inv H. injection H as <-.
    destruct (dict_get "review_result" VNone review) as [| | | | |result];
      try discriminate.
    injection Ha as <-. rewrite Ha0.
    eexists. split; [reflexivity|]. split; [reflexivity|].
    split; [reflexivity|].
    apply (issues_with_inv "high" _ _ eq_refl) in Ha1.
    rewrite sev_count_str, <- Ha1.
    unfold has_failure. cbn [children_of].
    destruct a1 as [|h hs]; cbn [nonempty] in Ha2, Ha4.
    + injection Ha2 as <-. cbn [app].
      destruct (nonempty a3 && negb false).
      * bind_inv Ha4. injection Ha4 as <-. unfold issue_node in Ha.
        bind_inv Ha. injection Ha as <-. simpl. split; lia.
      * injection Ha4 as <-. simpl. split; lia.
    + rewrite andb_false_r in Ha4. injection Ha4 as <-.
      bind_inv Ha2. injection Ha2 as <-. unfold issue_node in Ha.
      bind_inv Ha. injection Ha as <-. simpl. split; lia.
Qed.

Lemma testcases_inv (reviews : list dict) (cases : list element) :
  testcases py_str reviews = Ok cases ->
  map (fun e => assoc "name" (attrib_of e)) cases
  = map (fun r => Some (dict_get "file_path" (VStr "unknown") r))
      (List.filter (fun r => negb (skipped r)) reviews)
  /\ Forall (fun e => tag_of e = "testcase" /\ length (children_of e) <= 1)
       cases
  /\ (Z.of_nat (length (List.filter has_failure cases))
      <= Zsum (map (fun r => sev_count (VStr "high") (review_items r))
                 reviews))%Z.
Proof.
  revert cases. induction reviews as [|r reviews IH]; simpl; intros cases H.
  - injection H as <-. simpl. repeat split; [constructor | lia].
  - bind_inv H. bind_inv H. injection H as <-.
    destruct (IH _ Ha0) as (Hn & Hall & Hf).
    assert (Hpos : (0 <= sev_count (VStr "high") (review_items r))%Z)
      by (unfold sev_count; lia).
    destruct (testcase_inv _ _ Ha) as [[Hs ->]|(Hs & e & -> & Ht & Hname & Hc & Hh)];
      rewrite Hs; simpl.
    + repeat split; auto. lia.
    + rewrite Hname, Hn. split; [reflexivity|]. split.
      * constructor; auto.
      * destruct (has_failure e); simpl length; lia.
Qed.

(** X21. In the JUnit document there is one test case per review that
    is not skipped, named after its file, in order, each with at most
    one failure or error node; the attribute [tests] is the number of
    all reviews handed in, skipped ones included, and [failures] is the
    number of high findings over all files, which is at least the number
    of test cases with a failure node. *)
Theorem junit_document_counts
    (reviews : list dict) (s : summary) (doc : element) (xml : string) :
  _generate_summary reviews = Ok s ->
  _generate_junit_report py_str to_pretty_xml s reviews = Ok (doc, xml) ->
  exists cases,
    doc = Element "testsuites" (suite_attrib "AI Code Review" s) None
            [ Element "testsuite" (suite_attrib "Code Review Results" s)
                None cases ]
    /\ map (fun e => assoc "name" (attrib_of e)) cases
       = map (fun r => Some (dict_get "file_path" (VStr "unknown") r))
           (List.filter (fun r => negb (skipped r)) reviews)
    /\ Forall (fun e => tag_of e = "testcase" /\ length (children_of e) <= 1)
         cases
    /\ assoc "tests" (suite_attrib "Code Review Results" s)
       = Some (VStr (pretty (Z.of_nat (length reviews))))
    /\ assoc "failures" (suite_attrib "Code Review Results" s)
       = Some (VStr (pretty
                 (Zsum (map (fun r => sev_count (VStr "high") (review_items r))
                          reviews))))
    /\ (Z.of_nat (length (List.filter has_failure cases))
        <= Zsum (map (fun r => sev_count (VStr "high") (review_items r))
                   reviews))%Z.
Proof.
  unfold _generate_summary, _generate_junit_report. intros Hs Hd.
  apply bind_Ok in Hs as (t & Ht & Hs).
  apply bind_Ok in Hs as (x & _ & Hs).
  apply bind_Ok in Hd as (cases & Hcases & Hd).
  apply bind_Ok in Hd as (xml_str & _ & Hd).
  injection Hd as <- _. exists cases.
  destruct (testcases_inv _ _ Hcases) as (Hn & Hall & Hf).
  destruct (summary_loop_inv _ _ _ Ht) as (_ & Hk).
  split; [reflexivity|]. split; [assumption|]. split; [assumption|].
  injection Hs as <-. cbn. rewrite Hk. cbn. auto.
Qed.

End JunitDocument.

Lemma junit_document_counts_witness :
  exists cases,
    example_document
    = Element "testsuites" (suite_attrib "AI Code Review" example_summary)
        None
        [ Element "testsuite"
            (suite_attrib "Code Review Results" example_summary) None cases ]
    /\ map (fun e => assoc "name" (attrib_of e)) cases
       = map (fun r => Some (dict_get "file_path" (VStr "unknown") r))
           (List.filter (fun r => negb (skipped r)) example_reviews)
    /\ Forall (fun e => tag_of e = "testcase"
                        /\ length (children_of e) <= 1) cases
    /\ assoc "tests" (suite_attrib "Code Review Results" example_summary)
       = Some (VStr (pretty (Z.of_nat (length example_reviews))))
    /\ assoc "failures" (suite_attrib "Code Review Results" example_summary)
       = Some (VStr (pretty
                 (Zsum (map (fun r => sev_count (VStr "high") (review_items r))
                          example_reviews))))
    /\ (Z.of_nat (length (List.filter has_failure cases))
        <= Zsum (map (fun r => sev_count (VStr "high") (review_items r))
                   example_reviews))%Z.
Proof.
  apply (junit_document_counts example_py_str example_to_xml example_reviews
           example_summary example_document "testsuites").
  - vm_compute. reflexivity.
  - unfold _generate_junit_report.
    assert (E : testcases example_py_str example_reviews = Ok example_cases)
      by (vm_compute; reflexivity).
    rewrite E. reflexivity.
Defined.

(** ** The Cloud Functions entry point *)

Section CloudFunctionProperties.

Variable py_str : value -> string.
Variable str_exc : exc -> string.
Variable webhook_secret : string.
Variable run_reviewer : list (string * string) -> run_outcome.
Variable handle_health_check : response.

(** X22. The Cloud Functions handler and the web server apply the same
    checks: whenever the server with an empty table of reviews answers
    without starting a review, the function gives the same answer, and
    whenever the server starts a review the function runs it inside the
    request, for the same project and merge request. *)
Theorem cloud_function_answers_like_server
    (token : string) (data : value) (resp : response) (started : option job) :
  gitlab_webhook py_str str_exc webhook_secret token data ∅ = (resp, started) ->
  match started with
  | None =>
      handle_gitlab_webhook py_str str_exc webhook_secret run_reviewer
        token data = Responds resp
  | Some j =>
      exists mr_data mr_action,
        py_get "object_attributes" (VDict []) data = Ok mr_data
        /\ py_get "action" (VStr EmptyString) mr_data = Ok mr_action
        /\ handle_gitlab_webhook py_str str_exc webhook_secret run_reviewer
             token data
           = answer_or_500 str_exc
               (run_in_request py_str run_reviewer (job_project_id j)
                  (job_mr_iid j) mr_action mr_data data)
  end.
Proof.
  unfold gitlab_webhook, handle_gitlab_webhook, webhook_try,
    handle_gitlab_webhook_try.
  destruct (negb (String.eqb webhook_secret EmptyString)
            && negb (String.eqb token webhook_secret)).
  { intros H. injection H as <- <-. reflexivity. }
  destruct (negb (truthy data)).
  { intros H. injection H as <- <-. reflexivity. }
  destruct (py_get "object_kind" (VStr EmptyString) data) as [event_type|e];
    cbn [bind]; [|intros H; injection H as <- <-; reflexivity].
  destruct (negb (eq_str event_type "merge_request")).
  { intros H. injection H as <- <-. reflexivity. }
  destruct (py_get "object_attributes" (VDict []) data) as [mr_data|e] eqn:E1;
    cbn [bind]; [|intros H; injection H as <- <-; reflexivity].
  destruct (py_get "iid" VNone mr_data) as [mr_iid|e];
    cbn [bind]; [|intros H; injection H as <- <-; reflexivity].
  destruct (py_get "action" (VStr EmptyString) mr_data) as [mr_action|e] eqn:E2;
    cbn [bind]; [|intros H; injection H as <- <-; reflexivity].
  destruct (py_get "project" (VDict []) data) as [project|e];
    cbn [bind]; [|intros H; injection H as <- <-; reflexivity].
  destruct (py_get "id" VNone project) as [project_id|e];
    cbn [bind]; [|intros H; injection H as <- <-; reflexivity].
  destruct (negb (truthy mr_iid) || negb (truthy project_id)).
  { intros H. injection H as <- <-. reflexivity. }
  destruct (negb (in_strs mr_action actions)).
  { intros H. injection H as <- <-. reflexivity. }
  rewrite lookup_empty. intros H. injection H as <- <-.
  exists mr_data, mr_action. cbn [job_project_id job_mr_iid].
  split; [reflexivity|]. split; [exact E2 | reflexivity].
Qed.

(** X23. A trigger sent with POST to the entry point runs the reviewer
    with the project and the merge request of the event in
    [CI_PROJECT_ID] and [CI_MERGE_REQUEST_IID]; the function answers 200
    when the reviewer returns and 500 when it raises, and when the
    reviewer leaves through [sys.exit] the handler gives no answer at
    all: the exit passes both [except Exception] clauses. *)
Theorem cloud_entry_point_runs_trigger
    (req : request) (data : dict) (project_id mr_iid : value)
    (entries : list (string * value)) (environ : list (string * string)) :
  method req = "POST" ->
  path req <> "/health" ->
  health_arg req = None \/ health_arg req = Some EmptyString ->
  json_data req = VDict data ->
  is_trigger webhook_secret (gitlab_token req) data project_id mr_iid ->
  review_env py_str project_id mr_iid
    (dict_get "object_attributes" (VDict []) data) (VDict data) = Ok entries ->
  set_environ entries = Ok environ ->
  assoc "CI_PROJECT_ID" environ = Some (format_value py_str project_id)
  /\ assoc "CI_MERGE_REQUEST_IID" environ = Some (format_value py_str mr_iid)
  /\ webhook_handler py_str str_exc webhook_secret run_reviewer
       handle_health_check req
     = match run_reviewer environ with
       | Returned =>
           Responds
             (Response 200
                [ ("message", VStr "AI code review completed");
                  ("mr_iid", mr_iid);
                  ("project_id", project_id);
                  ("action",
                    dict_get "action" (VStr EmptyString)
                      match dict_get "object_attributes" (VDict []) data with
                      | VDict attrs => attrs
                      | _ => []
                      end) ])
       | Raised e => Responds (Response 500 [("error", VStr (str_exc e))])
       | Exited => SystemExits
       end.
Proof.
  intros Hm Hp Hh Hj Htrig Henv Hset.
  assert (Hkeys : assoc "CI_PROJECT_ID" environ
                  = Some (format_value py_str project_id)
                  /\ assoc "CI_MERGE_REQUEST_IID" environ
                     = Some (format_value py_str mr_iid)).
  { unfold review_env in Henv. do 6 bind_inv Henv. injection Henv as <-.
    cbn [set_environ] in Hset.
    apply bind_Ok in Hset as (s1 & Hs1 & Hset).
    apply bind_Ok in Hset as (rest1 & Hrest1 & Hset).
    injection Hset as <-.
    apply bind_Ok in Hrest1 as (s2 & Hs2 & Hrest1).
    apply bind_Ok in Hrest1 as (rest2 & _ & Hrest1).
    injection Hrest1 as <-.
    cbn [environ_value] in Hs1, Hs2.
    destruct (has_nul (format_value py_str project_id)); [discriminate|].
    destruct (has_nul (format_value py_str mr_iid)); [discriminate|].
    injection Hs1 as <-. injection Hs2 as <-.
    split; reflexivity. }
  destruct Hkeys as [K1 K2]. split; [exact K1|]. split; [exact K2|].
  unfold webhook_handler. rewrite Hm. cbn [String.eqb Ascii.eqb Bool.eqb].
  assert (Hpath : String.eqb (path req) "/health" = false)
    by now apply String.eqb_neq.
  rewrite Hpath.
  assert (Hh' : match health_arg req with
                | Some h => negb (String.eqb h EmptyString)
                | None => false
                end = false) by (destruct Hh as [-> | ->]; reflexivity).
  rewrite Hh'. cbn [orb]. rewrite Hj.
  destruct Htrig as (Htok & Hkind & (attrs & Hattrs & Hiid & Hact)
                     & (project & Hproj & Hid) & Tm & Tp).
  assert (Hne : data <> []) by (intros ->; discriminate).
  assert (Hgate : negb (String.eqb webhook_secret EmptyString)
                  && negb (String.eqb (gitlab_token req) webhook_secret)
                  = false).
  { destruct Htok as [-> | ->].
    - reflexivity.
    - rewrite String.eqb_refl. apply andb_false_r. }
  assert (Htruthy : truthy (VDict data) = true)
    by (destruct data; [exfalso; now apply Hne | reflexivity]).
  assert (G1 : dict_get "object_kind" (VStr EmptyString) data
               = VStr "merge_request") by (unfold dict_get; now rewrite Hkind).
  assert (G2 : dict_get "object_attributes" (VDict []) data = VDict attrs)
    by (unfold dict_get; now rewrite Hattrs).
  assert (G3 : dict_get "iid" VNone attrs = mr_iid)
    by (unfold dict_get; now rewrite Hiid).
  assert (G4 : dict_get "project" (VDict []) data = VDict project)
    by (unfold dict_get; now rewrite Hproj).
  assert (G5 : dict_get "id" VNone project = project_id)
    by (unfold dict_get; now rewrite Hid).
  rewrite G2 in Henv |- *.
  unfold handle_gitlab_webhook, handle_gitlab_webhook_try.
  rewrite Hgate, Htruthy. cbn [negb py_get bind].
  rewrite G1. cbn [eq_str]. rewrite String.eqb_refl. cbn [negb].
  rewrite G2. cbn [py_get bind]. rewrite G3, G4. cbn [py_get bind].
  rewrite G5, Tm, Tp, Hact. cbn [negb orb].
  unfold run_in_request. rewrite Henv. cbn [bind]. rewrite Hset. cbn [bind].
  destruct (run_reviewer environ); reflexivity.
Qed.

End CloudFunctionProperties.

Lemma cloud_function_answers_like_server_witness :
  exists mr_data mr_action,
    py_get "object_attributes" (VDict []) (VDict (example_trigger 42 7 "open"))
    = Ok mr_data
    /\ py_get "action" (VStr EmptyString) mr_data = Ok mr_action
    /\ handle_gitlab_webhook example_py_str example_exc_str EmptyString
         (fun _ => Returned) EmptyString (VDict (example_trigger 42 7 "open"))
       = answer_or_500 example_exc_str
           (run_in_request example_py_str (fun _ => Returned)
              (job_project_id example_job) (job_mr_iid example_job)
              mr_action mr_data (VDict (example_trigger 42 7 "open"))).
Proof.
  exact (cloud_function_answers_like_server example_py_str example_exc_str
           EmptyString (fun _ => Returned) EmptyString
           (VDict (example_trigger 42 7 "open"))
           (Response 202
              [ ("message", VStr "AI code review started");
                ("review_id", VStr "42:7");
                ("mr_iid", VNum 7);
                ("project_id", VNum 42);
                ("action", VStr "open") ])
           (Some example_job) eq_refl).
Defined.

Lemma cloud_entry_point_runs_trigger_witness :
  assoc "CI_PROJECT_ID" example_environ
  = Some (format_value example_py_str (VNum 42))
  /\ assoc "CI_MERGE_REQUEST_IID" example_environ
     = Some (format_value example_py_str (VNum 7))
  /\ webhook_handler example_py_str example_exc_str EmptyString
       (fun _ => Exited) (Response 200 []) example_request
     = SystemExits.
Proof.
  apply (cloud_entry_point_runs_trigger example_py_str example_exc_str
           EmptyString (fun _ => Exited) (Response 200 []) example_request
           (example_trigger 42 7 "open") (VNum 42) (VNum 7)
           [ ("CI_PROJECT_ID", VStr "42");
             ("CI_MERGE_REQUEST_IID", VStr "7");
             ("CI_COMMIT_SHA", VStr EmptyString);
             ("CI_PROJECT_URL", VStr EmptyString);
             ("GITLAB_USER_LOGIN", VStr "webhook-user") ]
           example_environ).
  - reflexivity.
  - discriminate.
  - left. reflexivity.
  - reflexivity.
  - apply example_is_trigger. reflexivity.
  - reflexivity.
  - reflexivity.
Defined.

(** ** Validated reviews and the reports *)

Lemma in_strs_str (x : value) (names : list string) :
  in_strs x names = true -> exists s, x = VStr s.
Proof.
  unfold in_strs. intros H. apply existsb_exists in H as (n & _ & H).
  destruct x; try discriminate. eauto.
Qed.

Lemma dict_get_default (k : string) (default : value) (d : dict) (s : string) :
  dict_get k VNone d = VStr s -> dict_get k default d = VStr s.
Proof.
  unfold dict_get. destruct (dict_lookup k d); [auto | discriminate].
Qed.

Lemma valid_finding_severity (c : value) :
  valid_finding c = true ->
  exists d sev cat,
    c = VDict d
    /\ dict_get "severity" VNone d = VStr sev
    /\ dict_get "category" VNone d = VStr cat.
Proof.
  destruct c as [| | | | |d]; try discriminate. unfold valid_finding.
  intros H. apply andb_prop in H as [H Hc]. apply andb_prop in H as [_ Hs].
  apply in_strs_str in Hs as [sev Hs]. apply in_strs_str in Hc as [cat Hc].
  eauto 6.
Qed.

Lemma valid_finding_countable (c : value) :
  valid_finding c = true -> countable_finding c = true.
Proof.
  intros H. apply valid_finding_severity in H as (d & sev & cat & -> & Hs & Hc).
  unfold countable_finding.
  now rewrite (dict_get_default _ _ _ _ Hs), (dict_get_default _ _ _ _ Hc).
Qed.

Lemma valid_findings_countable (l : list value) :
  forallb valid_finding l = true -> forallb countable_finding l = true.
Proof.
  induction l as [|c l IH]; simpl; [reflexivity|].
  intros H. apply andb_prop in H as [Hc Hl].
  now rewrite (valid_finding_countable c Hc), IH.
Qed.

Lemma valid_findings_dicts (l : list value) :
  forallb valid_finding l = true -> exists ds, l = map VDict ds.
Proof.
  induction l as [|c l IH]; simpl.
  - now exists [].
  - intros H. apply andb_prop in H as [Hc Hl].
    destruct (IH Hl) as [ds ->].
    destruct c as [| | | | |d]; try discriminate. now exists (d :: ds).
Qed.

Lemma report_ready_well_formed (review : dict) :
  report_ready review = true -> well_formed_review review = true.
Proof.
  unfold report_ready, well_formed_review.
  destruct (skipped review); [reflexivity|]. cbn [orb].
  destruct (dict_get "review_result" VNone review) as [| | | | |result];
    try discriminate.
  intros H. apply andb_prop in H as [H _]. apply andb_prop in H as [H _].
  apply andb_prop in H as [Hl Hs]. rewrite Hs, andb_true_r.
  destruct (dict_get "comments" (VList []) result); try discriminate.
  now apply valid_findings_countable.
Qed.

Lemma breakdown_loop_ready (items : list value) (b : counters) :
  forallb valid_finding items = true ->
  exists b', for_each breakdown_step items b = Ok b'.
Proof.
  revert b. induction items as [|c items IH]; intros b; simpl; [eauto|].
  intros H. apply andb_prop in H as [Hc Hl].
  apply valid_finding_severity in Hc as (d & sev & cat & -> & Hs & _).
  unfold breakdown_step. cbn [py_get bind].
  rewrite (dict_get_default _ _ _ _ Hs). unfold counter_incr.
  cbn [hashable bind]. apply IH, Hl.
Qed.

Lemma json_step_ready (entries : list review_data) (review : dict) :
  report_ready review = true ->
  exists entries', json_step entries review = Ok entries'.
Proof.
  unfold report_ready, json_step, review_data_of.
  destruct (skipped review) eqn:Hs; [eauto|]. cbn [orb].
  destruct (skipped_result _ Hs) as [_ ->]. cbn [bind].
  destruct (dict_get "review_result" VNone review) as [| | | | |result];
    try discriminate.
  intros H. apply andb_prop in H as [H Hr]. apply andb_prop in H as [H Hp].
  apply andb_prop in H as [Hl _]. cbn [py_get bind].
  destruct (dict_get "comments" (VList []) result) as [| | | |l|];
    try discriminate.
  destruct (dict_get "positive_aspects" (VList []) result) as [| | | |l1|];
    try discriminate.
  destruct (dict_get "recommendations" (VList []) result) as [| | | |l2|];
    try discriminate.
  cbn [py_len bind]. unfold _get_severity_breakdown. cbn [py_iter bind].
  destruct (breakdown_loop_ready l breakdown0 Hl) as [b ->]. cbn [bind].
  eauto.
Qed.

Lemma json_loop_ready (reviews : list dict) (entries : list review_data) :
  Forall (fun r => report_ready r = true) reviews ->
  exists entries', for_each json_step reviews entries = Ok entries'.
Proof.
  intros H. revert entries. induction H as [|r reviews Hr _ IH];
    intros entries; simpl; [eauto|].
  destruct (json_step_ready entries r Hr) as [e1 ->]. cbn [bind]. apply IH.
Qed.

Section ReportsOfValidatedReviews.

Variable py_str : value -> string.
Variable to_pretty_xml : element -> res string.
Variable float_of_string : string -> option pyfloat.

Lemma testcase_ready (review : dict) :
  report_ready review = true ->
  exists tc, testcase py_str review = Ok tc.
Proof.
  unfold report_ready, testcase.
  destruct (skipped review) eqn:Hs; [eauto|]. cbn [orb].
  destruct (skipped_result _ Hs) as [_ ->]. cbn [bind].
  destruct (dict_get "review_result" VNone review) as [| | | | |result];
    try discriminate.
  intros H. apply andb_prop in H as [H _]. apply andb_prop in H as [H _].
  apply andb_prop in H as [Hl _]. cbn [py_get bind].
  destruct (dict_get "comments" (VList []) result) as [| | | |l|];
    try discriminate.
  destruct (valid_findings_dicts l Hl) as [ds ->].
  cbn [py_iter bind]. rewrite !issues_with_dicts. cbn [bind].
  unfold issue_node.
  destruct (nonempty (map VDict (List.filter (has_severity "high") ds)));
    [rewrite issue_lines_dicts|]; cbn [bind negb andb];
    (destruct (nonempty (map VDict (List.filter (has_severity "medium") ds)));
     [|cbn [andb bind]; eauto]); cbn [andb bind]; eauto.
  rewrite issue_lines_dicts. cbn [bind]. eauto.
Qed.

Lemma testcases_ready (reviews : list dict) :
  Forall (fun r => report_ready r = true) reviews ->
  exists cases, testcases py_str reviews = Ok cases.
Proof.
  induction 1 as [|r reviews Hr _ [cases IH]]; simpl; [eauto|].
  destruct (testcase_ready r Hr) as [tc ->]. rewrite IH. cbn [bind]. eauto.
Qed.

Lemma score_is_modest (q : Q) :
  Qle_bool 1 q && Qle_bool q 10 = true ->
  match py_number (VNum q) with
  | Some x => modest x
  | None => false
  end = true.
Proof.
  intros H. apply andb_prop in H as [H1 H10].
  apply Qle_bool_iff in H1. apply Qle_bool_iff in H10.
  cbn [py_number]. destruct (is_whole q); [|reflexivity].
  cbn [modest]. apply Z.ltb_lt. unfold whole_part.
  unfold Qle in H1, H10. cbn [Qnum Qden] in H1, H10.
  assert (H0 : (0 <= Qnum q / Zpos (Qden q))%Z)
    by (apply Z.div_pos; lia).
  assert (Hu : (Qnum q / Zpos (Qden q) <= 10)%Z)
    by (apply Z.div_le_upper_bound; lia).
  rewrite Z.abs_eq by exact H0.
  eapply Z.le_lt_trans; [exact Hu|]. reflexivity.
Qed.

Lemma validated_is_ready (file_path file_info : value) (d : dict) (r : value) :
  _validate_review_result float_of_string (VDict d) = Ok r ->
  report_ready (built_review file_path r file_info) = true.
Proof.
  intros Hr.
  destruct (validated_entries float_of_string d r Hr)
    as (d' & items & q & l1 & l2 & -> & _ & Hq & Hb & _ & _ & Hc & Hl1 & Hl2).
  unfold report_ready, built_review. apply orb_true_iff. right.
  assert (G : dict_get "review_result" VNone
                [("file_path", file_path); ("review_result", VDict d');
                 ("file_info", file_info)] = VDict d') by reflexivity.
  rewrite G. unfold dict_get. rewrite Hc, Hq, Hl1, Hl2.
  rewrite validated_comments_valid, (score_is_modest q Hb). reflexivity.
Qed.

Lemma error_is_ready (file_path file_info : value) (msg : string) :
  report_ready (built_review file_path (error_result msg) file_info) = true.
Proof. reflexivity. Qed.

Lemma reports_of_ready (reviews : list dict) :
  Forall (fun r => report_ready r = true) reviews ->
  (Z.of_nat (length reviews) < 2 ^ 32)%Z ->
  exists s entries cases,
    _generate_summary reviews = Ok s
    /\ _generate_json_report s reviews = Ok (s, entries)
    /\ testcases py_str reviews = Ok cases
    /\ _generate_junit_report py_str to_pretty_xml s reviews
       = do xml_str <- to_pretty_xml (junit_tree s cases);
         Ok (junit_tree s cases, xml_str).
Proof.
  intros Hready Hlen.
  assert (Hwf : forallb well_formed_review reviews = true).
  { apply forallb_forall. intros r Hin.
    apply report_ready_well_formed.
    rewrite List.Forall_forall in Hready. auto. }
  destruct (summary_returns reviews Hwf Hlen) as [s Es].
  destruct (json_loop_ready reviews [] Hready) as [entries Ej].
  destruct (testcases_ready reviews Hready) as [cases Ec].
  exists s, entries, cases.
  unfold _generate_json_report, _generate_junit_report.
  rewrite Ej, Ec. cbn [bind]. auto.
Qed.

(** X24. The reports do not fail on what the reviewer hands them, up to
    the serialisation of the JUnit tree.  For fewer than 2^32 reviews as
    [_review_file] builds them, each with a result that came out of
    [_validate_review_result] or is the error record of a failed call,
    the summary and the data of the JSON report are produced and the
    test cases of the JUnit tree are built; the JUnit document is
    produced exactly when the XML library serialises that tree, and
    when the library raises, as it does for a finding with a character
    XML does not allow, [_generate_junit_report] ends with that
    exception and writes nothing. *)
Theorem reports_accept_validated_reviews (reviews : list dict) :
  Forall (fun review =>
            exists file_path r file_info,
              review = built_review file_path r file_info
              /\ ((exists d,
                      _validate_review_result float_of_string (VDict d) = Ok r)
                  \/ exists msg, r = error_result msg))
         reviews ->
  (Z.of_nat (length reviews) < 2 ^ 32)%Z ->
  exists s entries cases,
    _generate_summary reviews = Ok s
    /\ _generate_json_report s reviews = Ok (s, entries)
    /\ testcases py_str reviews = Ok cases
    /\ _generate_junit_report py_str to_pretty_xml s reviews
       = match to_pretty_xml (junit_tree s cases) with
         | Ok xml_str => Ok (junit_tree s cases, xml_str)
         | Raise e => Raise e
         end.
Proof.
  intros H Hlen.
  destruct (reports_of_ready reviews) as (s & entries & cases & Hs & Hj & Hc & Hd);
    [|exact Hlen|].
  - eapply List.Forall_impl; [|exact H]. cbn beta.
    intros review (p & r & fi & -> & [[d Hd] | [msg ->]]).
    + eapply validated_is_ready; eauto.
    + apply error_is_ready.
  - exists s, entries, cases. rewrite Hd.
    split; [exact Hs|]. split; [exact Hj|]. split; [exact Hc|].
    reflexivity.
Qed.

End ReportsOfValidatedReviews.

Lemma reports_accept_validated_reviews_witness :
  exists s entries cases,
    _generate_summary example_built_reviews = Ok s
    /\ _generate_json_report s example_built_reviews = Ok (s, entries)
    /\ testcases example_py_str example_built_reviews = Ok cases
    /\ _generate_junit_report example_py_str example_to_xml s
         example_built_reviews
       = match example_to_xml (junit_tree s cases) with
         | Ok xml_str => Ok (junit_tree s cases, xml_str)
         | Raise e => Raise e
         end.
Proof.
  apply (reports_accept_validated_reviews example_py_str example_to_xml
           (fun _ => None) example_built_reviews).
  - repeat constructor.
    + exists (VStr "a.py"), example_validated, (VDict []).
      split; [reflexivity|]. left. exists example_answer. reflexivity.
    + exists (VStr "b.py"), (error_result "timeout"), (VDict []).
      split; [reflexivity|]. right. exists "timeout". reflexivity.
  - reflexivity.
Defined.

(** ** Posting the findings *)

Section PostingProperties.

Variable py_str : value -> string.
Variable title : string -> string.
Variable emoji_low emoji_medium emoji_high : string.
Variable emoji_security emoji_performance emoji_quality : string.
Variable emoji_logic emoji_style emoji_robot : string.
Variable float_of_string : string -> option pyfloat.

Lemma truthy_item (k : string) (d : dict) :
  truthy (dict_get k VNone d) = true ->
  dict_item k d = Ok (dict_get k VNone d).
Proof.
  unfold dict_get, dict_item. destruct (dict_lookup k d); [auto|discriminate].
Qed.

Lemma format_comment_total (d : dict) :
  valid_finding (VDict d) = true ->
  exists text,
    _format_comment py_str title emoji_low emoji_medium emoji_high
      emoji_security emoji_performance emoji_quality emoji_logic emoji_style
      emoji_robot d = Ok text.
Proof.
  intros H. apply valid_finding_severity in H as (d' & sev & cat & E & Hs & Hc).
  injection E as <-. unfold _format_comment.
  rewrite (dict_get_default _ _ _ _ Hs), (dict_get_default _ _ _ _ Hc).
  cbn [emoji_get py_title bind].
  destruct (truthy (dict_get "suggestion" VNone d)) eqn:Et.
  - rewrite (truthy_item _ _ Et). cbn [bind]. eauto.
  - cbn [bind]. eauto.
Qed.

Lemma should_post_total (cfg : config) (d : dict) :
  valid_finding (VDict d) = true ->
  exists b, _should_post_comment cfg d = Ok b.
Proof.
  intros H. apply valid_finding_severity in H as (d' & sev & cat & E & Hs & _).
  injection E as <-. unfold _should_post_comment.
  rewrite (dict_get_default _ _ _ _ Hs). cbn [levels_get bind]. eauto.
Qed.

Lemma post_comments_loop (cfg : config) (mr_iid : string) (p : value)
    (items : list value) (notes : list note) :
  forallb valid_finding items = true ->
  exists new,
    for_each
      (post_comment_step py_str title emoji_low emoji_medium emoji_high
         emoji_security emoji_performance emoji_quality emoji_logic
         emoji_style emoji_robot cfg mr_iid p) items notes
    = Ok (notes ++ new)%list
    /\ Forall2
         (note_for py_str title emoji_low emoji_medium emoji_high
            emoji_security emoji_performance emoji_quality emoji_logic
            emoji_style emoji_robot mr_iid)
         new (map (fun c => (p, c)) (List.filter (passes_gate cfg) items)).
Proof.
  revert notes. induction items as [|c items IH]; intros notes H.
  - exists []. rewrite app_nil_r. split; [reflexivity | constructor].
  - cbn [forallb] in H. apply andb_prop in H as [Hc Hl].
    destruct c as [| | | | |d]; try discriminate.
    destruct (should_post_total cfg d Hc) as [b Hb].
    destruct (format_comment_total d Hc) as [text Ht].
    cbn [for_each post_comment_step List.filter passes_gate].
    rewrite Hb. cbn [bind]. destruct b.
    + rewrite Ht. cbn [bind].
      destruct (IH (notes ++ [post_mr_comment py_str mr_iid text p
                                (dict_get "line_number" VNone d)])%list Hl)
        as (new & -> & Hnew).
      eexists (_ :: new). rewrite <- app_assoc. split; [reflexivity|].
      cbn [map]. constructor; [|exact Hnew].
      exists d, text. auto.
    + cbn [bind]. apply IH, Hl.
Qed.

Lemma post_review_step_ready (cfg : config) (mr_iid : string)
    (p r fi : value) (notes : list note) :
  report_ready (built_review p r fi) = true ->
  exists new,
    post_review_step py_str title emoji_low emoji_medium emoji_high
      emoji_security emoji_performance emoji_quality emoji_logic
      emoji_style emoji_robot cfg mr_iid notes (built_review p r fi)
    = Ok (notes ++ new)%list
    /\ Forall2
         (note_for py_str title emoji_low emoji_medium emoji_high
            emoji_security emoji_performance emoji_quality emoji_logic
            emoji_style emoji_robot mr_iid)
         new
         (map (fun c => (dict_get "file_path" VNone (built_review p r fi), c))
            (List.filter (passes_gate cfg)
               (review_items (built_review p r fi)))).
Proof.
  unfold report_ready, review_items, post_review_step, post_skipped.
  assert (G1 : dict_get "review_result" VNone (built_review p r fi) = r)
    by reflexivity.
  assert (G2 : dict_item "review_result" (built_review p r fi) = Ok r)
    by reflexivity.
  assert (G3 : dict_item "file_path" (built_review p r fi) = Ok p)
    by reflexivity.
  assert (G4 : dict_get "file_path" VNone (built_review p r fi) = p)
    by reflexivity.
  assert (G5 : skipped (built_review p r fi) = negb (truthy r))
    by reflexivity.
  assert (G6 : truthy (VDict (built_review p r fi)) = true) by reflexivity.
  rewrite G1, G2, G3, G4, G5, G6. cbn [negb bind].
  destruct (truthy r) eqn:Etr; cbn [negb orb].
  - destruct r as [| | | | |result]; try discriminate.
    intros H. apply andb_prop in H as [H _]. apply andb_prop in H as [H _].
    apply andb_prop in H as [Hl _]. cbn [py_get bind].
    destruct (dict_get "comments" (VList []) result) as [| | | |l|];
      try discriminate.
    cbn [py_iter bind]. apply post_comments_loop, Hl.
  - intros _. exists []. rewrite app_nil_r. split; [reflexivity|constructor].
Qed.

Lemma posting_of_ready
    (rs : run_settings) (mr_iid : string) (reviews : list dict) :
  post_mr_comments rs = true ->
  env_set (ci_merge_request_iid rs) = Some mr_iid ->
  Forall (fun review =>
            exists file_path r file_info,
              review = built_review file_path r file_info
              /\ report_ready review = true)
         reviews ->
  exists notes,
    _post_review_comments py_str title emoji_low emoji_medium emoji_high
      emoji_security emoji_performance emoji_quality emoji_logic emoji_style
      emoji_robot rs reviews = Ok notes
    /\ Forall2
         (note_for py_str title emoji_low emoji_medium emoji_high
            emoji_security emoji_performance emoji_quality emoji_logic
            emoji_style emoji_robot mr_iid)
         notes (findings_to_post (base rs) reviews).
Proof.
  intros Hpost Hiid H. unfold _post_review_comments. rewrite Hpost, Hiid.
  assert (Hloop : forall notes,
             exists new,
               for_each
                 (post_review_step py_str title emoji_low emoji_medium
                    emoji_high emoji_security emoji_performance
                    emoji_quality emoji_logic emoji_style emoji_robot
                    (base rs) mr_iid) reviews notes
               = Ok (notes ++ new)%list
               /\ Forall2
                    (note_for py_str title emoji_low emoji_medium emoji_high
                       emoji_security emoji_performance emoji_quality
                       emoji_logic emoji_style emoji_robot mr_iid)
                    new (findings_to_post (base rs) reviews)).
  { induction H as [|review reviews Hr _ IH]; intros notes.
    - exists []. rewrite app_nil_r. split; [reflexivity | constructor].
    - destruct Hr as (p & r & fi & -> & Hready).
      destruct (post_review_step_ready (base rs) mr_iid p r fi notes Hready)
        as (new1 & E1 & F1).
      destruct (IH (notes ++ new1)%list) as (new2 & E2 & F2).
      exists (new1 ++ new2)%list. cbn [for_each]. rewrite E1. cbn [bind].
      rewrite E2, <- app_assoc. split; [reflexivity|].
      unfold findings_to_post. cbn [flat_map].
      apply Forall2_app; assumption. }
  destruct (Hloop []) as (new & E & F). exists new. split; assumption.
Qed.

(** X25. With posting switched on and a merge request given, reviews
    whose results came out of [_validate_review_result] (or are error
    records) are posted without failure: [_post_review_comments] asks
    for exactly one note per finding at or above the threshold, in the
    order of the reviews and of their findings, each with the formatted
    text of its finding, the path of its file and its line number. *)
Theorem validated_findings_are_posted
    (rs : run_settings) (mr_iid : string) (reviews : list dict) :
  post_mr_comments rs = true ->
  env_set (ci_merge_request_iid rs) = Some mr_iid ->
  Forall (fun review =>
            exists file_path r file_info,
              review = built_review file_path r file_info
              /\ ((exists d,
                      _validate_review_result float_of_string (VDict d) = Ok r)
                  \/ exists msg, r = error_result msg))
         reviews ->
  exists notes,
    _post_review_comments py_str title emoji_low emoji_medium emoji_high
      emoji_security emoji_performance emoji_quality emoji_logic emoji_style
      emoji_robot rs reviews = Ok notes
    /\ Forall2
         (note_for py_str title emoji_low emoji_medium emoji_high
            emoji_security emoji_performance emoji_quality emoji_logic
            emoji_style emoji_robot mr_iid)
         notes (findings_to_post (base rs) reviews).
Proof.
  intros Hpost Hiid H. apply posting_of_ready; [assumption | assumption |].
  eapply List.Forall_impl; [|exact H]. cbn beta.
  intros review (p & r & fi & -> & Hr).
  exists p, r, fi. split; [reflexivity|].
  destruct Hr as [[d Hd] | [msg ->]].
  - eapply validated_is_ready; eauto.
  - apply error_is_ready.
Qed.

End PostingProperties.

Lemma validated_findings_are_posted_witness :
  exists notes,
    _post_review_comments example_py_str (fun s => s) "l" "m" "h" "s" "p" "q"
      "g" "y" "r" (example_settings "changed" 50) example_built_reviews
    = Ok notes
    /\ Forall2
         (note_for example_py_str (fun s => s) "l" "m" "h" "s" "p" "q"
            "g" "y" "r" "7")
         notes
         (findings_to_post (base (example_settings "changed" 50))
            example_built_reviews).
Proof.
  apply (validated_findings_are_posted example_py_str (fun s => s)
           "l" "m" "h" "s" "p" "q" "g" "y" "r" (fun _ => None)
           (example_settings "changed" 50) "7" example_built_reviews).
  - reflexivity.
  - reflexivity.
  - repeat constructor.
    + exists (VStr "a.py"), example_validated, (VDict []).
      split; [reflexivity|]. left. exists example_answer. reflexivity.
    + exists (VStr "b.py"), (error_result "timeout"), (VDict []).
      split; [reflexivity|]. right. exists "timeout". reflexivity.
Defined.

(** ** The address of the GitLab instance *)

Lemma split_on_nonempty (sep : ascii) (s : string) : split_on sep s <> [].
Proof.
  destruct s as [|c s]; simpl; [discriminate|].
  destruct (Ascii.eqb c sep); [discriminate|].
  destruct (split_on sep s); discriminate.
Qed.

Lemma split_on_plain (sep : ascii) (x : string) :
  has_char sep x = false -> split_on sep x = [x].
Proof.
  induction x as [|c x IH]; simpl; [reflexivity|].
  rewrite has_char_cons. intros H. apply orb_false_elim in H as [Hc Hx].
  rewrite Hc, (IH Hx). reflexivity.
Qed.

Lemma split_on_app (sep : ascii) (x y : string) :
  has_char sep x = false ->
  split_on sep (x +:+ String sep y) = x :: split_on sep y.
Proof.
  induction x as [|c x IH]; simpl.
  - intros _. now rewrite Ascii.eqb_refl.
  - rewrite has_char_cons. intros H. apply orb_false_elim in H as [Hc Hx].
    rewrite Hc, (IH Hx). reflexivity.
Qed.

Lemma starts_with_app (p s : string) : starts_with p (p +:+ s) = true.
Proof.
  unfold starts_with. induction p as [|a p IH]; simpl; [reflexivity|].
  now rewrite Ascii.eqb_refl.
Qed.

Lemma contains_here (p s : string) : starts_with p s = true -> contains p s = true.
Proof. intros H. destruct s; cbn [contains]; rewrite H; reflexivity. Qed.

Lemma contains_cons (p : string) (c : ascii) (s : string) :
  contains p s = true -> contains p (String c s) = true.
Proof.
  intros H. change (starts_with p (String c s) || contains p s = true).
  rewrite H. apply orb_true_r.
Qed.

Lemma contains_app (p x s : string) : contains p (x +:+ p +:+ s) = true.
Proof.
  induction x as [|c x IH].
  - change (contains p (p +:+ s) = true).
    apply contains_here, starts_with_app.
  - change (contains p (String c (x +:+ p +:+ s)) = true).
    apply contains_cons, IH.
Qed.

(** X26. For a project address made of a scheme, two slashes, a host
    and then nothing or a path, where neither scheme nor host holds a
    slash, the address of the instance [_setup_client] derives is the
    scheme, the two slashes and the host: the path is cut off, a port
    in the host is kept. *)
Theorem gitlab_url_is_scheme_and_host (scheme host rest : string) :
  has_char "/" scheme = false ->
  has_char "/" host = false ->
  rest = EmptyString \/ first_char rest = Some "/"%char ->
  gitlab_url (Some (scheme +:+ "//" +:+ host +:+ rest))
  = Ok (scheme +:+ "//" +:+ host).
Proof.
  intros Hs Hh Hrest. unfold gitlab_url. rewrite contains_app. f_equal.
  change (scheme +:+ "//" +:+ host +:+ rest)
    with (scheme +:+ String "/" (EmptyString +:+ String "/" (host +:+ rest))).
  rewrite (split_on_app _ _ _ Hs).
  rewrite (split_on_app "/" EmptyString (host +:+ rest) eq_refl).
  assert (E : exists l, split_on "/" (host +:+ rest) = host :: l).
  { destruct Hrest as [-> | Hr].
    - exists []. rewrite append_empty. now apply split_on_plain.
    - destruct rest as [|c r]; [discriminate|]. injection Hr as ->.
      eexists. now apply split_on_app. }
  destruct E as [l ->]. reflexivity.
Qed.

Lemma gitlab_url_is_scheme_and_host_witness :
  gitlab_url (Some ("https:" +:+ "//" +:+ "gitlab.example.com:8443"
                    +:+ "/group/project"))
  = Ok ("https:" +:+ "//" +:+ "gitlab.example.com:8443").
Proof.
  apply (gitlab_url_is_scheme_and_host "https:" "gitlab.example.com:8443"
           "/group/project").
  - reflexivity.
  - reflexivity.
  - right. reflexivity.
Defined.

(** ** From the files to the reports *)

Section Pipeline.

Variable loads : string -> option value.
Variable float_of_string : string -> option pyfloat.
Variable str_exc : exc -> string.
Variable generate_content :
  value -> string -> option value -> bool -> bool -> model_outcome.
Variable get_file_content : value -> value -> option string.
Variable cfg : config.
Variable py_str : value -> string.
Variable to_pretty_xml : element -> res string.
Variable title : string -> string.
Variable emoji_low emoji_medium emoji_high : string.
Variable emoji_security emoji_performance emoji_quality : string.
Variable emoji_logic emoji_style emoji_robot : string.

(** Every answer of the model is a text [json.loads] accepts. *)
Hypothesis answers_parse :
  forall path content diff a b text,
    generate_content path content diff a b = ModelText text ->
    text <> EmptyString ->
    loads text <> None.

Lemma review_code_ready (path : value) (content : string)
    (diff : option value) (a b : bool) (fi : value) :
  report_ready
    (built_review path
       (review_code loads float_of_string str_exc generate_content
          path content diff a b) fi) = true.
Proof.
  unfold review_code.
  destruct (generate_content path content diff a b) as [e|text] eqn:E;
    [apply error_is_ready|].
  destruct (String.eqb text EmptyString) eqn:Et; [apply error_is_ready|].
  apply String.eqb_neq in Et.
  destruct (loads text) as [v|] eqn:El;
    [|exfalso; exact (answers_parse _ _ _ _ _ _ E Et El)].
  destruct (_validate_review_result float_of_string v) as [r|e] eqn:Ev;
    [|apply error_is_ready].
  destruct v as [| | | | |d]; try discriminate.
  eapply validated_is_ready; eauto.
Qed.

Lemma review_files_ready (files reviews : list dict) :
  review_files loads float_of_string str_exc generate_content
    get_file_content cfg files = Ok reviews ->
  Forall (fun review =>
            exists file_path r file_info,
              review = built_review file_path r file_info
              /\ report_ready review = true)
         reviews.
Proof.
  revert reviews. induction files as [|f files IH]; intros reviews; simpl.
  - intros H. injection H as <-. constructor.
  - intros H. bind_inv H. bind_inv H. injection H as <-.
    specialize (IH _ Ha0). unfold _review_file in Ha. bind_inv Ha.
    destruct (get_file_content a1 (ci_commit_sha cfg)) as [content|];
      [|injection Ha as <-; exact IH].
    destruct (String.eqb content EmptyString);
      [injection Ha as <-; exact IH|].
    injection Ha as <-. cbn [truthy]. constructor; [|exact IH].
    eexists _, _, _. split; [reflexivity|]. apply review_code_ready.
Qed.

Lemma review_files_length (files reviews : list dict) :
  review_files loads float_of_string str_exc generate_content
    get_file_content cfg files = Ok reviews ->
  length reviews <= length files.
Proof.
  revert reviews. induction files as [|f files IH]; intros reviews; simpl.
  - intros H. injection H as <-. reflexivity.
  - intros H. bind_inv H. bind_inv H. injection H as <-.
    specialize (IH _ Ha0).
    destruct a as [[|kv r]|]; simpl; lia.
Qed.

(** X27. From the files to the reports: when every answer of the model
    is a text [json.loads] accepts, the reviews the loop of [run]
    collects for fewer than 2^32 files make no later stage fail, up to
    the serialisation of the JUnit tree.  The summary and the data of
    the JSON report are produced and the test cases of the JUnit tree
    are built; the JUnit document is produced exactly when the XML
    library serialises that tree, and otherwise
    [_generate_junit_report] ends with the exception of the library.
    With posting switched on [_post_review_comments] posts one note per
    finding at or above the threshold. *)
Theorem parsed_answers_reach_the_reports (files reviews : list dict) :
  review_files loads float_of_string str_exc generate_content
    get_file_content cfg files = Ok reviews ->
  (Z.of_nat (length files) < 2 ^ 32)%Z ->
  (exists s entries cases,
      _generate_summary reviews = Ok s
      /\ _generate_json_report s reviews = Ok (s, entries)
      /\ testcases py_str reviews = Ok cases
      /\ _generate_junit_report py_str to_pretty_xml s reviews
         = match to_pretty_xml (junit_tree s cases) with
           | Ok xml_str => Ok (junit_tree s cases, xml_str)
           | Raise e => Raise e
           end)
  /\ (forall rs mr_iid,
        base rs = cfg ->
        post_mr_comments rs = true ->
        env_set (ci_merge_request_iid rs) = Some mr_iid ->
        exists notes,
          _post_review_comments py_str title emoji_low emoji_medium
            emoji_high emoji_security emoji_performance emoji_quality
            emoji_logic emoji_style emoji_robot rs reviews = Ok notes
          /\ Forall2
               (note_for py_str title emoji_low emoji_medium emoji_high
                  emoji_security emoji_performance emoji_quality emoji_logic
                  emoji_style emoji_robot mr_iid)
               notes (findings_to_post cfg reviews)).
Proof.
  intros H Hlen. pose proof (review_files_ready _ _ H) as Hready.
  pose proof (review_files_length _ _ H) as Hle. split.
  - destruct (reports_of_ready py_str to_pretty_xml reviews)
      as (s & entries & cases & Hs & Hj & Hc & Hd); [|lia|].
    + eapply List.Forall_impl; [|exact Hready]. cbn beta.
      intros review (p & r & fi & _ & Hr). exact Hr.
    + exists s, entries, cases. rewrite Hd.
      split; [exact Hs|]. split; [exact Hj|]. split; [exact Hc|].
      reflexivity.
  - intros rs mr_iid <- Hpost Hiid. now apply posting_of_ready.
Qed.

End Pipeline.

Lemma parsed_answers_reach_the_reports_witness :
  (exists s entries cases,
      _generate_summary example_pipeline_reviews = Ok s
      /\ _generate_json_report s example_pipeline_reviews = Ok (s, entries)
      /\ testcases example_py_str example_pipeline_reviews = Ok cases
      /\ _generate_junit_report example_py_str example_to_xml s
           example_pipeline_reviews
         = match example_to_xml (junit_tree s cases) with
           | Ok xml_str => Ok (junit_tree s cases, xml_str)
           | Raise e => Raise e
           end)
  /\ (forall rs mr_iid,
        base rs = example_config "medium" ->
        post_mr_comments rs = true ->
        env_set (ci_merge_request_iid rs) = Some mr_iid ->
        exists notes,
          _post_review_comments example_py_str (fun s => s)
            "l" "m" "h" "s" "p" "q" "g" "y" "r" rs example_pipeline_reviews
          = Ok notes
          /\ Forall2
               (note_for example_py_str (fun s => s)
                  "l" "m" "h" "s" "p" "q" "g" "y" "r" mr_iid)
               notes
               (findings_to_post (example_config "medium")
                  example_pipeline_reviews)).
Proof.
  apply (parsed_answers_reach_the_reports example_loads (fun _ => None)
           example_exc_str (fun _ _ _ _ _ => ModelText "{severity: critical}")
           (fun _ _ => Some "x = 1") (example_config "medium")
           example_py_str example_to_xml (fun s => s)
           "l" "m" "h" "s" "p" "q" "g" "y" "r")
    with (files := example_pipeline_files).
  - intros path content diff a b text H _. injection H as <-. discriminate.
  - reflexivity.
  - reflexivity.
Defined.

(** ** The language filter *)

Section LanguageFilter.

Variable path_suffix : string -> string.

Lemma languages_loop_true (ext : string) (langs : list string) :
  languages_loop ext langs = true <->
  exists lang exts,
    In lang langs
    /\ assoc (lower (strip lang)) language_extensions = Some exts
    /\ str_in ext exts = true.
Proof.
  induction langs as [|l langs IH].
  - split; [discriminate | intros (lang & exts & [] & _)].
  - cbn [languages_loop].
    destruct (assoc (lower (strip l)) language_extensions) as [exts|] eqn:E.
    + destruct (str_in ext exts) eqn:Es.
      * split; [|reflexivity]. intros _. exists l, exts.
        repeat split; [now left | assumption | assumption].
      * rewrite IH. split.
        -- intros (lang & exts' & Hin & Ha & Hs).
           exists lang, exts'. repeat split; [now right | assumption | assumption].
        -- intros (lang & exts' & [<- | Hin] & Ha & Hs).
           ++ rewrite E in Ha. injection Ha as <-. congruence.
           ++ exists lang, exts'. auto.
    + rewrite IH. split.
      * intros (lang & exts' & Hin & Ha & Hs).
        exists lang, exts'. repeat split; [now right | assumption | assumption].
      * intros (lang & exts' & [<- | Hin] & Ha & Hs).
        -- rewrite E in Ha. discriminate.
        -- exists lang, exts'. auto.
Qed.

(** X28. A path has one of the configured languages exactly when some
    entry of the list, stripped of surrounding blanks and put in lower
    case, is a row of the extension table that lists the suffix of the
    path in lower case: the names of the languages and the suffix are
    compared without regard to case, and a name that is no row of the
    table allows nothing. *)
Theorem matches_languages_iff (p : string) (langs : list string) :
  _matches_languages path_suffix (VStr p) langs = Ok true <->
  exists lang exts,
    In lang langs
    /\ assoc (lower (strip lang)) language_extensions = Some exts
    /\ str_in (lower (path_suffix p)) exts = true.
Proof.
  unfold _matches_languages. rewrite <- languages_loop_true. split.
  - intros H. now injection H.
  - now intros ->.
Qed.

End LanguageFilter.
